(** * FGWS/main.py: the training, validation and test control loop

    A shallow embedding of [main.py]: epoch and batch iteration, the
    best-epoch record, checkpoint saving and promotion, and the test pass.
    The numeric backend (torch, numpy) and the helpers of [utils.py] are
    collaborators of the control loop; they enter through the [Backend]
    interface below. *)

From Stdlib Require Import ZArith QArith Qabs List String Lia Bool.
From stdpp Require Import base option list gmap.
Import ListNotations.

Local Open Scope Z_scope.

(** ** Python floats

    Losses, thresholds and raw scores are Python floats.  Finite values are
    kept as exact rationals (rounding is not modelled); the two infinities
    and nan follow the IEEE comparison rules the code relies on:
    every ordered comparison with nan is false. *)

Module PyFloat.

Inductive pyfloat : Type :=
  | Fin (q : Q)
  | PInf
  | NInf
  | NaN.

Definition inf : pyfloat := PInf.

Definition of_Z (z : Z) : pyfloat := Fin (inject_Z z).

(** [x < y] on floats. *)
Definition ltb (x y : pyfloat) : bool :=
  match x, y with
  | NaN, _ | _, NaN => false
  | Fin a, Fin b => if Qlt_le_dec a b then true else false
  | Fin _, PInf => true
  | Fin _, NInf => false
  | PInf, _ => false
  | NInf, NInf => false
  | NInf, _ => true
  end.

(** [x <= y] on floats. *)
Definition leb (x y : pyfloat) : bool :=
  match x, y with
  | NaN, _ | _, NaN => false
  | Fin a, Fin b => if Qlt_le_dec b a then false else true
  | Fin _, PInf => true
  | Fin _, NInf => false
  | PInf, PInf => true
  | PInf, _ => false
  | NInf, _ => true
  end.

(** [x > y] is [y < x]. *)
Definition gtb (x y : pyfloat) : bool := ltb y x.

Definition is_nan (x : pyfloat) : bool :=
  match x with NaN => true | _ => false end.

Definition add (x y : pyfloat) : pyfloat :=
  match x, y with
  | NaN, _ | _, NaN => NaN
  | Fin a, Fin b => Fin (Qred (a + b))
  | PInf, NInf | NInf, PInf => NaN
  | PInf, _ | _, PInf => PInf
  | NInf, _ | _, NInf => NInf
  end.

(** Division of a float by a positive count. *)
Definition div_count (x : pyfloat) (n : positive) : pyfloat :=
  match x with
  | Fin a => Fin (Qred (a / inject_Z (Zpos n)))
  | other => other
  end.

Definition sum (l : list pyfloat) : pyfloat := fold_left add l (of_Z 0).

(** [np.mean] of a list of floats: nan (with a warning, not an exception)
    on the empty list, otherwise the sum divided by the length. *)
Definition np_mean (l : list pyfloat) : pyfloat :=
  match l with
  | [] => NaN
  | _ :: _ => div_count (sum l) (Pos.of_nat (length l))
  end.

(** Python's builtin [max] over a non-empty sequence: the first element is
    kept until a strictly greater one is met.  [None] stands for the
    [ValueError] raised on an empty sequence. *)
Definition py_max (l : list pyfloat) : option pyfloat :=
  match l with
  | [] => None
  | x :: rest => Some (fold_left (fun m y => if gtb y m then y else m) rest x)
  end.

End PyFloat.
Export PyFloat.

Arguments ltb : simpl never.
Arguments leb : simpl never.
Arguments gtb : simpl never.
Arguments np_mean : simpl never.
Arguments py_max : simpl never.

(** ** Batching arithmetic and slicing *)

(** [int(math.ceil(n / b))] for an integer length [n] and batch size [b];
    [None] stands for the [ZeroDivisionError] of [n / 0]. *)
Definition num_batches (n b : Z) : option Z :=
  if b =? 0 then None else Some (- ((- n) / b)).

(** A slice bound as Python clamps it against a sequence of length [len]. *)
Definition clamp_index (len i : Z) : Z :=
  if i <? 0 then Z.max 0 (i + len) else Z.min i len.

(** [l[lo:hi]]. *)
Definition py_slice {A : Type} (l : list A) (lo hi : Z) : list A :=
  let len := Z.of_nat (length l) in
  let a := clamp_index len lo in
  let b := clamp_index len hi in
  firstn (Z.to_nat (b - a)) (skipn (Z.to_nat a) l).

(** [range(n)] and [range(lo, hi)]. *)
Definition py_range (n : Z) : list Z :=
  map Z.of_nat (seq 0 (Z.to_nat n)).

Definition py_range2 (lo hi : Z) : list Z :=
  map (fun i => lo + Z.of_nat i) (seq 0 (Z.to_nat (hi - lo))).

(** The slice the loop body takes for batch number [batch]. *)
Definition batch_slice {A : Type} (l : list A) (b batch : Z) : list A :=
  py_slice l (batch * b) ((batch + 1) * b).

(** The batches of one pass, in loop order. *)
Definition batch_slices {A : Type} (l : list A) (b : Z) : option (list (list A)) :=
  match num_batches (Z.of_nat (length l)) b with
  | None => None
  | Some nb => Some (map (batch_slice l b) (py_range nb))
  end.

(** [l[i]]: [None] stands for [IndexError]. *)
Definition py_index {A : Type} (l : list A) (i : Z) : option A :=
  let len := Z.of_nat (length l) in
  if i <? 0
  then (if i + len <? 0 then None else nth_error l (Z.to_nat (i + len)))
  else nth_error l (Z.to_nat i).

(** ** Data model *)

Definition token := string.
Definition sentence := list token.
Definition label := Z.
(** The raw score vector of one example. *)
Definition scores := list pyfloat.

(** The three splits held by [data_module]; texts and labels are parallel
    lists. *)
Record DataModule : Type := mkData {
  train_texts : list sentence;
  train_pols : list label;
  val_texts : list sentence;
  val_pols : list label;
  test_texts : list sentence;
  test_pols : list label
}.

(** The options of [config] the control loop reads.  [config.gpu] only
    moves the model and the tensors to the accelerator and has no
    counterpart here. *)
Record Config : Type := mkConfig {
  mode : string;
  use_BERT : bool;
  model_type : string;
  batch_size_train : Z;
  batch_size_val : Z;
  batch_size_test : Z;
  num_epoch : Z;
  clip_norm : pyfloat;
  test_on_val : bool;
  max_len : Z;
  pad_token : token;
  unk_token : token;
  load_model_path : string
}.

(** Directories holding a [model.pth]:
    ["{base}/checkpoints/epoch_{k}"], ["{base}/checkpoints/e_best"], and
    any other location (such as [config.load_model_path]). *)
Inductive ckpt_name : Type :=
  | epoch_dir (k : Z)
  | e_best
  | user_path (p : string).

Global Instance ckpt_name_eq_dec : EqDecision ckpt_name.
Proof. solve_decision. Defined.

Global Instance ckpt_name_countable : Countable ckpt_name.
Proof.
  refine (inj_countable'
    (fun n => match n with
              | epoch_dir k => inl k
              | e_best => inr (inl tt)
              | user_path p => inr (inr p)
              end)
    (fun s => match s with
              | inl k => epoch_dir k
              | inr (inl _) => e_best
              | inr (inr p) => user_path p
              end) _).
  intros []; reflexivity.
Defined.

Inductive exn : Type :=
  | ZeroDivisionError
  | IndexError
  | ValueError
  | FileNotFoundError (p : ckpt_name)
  | OSError (p : ckpt_name)
  | AttributeError
  | SystemExit.

Inductive outcome (A : Type) : Type :=
  | Ok (a : A)
  | Raise (e : exn).
Arguments Ok {A} a.
Arguments Raise {A} e.

Inductive writer : Type := train_writer | val_writer.

(** ** The numeric backend and the helpers of [utils.py]

    [main.py] drives a model, an optimizer and a scheduler it does not
    define, and imports its helpers from [utils.py].  They are the fields of
    this interface; the control loop below is written against it. *)
Class Backend : Type := {
  (** [model.state_dict()], the gradients held by the parameters,
      [optimizer.state_dict()], the scheduler, and the random state. *)
  params : Type;
  grads : Type;
  opt_state : Type;
  sched_state : Type;
  rng : Type;
  (** constructors of the three backbones *)
  init_bert : params;
  init_cnn : bool -> params;
  init_lstm : bool -> params;
  init_adamw : params -> opt_state;
  init_adam : params -> opt_state;
  (** [get_linear_schedule_with_warmup], from the total number of steps *)
  init_scheduler : Config -> Z -> sched_state;
  (** [utils.pad], [utils.prep_seq], [bert_wrapper.pre_pro] *)
  pad : Z -> sentence -> token -> sentence;
  prep_seq : sentence -> token -> list Z;
  pre_pro : sentence -> list Z * list Z;
  (** [utils.shuffle_lists] *)
  shuffle_lists :
    rng -> list sentence -> list label -> (list sentence * list label) * rng;
  (** [utils.inference(sentences, model, word_to_idx, config, val=...)]:
      predictions and raw outputs; the first argument is the [val] flag *)
  inference : bool -> Config -> params -> list sentence -> list label * list scores;
  (** [utils.compute_accuracy], [utils.list_join] *)
  compute_accuracy : list label -> list label -> pyfloat;
  list_join : sentence -> string;
  (** [model(inputs)] of a CNN or LSTM *)
  model_forward : params -> list (list Z) -> list scores;
  (** [model(inputs, attention_mask=masks, labels=labels)] of the
      transformer: its own loss and the raw outputs *)
  bert_forward : params -> list (list Z) -> list (list Z) -> list label -> pyfloat * list scores;
  (** [nn.CrossEntropyLoss()] *)
  criterion : list scores -> list label -> pyfloat;
  (** [model.zero_grad()] and [loss.backward()]: the gradient of the
      external loss, and of the transformer's internal loss, added to the
      gradients already held *)
  zero_grad : grads;
  backward_criterion : params -> list (list Z) -> list label -> grads -> grads;
  backward_bert : params -> list (list Z) -> list (list Z) -> list label -> grads -> grads;
  (** [clip_grad_norm_(model.parameters(), max_norm)] *)
  clip_grad_norm_ : grads -> pyfloat -> grads;
  (** [optimizer.step()] and [scheduler.step()] *)
  optimizer_step : opt_state -> params -> grads -> opt_state * params;
  scheduler_step : sched_state -> opt_state -> sched_state * opt_state
}.

Section ControlLoop.

Context {B : Backend}.

(** What [torch.save] writes into [model.pth]. *)
Record checkpoint : Type := mkCheckpoint {
  ckpt_epoch : Z;
  model_state_dict : params;
  optimizer_state_dict : opt_state
}.

(** The checkpoint directories: a directory that exists maps to the
    [model.pth] it holds, if any. *)
Abbreviation filesystem := (gmap ckpt_name (option checkpoint)).

(** The messages passed to [logger.log.info]. *)
Inductive log_msg : Type :=
  | MsgBestEpoch (best : Z * pyfloat)
  | MsgVal (epoch : Z) (loss acc : pyfloat)
  | MsgTestHeader (number : Z)
  | MsgSentence (joined : string)
  | MsgLabel (l : label)
  | MsgPrediction (p : label)
  | MsgConfidence (c : pyfloat)
  | MsgTestAccuracy (acc : pyfloat)
  | MsgTrainBatch (epoch batch total : Z) (loss : pyfloat)
  | MsgTrainEpoch (epoch : Z) (loss : pyfloat)
  | MsgSaveModel (epoch : Z)
  | MsgStartTraining
  | MsgFinishedTraining
  | MsgIncorrectMode (m : string).

(** Everything the program does to its collaborators, in program order. *)
Inductive event : Type :=
  | EvLog (m : log_msg)
  | EvScalar (wr : writer) (tag : string) (value : pyfloat) (step : Z)
  | EvHistograms (epoch : Z) (p : params)
  | EvWriterClose (wr : writer)
  | EvCopyFile
  | EvInference (val : bool) (sentences : list sentence)
  | EvForward (inputs : list (list Z))
  | EvForwardBert (inputs masks : list (list Z)) (labels : list label)
  | EvOptimizerStep (g : grads)
  | EvSchedulerStep
  | EvSave (k : Z)
  | EvRename (src dst : ckpt_name)
  | EvLoadModel (src : ckpt_name).

(** The globals of [main.py] and the state of its collaborators. *)
Record world : Type := mkWorld {
  data_module : DataModule;
  model : params;
  model_grads : grads;
  optimizer : opt_state;
  scheduler : option sched_state;
  best_epoch : Z * pyfloat;
  fs : filesystem;
  random_state : rng;
  trace : list event
}.

Definition set_data (d : DataModule) (w : world) : world :=
  mkWorld d (model w) (model_grads w) (optimizer w) (scheduler w)
          (best_epoch w) (fs w) (random_state w) (trace w).
Definition set_model (m : params) (w : world) : world :=
  mkWorld (data_module w) m (model_grads w) (optimizer w) (scheduler w)
          (best_epoch w) (fs w) (random_state w) (trace w).
Definition set_grads (g : grads) (w : world) : world :=
  mkWorld (data_module w) (model w) g (optimizer w) (scheduler w)
          (best_epoch w) (fs w) (random_state w) (trace w).
Definition set_optimizer (o : opt_state) (w : world) : world :=
  mkWorld (data_module w) (model w) (model_grads w) o (scheduler w)
          (best_epoch w) (fs w) (random_state w) (trace w).
Definition set_scheduler (s : option sched_state) (w : world) : world :=
  mkWorld (data_module w) (model w) (model_grads w) (optimizer w) s
          (best_epoch w) (fs w) (random_state w) (trace w).
Definition set_best_epoch (b : Z * pyfloat) (w : world) : world :=
  mkWorld (data_module w) (model w) (model_grads w) (optimizer w) (scheduler w)
          b (fs w) (random_state w) (trace w).
Definition set_fs (f : filesystem) (w : world) : world :=
  mkWorld (data_module w) (model w) (model_grads w) (optimizer w) (scheduler w)
          (best_epoch w) f (random_state w) (trace w).
Definition set_random_state (r : rng) (w : world) : world :=
  mkWorld (data_module w) (model w) (model_grads w) (optimizer w) (scheduler w)
          (best_epoch w) (fs w) r (trace w).
Definition set_trace (t : list event) (w : world) : world :=
  mkWorld (data_module w) (model w) (model_grads w) (optimizer w) (scheduler w)
          (best_epoch w) (fs w) (random_state w) t.

(** ** Statements: state passing with exceptions *)

Definition M (A : Type) : Type := world -> outcome A * world.

Definition ret {A : Type} (a : A) : M A := fun w => (Ok a, w).

Definition bind {A C : Type} (m : M A) (k : A -> M C) : M C :=
  fun w => match m w with
           | (Ok a, w') => k a w'
           | (Raise e, w') => (Raise e, w')
           end.

Definition raise {A : Type} (e : exn) : M A := fun w => (Raise e, w).

Definition get : M world := fun w => (Ok w, w).

Definition modify (f : world -> world) : M unit := fun w => (Ok tt, f w).

Definition emit (e : event) : M unit :=
  modify (fun w => set_trace (trace w ++ [e]) w).

Definition log_info (m : log_msg) : M unit := emit (EvLog m).

Definition or_raise {A : Type} (e : exn) (o : option A) : M A :=
  match o with
  | Some a => ret a
  | None => raise e
  end.

(** [for x in l: acc = body x acc], for the locals a loop rebinds. *)
Fixpoint for_fold {A S : Type} (l : list A) (body : A -> S -> M S) (acc : S) : M S :=
  match l with
  | [] => ret acc
  | x :: rest => bind (body x acc) (for_fold rest body)
  end.

Definition for_each {A : Type} (l : list A) (body : A -> M unit) : M unit :=
  for_fold l (fun x _ => body x) tt.


Notation "x <- m ;; k" := (bind m (fun x => k))
  (at level 100, m at next level, right associativity).
Notation "m ;; k" := (bind m (fun _ => k))
  (at level 100, right associativity).

Definition len {A : Type} (l : list A) : Z := Z.of_nat (length l).

(** ** [save_model], [os.rename], [load_model] *)

(** [save_model(epoch)]: the directory is created when missing and
    [model.pth] is written (or overwritten) in it. *)
Definition save_model (epoch : Z) : M unit :=
  w <- get ;;
  let save_path := epoch_dir epoch in
  modify (set_fs (<[save_path :=
            Some (mkCheckpoint epoch (model w) (optimizer w))]> (fs w))) ;;
  emit (EvSave epoch).

(** [os.rename(src, dst)] on directories (POSIX): a missing source raises
    [FileNotFoundError]; a destination that exists and is not empty raises
    [OSError]; otherwise the source takes the destination's name. *)
Definition os_rename (src dst : ckpt_name) : M unit :=
  w <- get ;;
  match fs w !! src with
  | None => raise (FileNotFoundError src)
  | Some content =>
      if decide (src = dst) then ret tt
      else match fs w !! dst with
           | Some (Some _) => raise (OSError dst)
           | _ =>
               modify (set_fs (<[dst := content]> (delete src (fs w)))) ;;
               emit (EvRename src dst)
           end
  end.

(** Modelled from the spec: [utils.load_model] is not part of [main.py];
    it loads the parameters of the checkpoint stored at the given place into
    the live model, and fails when no [model.pth] is there. *)
Definition load_model (src : ckpt_name) : M unit :=
  w <- get ;;
  match fs w !! src with
  | Some (Some c) =>
      modify (set_model (model_state_dict c)) ;;
      emit (EvLoadModel src)
  | _ => raise (FileNotFoundError src)
  end.

(** ** [eval_model] *)

Definition call_inference (val : bool) (cfg : Config) (sentences : list sentence)
  : M (list label * list scores) :=
  w <- get ;;
  emit (EvInference val sentences) ;;
  ret (inference val cfg (model w) sentences).

(** The body of the batch loop of [eval_model]; the accumulator holds the
    locals [predictions] and [total_loss]. *)
Definition eval_batch (cfg : Config) (d : DataModule) (batch : Z)
    (acc : list label * list pyfloat) : M (list label * list pyfloat) :=
  let '(predictions, total_loss) := acc in
  let sentences := batch_slice (val_texts d) (batch_size_val cfg) batch in
  let labels := batch_slice (val_pols d) (batch_size_val cfg) batch in
  r <- call_inference true cfg sentences ;;
  let '(preds, outputs) := r in
  let loss := criterion outputs labels in
  ret (predictions ++ preds, total_loss ++ [loss]).

Definition eval_model (cfg : Config) (epoch : Z) : M unit :=
  w <- get ;;
  let d := data_module w in
  num_batches <- or_raise ZeroDivisionError
                   (num_batches (len (val_texts d)) (batch_size_val cfg)) ;;
  result <- for_fold (py_range num_batches) (eval_batch cfg d) ([], []) ;;
  let '(predictions, total_loss) := result in
  let acc := compute_accuracy predictions (val_pols d) in
  let total_loss := np_mean total_loss in
  (w <- get ;;
   if ltb total_loss (snd (best_epoch w))
   then modify (set_best_epoch (epoch, total_loss))
   else ret tt) ;;
  w <- get ;;
  log_info (MsgBestEpoch (best_epoch w)) ;;
  log_info (MsgVal epoch total_loss acc) ;;
  emit (EvScalar val_writer "Val/accuracy" acc epoch) ;;
  emit (EvScalar val_writer "Val/loss" total_loss epoch) ;;
  emit (EvWriterClose val_writer).

(** ** [test_model] *)

(** The body of the inner loop of [test_model]: the diagnostic record of
    example [idx] of the batch. *)
Definition test_example (cfg : Config) (batch : Z)
    (sentences : list sentence) (labels preds : list label)
    (probs : list scores) (idx : Z) : M unit :=
  sent <- or_raise IndexError (py_index sentences idx) ;;
  log_info (MsgTestHeader (batch * batch_size_test cfg + (idx + 1))) ;;
  log_info (MsgSentence (list_join sent)) ;;
  l <- or_raise IndexError (py_index labels idx) ;;
  log_info (MsgLabel l) ;;
  p <- or_raise IndexError (py_index preds idx) ;;
  log_info (MsgPrediction p) ;;
  row <- or_raise IndexError (py_index probs idx) ;;
  c <- or_raise ValueError (py_max row) ;;
  log_info (MsgConfidence c).

(** The body of the batch loop of [test_model]. *)
Definition test_batch (cfg : Config) (d : DataModule) (batch : Z)
    (predictions : list label) : M (list label) :=
  let sentences := batch_slice (test_texts d) (batch_size_test cfg) batch in
  let labels := batch_slice (test_pols d) (batch_size_test cfg) batch in
  r <- call_inference false cfg sentences ;;
  let '(preds, probs) := r in
  let predictions := predictions ++ preds in
  for_each (py_range (len sentences))
    (test_example cfg batch sentences labels preds probs) ;;
  ret predictions.

Definition test_model (cfg : Config) : M unit :=
  (if test_on_val cfg
   then modify (fun w =>
          let d := data_module w in
          set_data (mkData (train_texts d) (train_pols d)
                           (val_texts d) (val_pols d)
                           (val_texts d) (val_pols d)) w)
   else ret tt) ;;
  w <- get ;;
  let d := data_module w in
  num_batches <- or_raise ZeroDivisionError
                   (num_batches (len (test_texts d)) (batch_size_test cfg)) ;;
  predictions <- for_fold (py_range num_batches) (test_batch cfg d) [] ;;
  log_info (MsgTestAccuracy (compute_accuracy predictions (test_pols d))).

(** ** [run_epoch] *)

(** [optimizer.step()] *)
Definition do_optimizer_step : M unit :=
  w <- get ;;
  emit (EvOptimizerStep (model_grads w)) ;;
  let '(o, p) := optimizer_step (optimizer w) (model w) (model_grads w) in
  modify (set_optimizer o) ;;
  modify (set_model p).

(** [scheduler.step()]; the scheduler is [None] unless the transformer
    backbone is used. *)
Definition do_scheduler_step : M unit :=
  w <- get ;;
  match scheduler w with
  | None => raise AttributeError
  | Some s =>
      emit EvSchedulerStep ;;
      let '(s', o) := scheduler_step s (optimizer w) in
      modify (set_scheduler (Some s')) ;;
      modify (set_optimizer o)
  end.

(** The inputs (and attention masks) built from the sentences of a batch.
    Unpacking [zip(...)] of no sentence at all into [inputs, masks] raises
    [ValueError]. *)
Definition encode_batch (cfg : Config) (sentences : list sentence)
  : option (list (list Z) * list (list Z)) :=
  if negb (use_BERT cfg) then
    let sentences := map (fun s => pad (max_len cfg) s (pad_token cfg)) sentences in
    let inputs := map (fun s => prep_seq s (unk_token cfg)) sentences in
    Some (inputs, [])
  else
    match sentences with
    | [] => None
    | _ :: _ =>
        let pairs := map pre_pro sentences in
        Some (map fst pairs, map snd pairs)
    end.

(** The body of the batch loop of [run_epoch]. *)
Definition train_batch (cfg : Config) (epoch num_batches batch : Z)
    (total_loss : list pyfloat) : M (list pyfloat) :=
  w <- get ;;
  let d := data_module w in
  let sentences := batch_slice (train_texts d) (batch_size_train cfg) batch in
  let labels := batch_slice (train_pols d) (batch_size_train cfg) batch in
  enc <- or_raise ValueError (encode_batch cfg sentences) ;;
  let '(inputs, masks) := enc in
  modify (set_grads zero_grad) ;;
  loss <-
    (if use_BERT cfg then
       w <- get ;;
       emit (EvForwardBert inputs masks labels) ;;
       let loss := fst (bert_forward (model w) inputs masks labels) in
       modify (set_grads
                 (backward_bert (model w) inputs masks labels (model_grads w))) ;;
       (if gtb (clip_norm cfg) (of_Z 0)
        then modify (fun w =>
               set_grads (clip_grad_norm_ (model_grads w) (clip_norm cfg)) w)
        else ret tt) ;;
       do_optimizer_step ;;
       do_scheduler_step ;;
       ret loss
     else
       w <- get ;;
       emit (EvForward inputs) ;;
       let outputs := model_forward (model w) inputs in
       let loss := criterion outputs labels in
       modify (set_grads
                 (backward_criterion (model w) inputs labels (model_grads w))) ;;
       do_optimizer_step ;;
       ret loss) ;;
  let total_loss := total_loss ++ [loss] in
  log_info (MsgTrainBatch epoch (batch + 1) num_batches loss) ;;
  emit (EvScalar train_writer "Train/batch_loss" loss (epoch * num_batches + batch)) ;;
  ret total_loss.

(** [run_epoch(epoch)].  [model.train()] only switches the mode flag of the
    model and is part of what [model_forward] and [bert_forward] stand for;
    the histograms of the parameters are one event. *)
Definition run_epoch (cfg : Config) (epoch : Z) : M unit :=
  w <- get ;;
  num_batches <- or_raise ZeroDivisionError
                   (num_batches (len (train_texts (data_module w)))
                                (batch_size_train cfg)) ;;
  modify (fun w =>
    let d := data_module w in
    let '((texts, pols), r) :=
      shuffle_lists (random_state w) (train_texts d) (train_pols d) in
    set_random_state r
      (set_data (mkData texts pols (val_texts d) (val_pols d)
                        (test_texts d) (test_pols d)) w)) ;;
  total_loss <- for_fold (py_range num_batches)
                  (train_batch cfg epoch num_batches) [] ;;
  log_info (MsgTrainEpoch epoch (np_mean total_loss)) ;;
  (w <- get ;; emit (EvHistograms epoch (model w))) ;;
  emit (EvScalar train_writer "Train/epoch_loss" (np_mean total_loss) epoch) ;;
  emit (EvWriterClose train_writer) ;;
  eval_model cfg epoch ;;
  log_info (MsgSaveModel epoch) ;;
  save_model epoch ;;
  if epoch =? num_epoch cfg
  then (w <- get ;; os_rename (epoch_dir (fst (best_epoch w))) e_best)
  else ret tt.

(** ** The program *)

Definition main (cfg : Config) : M unit :=
  if String.eqb (mode cfg) "train" then
    modify (set_best_epoch (0, inf)) ;;
    modify (set_scheduler None) ;;
    emit EvCopyFile ;;
    (if use_BERT cfg then
       modify (set_model init_bert) ;;
       modify (set_optimizer (init_adamw init_bert)) ;;
       w <- get ;;
       nb <- or_raise ZeroDivisionError
               (num_batches (len (train_texts (data_module w)))
                            (batch_size_train cfg)) ;;
       let total_steps := num_epoch cfg * nb in
       modify (set_scheduler (Some (init_scheduler cfg total_steps)))
     else
       let m := if String.eqb (model_type cfg) "cnn"
                then init_cnn true else init_lstm true in
       modify (set_model m) ;;
       modify (set_optimizer (init_adam m))) ;;
    log_info MsgStartTraining ;;
    for_each (py_range2 1 (num_epoch cfg + 1)) (run_epoch cfg) ;;
    log_info MsgFinishedTraining ;;
    load_model e_best ;;
    test_model cfg
  else if String.eqb (mode cfg) "test" then
    (let m := if use_BERT cfg then init_bert
              else if String.eqb (model_type cfg) "cnn"
                   then init_cnn false else init_lstm false in
     modify (set_model m)) ;;
    load_model (user_path (load_model_path cfg)) ;;
    test_model cfg
  else
    log_info (MsgIncorrectMode (mode cfg)) ;;
    raise SystemExit.

End ControlLoop.

Notation "x <- m ;; k" := (bind m (fun x => k))
  (at level 100, m at next level, right associativity).
Notation "m ;; k" := (bind m (fun _ => k))
  (at level 100, right associativity).
Abbreviation filesystem := (gmap ckpt_name (option checkpoint)).

(** The statements are unfolded by hand in the proofs. *)
Arguments save_model : simpl never.
Arguments os_rename : simpl never.
Arguments load_model : simpl never.
Arguments call_inference : simpl never.
Arguments eval_batch : simpl never.
Arguments eval_model : simpl never.
Arguments test_example : simpl never.
Arguments test_batch : simpl never.
Arguments test_model : simpl never.
Arguments do_optimizer_step : simpl never.
Arguments do_scheduler_step : simpl never.
Arguments train_batch : simpl never.
Arguments run_epoch : simpl never.
Arguments main : simpl never.

(** ** Observations on a run

    The properties proved below are about what a run logs and does, in
    order.  These functions read the corresponding events off a trace. *)

Section Observations.

Context {B : Backend}.

(** The validation results logged, as [(epoch, loss)], in order. *)
Definition val_log (tr : list event) : list (Z * pyfloat) :=
  omap (fun e => match e with
                 | EvLog (MsgVal epoch loss _) => Some (epoch, loss)
                 | _ => None
                 end) tr.

(** The best-epoch records logged, in order. *)
Definition best_log (tr : list event) : list (Z * pyfloat) :=
  omap (fun e => match e with
                 | EvLog (MsgBestEpoch b) => Some b
                 | _ => None
                 end) tr.

(** The messages logged, in order. *)
Definition log_of (tr : list event) : list log_msg :=
  omap (fun e => match e with EvLog m => Some m | _ => None end) tr.

(** The batches handed to [inference], with the [val] flag of the call. *)
Definition inference_calls (tr : list event) : list (bool * list sentence) :=
  omap (fun e => match e with
                 | EvInference val s => Some (val, s)
                 | _ => None
                 end) tr.

(** The input batches the model was called on during training. *)
Definition forward_calls (tr : list event) : list (list (list Z)) :=
  omap (fun e => match e with
                 | EvForward inputs => Some inputs
                 | EvForwardBert inputs _ _ => Some inputs
                 | _ => None
                 end) tr.

(** The gradients the optimizer stepped with. *)
Definition optimizer_steps (tr : list event) : list grads :=
  omap (fun e => match e with EvOptimizerStep g => Some g | _ => None end) tr.

(** The comparison of [eval_model]: a record is replaced only by a strictly
    lower loss. *)
Definition update_best (best : Z * pyfloat) (epoch : Z) (loss : pyfloat)
  : Z * pyfloat :=
  if ltb loss (snd best) then (epoch, loss) else best.

(** The record after each of a sequence of validation results. *)
Fixpoint records_from (best : Z * pyfloat) (vals : list (Z * pyfloat))
  : list (Z * pyfloat) :=
  match vals with
  | [] => []
  | (epoch, loss) :: rest =>
      let best' := update_best best epoch loss in
      best' :: records_from best' rest
  end.

Definition final_record (best : Z * pyfloat) (vals : list (Z * pyfloat))
  : Z * pyfloat :=
  fold_left (fun b v => update_best b (fst v) (snd v)) vals best.

(** The loss and the predictions of the validation batch number [batch],
    for a model [m]. *)
Definition val_batch_loss (cfg : Config) (d : DataModule) (m : params) (batch : Z)
  : pyfloat :=
  criterion
    (snd (inference true cfg m
            (batch_slice (val_texts d) (batch_size_val cfg) batch)))
    (batch_slice (val_pols d) (batch_size_val cfg) batch).

Definition val_batch_preds (cfg : Config) (d : DataModule) (m : params) (batch : Z)
  : list label :=
  fst (inference true cfg m
         (batch_slice (val_texts d) (batch_size_val cfg) batch)).

(** The state [eval_model] leaves behind, given the number of batches. *)
Definition eval_model_result (cfg : Config) (epoch nb : Z) (w : world) : world :=
  let d := data_module w in
  let losses := map (val_batch_loss cfg d (model w)) (py_range nb) in
  let preds := concat (map (val_batch_preds cfg d (model w)) (py_range nb)) in
  let loss := np_mean losses in
  let acc := compute_accuracy preds (val_pols d) in
  let best := update_best (best_epoch w) epoch loss in
  set_trace
    (trace w
       ++ map (fun batch =>
                 EvInference true
                   (batch_slice (val_texts d) (batch_size_val cfg) batch))
              (py_range nb)
       ++ [EvLog (MsgBestEpoch best);
           EvLog (MsgVal epoch loss acc);
           EvScalar val_writer "Val/accuracy" acc epoch;
           EvScalar val_writer "Val/loss" loss epoch;
           EvWriterClose val_writer])
    (set_best_epoch best w).

(** The five messages logged for example [idx] of batch [batch]. *)
Definition test_record (cfg : Config) (batch : Z)
    (sentences : list sentence) (labels preds : list label)
    (probs : list scores) (idx : nat) : list log_msg :=
  [MsgTestHeader (batch * batch_size_test cfg + (Z.of_nat idx + 1));
   MsgSentence (list_join (nth idx sentences []));
   MsgLabel (nth idx labels 0);
   MsgPrediction (nth idx preds 0);
   MsgConfidence (default NaN (py_max (nth idx probs [])))].

(** What the test pass does for batch [batch]: one call of [inference],
    then the records of its examples. *)
Definition test_batch_events (cfg : Config) (texts : list sentence)
    (pols : list label) (m : params) (batch : Z) : list event :=
  let sentences := batch_slice texts (batch_size_test cfg) batch in
  let labels := batch_slice pols (batch_size_test cfg) batch in
  let r := inference false cfg m sentences in
  EvInference false sentences ::
  map EvLog
    (flat_map (test_record cfg batch sentences labels (fst r) (snd r))
              (seq 0 (length sentences))).

Definition test_batch_preds (cfg : Config) (texts : list sentence)
    (m : params) (batch : Z) : list label :=
  fst (inference false cfg m (batch_slice texts (batch_size_test cfg) batch)).

(** [inference] answers a batch with one prediction and one non-empty
    score vector per sentence. *)
Definition inference_well_formed (cfg : Config) (m : params)
    (sentences : list sentence) : Prop :=
  let r := inference false cfg m sentences in
  length (fst r) = length sentences /\
  length (snd r) = length sentences /\
  Forall (fun row => row <> []) (snd r).

(** The messages a test pass logs for batch [batch]. *)
Definition test_batch_log (cfg : Config) (texts : list sentence)
    (pols : list label) (m : params) (batch : Z) : list log_msg :=
  let sentences := batch_slice texts (batch_size_test cfg) batch in
  let labels := batch_slice pols (batch_size_test cfg) batch in
  let r := inference false cfg m sentences in
  flat_map (test_record cfg batch sentences labels (fst r) (snd r))
           (seq 0 (length sentences)).

(** The record of the example at position [i] of the whole split. *)
Definition test_record_global (cfg : Config) (texts : list sentence)
    (pols : list label) (m : params) (i : nat) : list log_msg :=
  let b := Z.to_nat (batch_size_test cfg) in
  let batch := Z.of_nat (i / b) in
  let idx := (i mod b)%nat in
  let r := inference false cfg m
             (batch_slice texts (batch_size_test cfg) batch) in
  [MsgTestHeader (Z.of_nat i + 1);
   MsgSentence (list_join (nth i texts []));
   MsgLabel (nth i pols 0);
   MsgPrediction (nth idx (fst r) 0);
   MsgConfidence (default NaN (py_max (nth idx (snd r) [])))].

(** [data_module] once [test_model] has substituted the validation split
    (when [test_on_val] is set). *)
Definition test_data (cfg : Config) (d : DataModule) : DataModule :=
  if test_on_val cfg
  then mkData (train_texts d) (train_pols d) (val_texts d) (val_pols d)
              (val_texts d) (val_pols d)
  else d.

(** The state a test pass leaves behind when no lookup fails, given the
    number of batches. *)
Definition test_model_result (cfg : Config) (nb : Z) (w : world) : world :=
  let d := test_data cfg (data_module w) in
  let preds :=
    concat (map (test_batch_preds cfg (test_texts d) (model w)) (py_range nb)) in
  set_trace
    (trace w
       ++ concat (map (test_batch_events cfg (test_texts d) (test_pols d) (model w))
                      (py_range nb))
       ++ [EvLog (MsgTestAccuracy (compute_accuracy preds (test_pols d)))])
    (set_data d w).

(** A batch of the test pass for which no lookup of the loop body fails. *)
Definition test_batch_ok (cfg : Config) (texts : list sentence)
    (pols : list label) (m : params) (batch : Z) : Prop :=
  inference_well_formed cfg m (batch_slice texts (batch_size_test cfg) batch) /\
  (length (batch_slice texts (batch_size_test cfg) batch)
   <= length (batch_slice pols (batch_size_test cfg) batch))%nat.

(** The events of a training batch. *)
Definition is_train_event (e : event) : bool :=
  match e with
  | EvForward _ | EvForwardBert _ _ _ | EvOptimizerStep _ | EvSchedulerStep => true
  | EvLog (MsgTrainBatch _ _ _ _) => true
  | EvScalar train_writer _ _ _ => true
  | _ => false
  end.

(** What the batch loop of [run_epoch] leaves untouched: the splits, the
    checkpoints, the best-epoch record and the presence of a scheduler; it
    only adds training events to the trace. *)
Definition train_frame (w w' : world) : Prop :=
  data_module w' = data_module w /\
  fs w' = fs w /\
  best_epoch w' = best_epoch w /\
  (is_Some (scheduler w) -> is_Some (scheduler w')) /\
  exists ev, trace w' = trace w ++ ev /\ forallb is_train_event ev = true.

(** The gradient [optimizer.step()] consumes in a training batch, from the
    gradient [loss.backward()] left. *)
Definition stepped_gradient (cfg : Config) (m : params)
    (inputs masks : list (list Z)) (labels : list label) : grads :=
  if use_BERT cfg then
    let g := backward_bert m inputs masks labels zero_grad in
    if gtb (clip_norm cfg) (of_Z 0)
    then clip_grad_norm_ g (clip_norm cfg)
    else g
  else backward_criterion m inputs labels zero_grad.

(** The events that matter for the life of the checkpoints and for the
    final test pass. *)
Inductive key : Type :=
  | KSave (k : Z)
  | KRename (src dst : ckpt_name)
  | KLoad (src : ckpt_name)
  | KTest.

Definition key_of (e : event) : option key :=
  match e with
  | EvSave k => Some (KSave k)
  | EvRename src dst => Some (KRename src dst)
  | EvLoadModel src => Some (KLoad src)
  | EvInference false _ => Some KTest
  | EvLog (MsgTestHeader _) | EvLog (MsgSentence _) | EvLog (MsgLabel _)
  | EvLog (MsgPrediction _) | EvLog (MsgConfidence _)
  | EvLog (MsgTestAccuracy _) => Some KTest
  | _ => None
  end.

Definition key_events (tr : list event) : list key := omap key_of tr.

(** [data_module] and the random state once [run_epoch] has shuffled the
    training split. *)
Definition shuffled (w : world) : world :=
  let d := data_module w in
  let '((texts, pols), r) :=
    shuffle_lists (random_state w) (train_texts d) (train_pols d) in
  set_random_state r
    (set_data (mkData texts pols (val_texts d) (val_pols d)
                      (test_texts d) (test_pols d)) w).

(** The end of [run_epoch], after the batch loop returned [total_loss]:
    the epoch summary, the validation pass, the checkpoint and, in the last
    epoch, the promotion. *)
Definition after_training (cfg : Config) (epoch : Z)
    (total_loss : list pyfloat) (w : world) : world :=
  set_trace
    (trace w ++
     [EvLog (MsgTrainEpoch epoch (np_mean total_loss));
      EvHistograms epoch (model w);
      EvScalar train_writer "Train/epoch_loss" (np_mean total_loss) epoch;
      EvWriterClose train_writer]) w.

Definition after_save (epoch : Z) (w : world) : world :=
  set_trace (trace w ++ [EvLog (MsgSaveModel epoch); EvSave epoch])
    (set_fs (<[epoch_dir epoch :=
               Some (mkCheckpoint epoch (model w) (optimizer w))]> (fs w)) w).

(** The events of a test pass. *)
Definition is_test_event (e : event) : bool :=
  match e with
  | EvInference false _ => true
  | EvLog (MsgTestHeader _) | EvLog (MsgSentence _) | EvLog (MsgLabel _)
  | EvLog (MsgPrediction _) | EvLog (MsgConfidence _)
  | EvLog (MsgTestAccuracy _) => true
  | _ => false
  end.

(** What a test pass leaves untouched: the model, the checkpoints and the
    best-epoch record; it only adds test events to the trace. *)
Definition test_frame (w w' : world) : Prop :=
  model w' = model w /\
  fs w' = fs w /\
  best_epoch w' = best_epoch w /\
  exists ev, trace w' = trace w ++ ev /\ forallb is_test_event ev = true.

(** The checkpoint directories that exist after the given key events,
    starting from the directories [D]. *)
Definition dirs_step (D : gset ckpt_name) (k : key) : gset ckpt_name :=
  match k with
  | KSave e => {[ epoch_dir e ]} ∪ D
  | KRename src dst => {[ dst ]} ∪ (D ∖ {[ src ]})
  | KLoad _ | KTest => D
  end.

Definition dirs_after (D : gset ckpt_name) (ks : list key) : gset ckpt_name :=
  fold_left dirs_step ks D.

(** The promotion step at the end of [run_epoch]: its outcome, the key
    events it adds and the checkpoints it leaves, from the best-epoch record
    and the checkpoints [f] at that point. *)
Definition promotion (cfg : Config) (epoch : Z) (best : Z * pyfloat)
    (f : filesystem) : outcome unit * list key * filesystem :=
  if epoch =? num_epoch cfg then
    let src := epoch_dir (fst best) in
    match f !! src with
    | None => (Raise (FileNotFoundError src), [], f)
    | Some x =>
        match f !! e_best with
        | Some (Some _) => (Raise (OSError e_best), [], f)
        | _ => (Ok tt, [KRename src e_best], <[e_best := x]> (delete src f))
        end
    end
  else (Ok tt, [], f).

(** Why an epoch can stop before its validation pass has completed. *)
Definition epoch_aborts (cfg : Config) (epoch : Z) (w : world) (e : exn) : Prop :=
  (batch_size_train cfg = 0 /\ e = ZeroDivisionError) \/
  (batch_size_val cfg = 0 /\ e = ZeroDivisionError) \/
  (exists nb w2,
      num_batches (len (train_texts (data_module w))) (batch_size_train cfg)
        = Some nb /\
      for_fold (py_range nb) (train_batch cfg epoch nb) [] (shuffled w)
        = (Raise e, w2)).

(** What one call of [run_epoch] does to the observations. *)
Inductive epoch_run (cfg : Config) (epoch : Z) (w : world)
  : outcome unit -> world -> Prop :=
  | epoch_aborted e w' ev :
      trace w' = trace w ++ ev ->
      val_log ev = [] -> best_log ev = [] -> key_events ev = [] ->
      fs w' = fs w -> best_epoch w' = best_epoch w ->
      epoch_aborts cfg epoch w e ->
      epoch_run cfg epoch w (Raise e) w'
  | epoch_saved r w' ev loss c tail :
      trace w' = trace w ++ ev ->
      val_log ev = [(epoch, loss)] ->
      best_log ev = [best_epoch w'] ->
      best_epoch w' = update_best (best_epoch w) epoch loss ->
      key_events ev = KSave epoch :: tail ->
      promotion cfg epoch (best_epoch w')
                (<[epoch_dir epoch := Some c]> (fs w)) = (r, tail, fs w') ->
      (is_Some (scheduler w) -> is_Some (scheduler w')) ->
      epoch_run cfg epoch w r w'.

(** [shuffle_lists] returns as many sentences as it was given. *)
Definition shuffle_keeps_length : Prop :=
  forall r texts pols,
    length (fst (fst (shuffle_lists r texts pols))) = length texts.

(** The loss a training batch records: the transformer's own loss, or the
    external criterion applied to the raw outputs of a CNN or LSTM. *)
Definition train_batch_loss (cfg : Config) (m : params)
    (inputs masks : list (list Z)) (labels : list label) : pyfloat :=
  if use_BERT cfg
  then fst (bert_forward m inputs masks labels)
  else criterion (model_forward m inputs) labels.

(** The inputs built for a batch ([[]] when none can be built). *)
Definition encoded_inputs (cfg : Config) (sentences : list sentence)
  : list (list Z) :=
  match encode_batch cfg sentences with
  | Some (inputs, _) => inputs
  | None => []
  end.

End Observations.

(** The record [main] starts a training run with. *)
Definition initial_best : Z * pyfloat := (0, inf).

Section Shapes.

Context {B : Backend}.

(** The observations of a training run so far, seen from the trace [t0] and
    the checkpoint directories [D0] it started with: one validation result
    and one checkpoint for each epoch of [validated], in order; each record
    logged follows from the one before by [update_best]; the record kept is
    the last one; [tail] holds the key events after the last checkpoint. *)
Definition run_shape (t0 : list event) (D0 : gset ckpt_name) (w : world)
    (validated : list Z) (tail : list key) : Prop :=
  exists ev,
    trace w = t0 ++ ev /\
    map fst (val_log ev) = validated /\
    best_log ev = records_from initial_best (val_log ev) /\
    best_epoch w = final_record initial_best (val_log ev) /\
    key_events ev = map KSave validated ++ tail /\
    dom (fs w) = dirs_after D0 (key_events ev).

(** The promotion is the last thing the epoch [num_epoch] does. *)
Definition promo_tail (cfg : Config) (done : list Z) (w : world) : list key :=
  if existsb (Z.eqb (num_epoch cfg)) done
  then [KRename (epoch_dir (fst (best_epoch w))) e_best]
  else [].

Definition sched_kept (w1 w : world) : Prop :=
  is_Some (scheduler w1) -> is_Some (scheduler w).

(** How the loop over the epochs can stop: in an epoch [x], either before
    its validation pass has completed, or, in the last epoch, at the
    promotion. *)
Definition epochs_aborted (cfg : Config) (t0 : list event)
    (D0 : gset ckpt_name) (w1 : world) (l : list Z) (e : exn) (w : world)
  : Prop :=
  exists done x rest,
    l = done ++ x :: rest /\
    ((run_shape t0 D0 w done [] /\
      exists wb, sched_kept w1 wb /\ epoch_aborts cfg x wb e) \/
     (x = num_epoch cfg /\
      run_shape t0 D0 w (done ++ [x]) [] /\
      ((e = FileNotFoundError (epoch_dir (fst (best_epoch w))) /\
        epoch_dir (fst (best_epoch w)) ∉ dom (fs w)) \/
       (e = OSError e_best /\ e_best ∈ dom (fs w) /\
        epoch_dir (fst (best_epoch w)) ∈ dom (fs w))))).

(** When the promotion has happened, the directory it renamed existed:
    it was among the directories [D0] or the checkpoints saved. *)
Definition promo_valid (cfg : Config) (D0 : gset ckpt_name) (done : list Z)
    (w : world) : Prop :=
  existsb (Z.eqb (num_epoch cfg)) done = true ->
  epoch_dir (fst (best_epoch w)) ∈ dirs_after D0 (map KSave done).

(** The ways a run in mode ["train"] ends. *)
Inductive train_outcome (cfg : Config) (w0 : world)
  : outcome unit -> world -> Prop :=
  | train_init_failed w' :
      use_BERT cfg = true -> batch_size_train cfg = 0 ->
      run_shape (trace w0) (dom (fs w0)) w' [] [] ->
      train_outcome cfg w0 (Raise ZeroDivisionError) w'
  | train_epochs_aborted e w1 w' :
      (use_BERT cfg = true -> is_Some (scheduler w1)) ->
      epochs_aborted cfg (trace w0) (dom (fs w0)) w1
        (py_range2 1 (num_epoch cfg + 1)) e w' ->
      train_outcome cfg w0 (Raise e) w'
  | train_no_best w' :
      let l := py_range2 1 (num_epoch cfg + 1) in
      run_shape (trace w0) (dom (fs w0)) w' l (promo_tail cfg l w') ->
      promo_valid cfg (dom (fs w0)) l w' ->
      (forall c, fs w' !! e_best <> Some (Some c)) ->
      train_outcome cfg w0 (Raise (FileNotFoundError e_best)) w'
  | train_tested r w' n :
      let l := py_range2 1 (num_epoch cfg + 1) in
      run_shape (trace w0) (dom (fs w0)) w' l
        (promo_tail cfg l w' ++ KLoad e_best :: repeat KTest n) ->
      promo_valid cfg (dom (fs w0)) l w' ->
      is_Some (fs w' !! e_best) ->
      train_outcome cfg w0 r w'.

End Shapes.

(** Each record's loss is at most the loss before it. *)
Fixpoint nonincreasing (prev : pyfloat) (records : list (Z * pyfloat)) : Prop :=
  match records with
  | [] => True
  | r :: rest => leb (snd r) prev = true /\ nonincreasing (snd r) rest
  end.


(** ** A small backend

    A concrete instance of the interface, used to run the control loop on
    explicit inputs.  The model is the number of optimizer steps taken so
    far; its validation loss follows a fixed table; every backward pass
    leaves a gradient of 5; clipping rescales a gradient whose absolute
    value exceeds the threshold down to the threshold. *)

Definition table_losses : list pyfloat :=
  [Fin (9 # 10); Fin (7 # 10); Fin (8 # 10); Fin (6 # 10)].

Definition table_loss (m : Z) : pyfloat :=
  nth (Z.to_nat (m - 1)) table_losses (Fin (1 # 2)).

Definition fraction_equal (preds labels : list label) : pyfloat :=
  match labels with
  | [] => NaN
  | _ :: _ =>
      let hits := length (filter (fun pl => Z.eqb (fst pl) (snd pl))
                                 (combine preds labels)) in
      Fin (Qred (Z.of_nat hits # Pos.of_nat (length labels)))
  end.

Definition clip_scalar (g : Q) (c : pyfloat) : Q :=
  match c with
  | Fin q => if Qlt_le_dec q (Qabs g)
             then (if Qlt_le_dec g 0 then - q else q)%Q
             else g
  | _ => g
  end.

Definition small_backend : Backend := {|
  params := Z;
  grads := Q;
  opt_state := unit;
  sched_state := Z;
  rng := unit;
  init_bert := 0;
  init_cnn := fun _ => 0;
  init_lstm := fun _ => 0;
  init_adamw := fun _ => tt;
  init_adam := fun _ => tt;
  init_scheduler := fun _ total => total;
  pad := fun _ s _ => s;
  prep_seq := fun s _ => map (fun t => Z.of_nat (String.length t)) s;
  pre_pro := fun s => (map (fun t => Z.of_nat (String.length t)) s,
                       map (fun _ => 1) s);
  shuffle_lists := fun r texts pols => ((rev texts, rev pols), r);
  inference := fun _ _ m sentences =>
    (map (fun _ => 1) sentences,
     map (fun _ => [table_loss m; Fin (3 # 4)]) sentences);
  compute_accuracy := fraction_equal;
  list_join := String.concat " ";
  model_forward := fun m inputs => map (fun _ => [table_loss m; Fin (3 # 4)]) inputs;
  bert_forward := fun m inputs _ _ =>
    (Fin (1 # 2), map (fun _ => [table_loss m; Fin (3 # 4)]) inputs);
  criterion := fun outputs _ =>
    match outputs with
    | (x :: _) :: _ => x
    | _ => NaN
    end;
  zero_grad := 0%Q;
  backward_criterion := fun _ _ _ g => (g + 5)%Q;
  backward_bert := fun _ _ _ _ g => (g + 5)%Q;
  clip_grad_norm_ := clip_scalar;
  optimizer_step := fun o m _ => (o, m + 1);
  scheduler_step := fun s o => (s + 1, o)
|}.

(** A training set of two examples, a validation and a test set. *)
Definition tok (s : string) : token := s.

Definition small_data : DataModule :=
  mkData [[tok "good"; tok "film"]; [tok "bad"]] [1; 0]
         [[tok "fine"]; [tok "dull"; tok "plot"]; [tok "great"]] [1; 0; 1]
         [[tok "nice"; tok "one"]; [tok "awful"]; [tok "superb"; tok "cast"]]
         [1; 0; 1].

(** A state with an empty validation split. *)
Definition no_val_world : @world small_backend :=
  @mkWorld small_backend
    (mkData [[tok "good"; tok "film"]; [tok "bad"]] [1; 0] [] []
            [[tok "nice"; tok "one"]] [1])
    0 0%Q tt None (0, inf) ∅ tt [].

(** A state whose three splits are empty. *)
Definition empty_world : @world small_backend :=
  @mkWorld small_backend (mkData [] [] [] [] [] []) 0 0%Q tt None (0, inf) ∅ tt [].

Definition small_config (mode : string) (bert : bool) (epochs : Z)
    (clip : pyfloat) : Config :=
  mkConfig mode bert "cnn" 2 2 2 epochs clip false 4 (tok "<pad>") (tok "<unk>")
           "saved".

Definition small_world : @world small_backend :=
  @mkWorld small_backend small_data 0 0%Q tt None (0, inf) ∅ tt [].

(** A state whose test split has three sentences and one label. *)
Definition short_labels_world : @world small_backend :=
  @mkWorld small_backend
    (mkData [[tok "good"; tok "film"]; [tok "bad"]] [1; 0]
            [[tok "fine"]] [1]
            [[tok "nice"; tok "one"]; [tok "awful"]; [tok "superb"; tok "cast"]]
            [1])
    0 0%Q tt None (0, inf) ∅ tt [].

(** The same state with a scheduler, as the transformer branch needs. *)
Definition small_world_bert : @world small_backend :=
  @mkWorld small_backend small_data 0 0%Q tt (Some 0) (0, inf) ∅ tt [].

(** ** Further observations *)

Section Effects.

Context {B : Backend}.

(** The number of calls of [scheduler.step()] recorded in a trace. *)
Definition scheduler_steps (tr : list event) : nat :=
  length (omap (fun e => match e with
                         | EvSchedulerStep => Some tt
                         | _ => None
                         end) tr).

(** The per-batch entries of the training log, as
    [(epoch, batch number, number of batches)]. *)
Definition train_batch_logs (tr : list event) : list (Z * Z * Z) :=
  omap (fun e => match e with
                 | EvLog (MsgTrainBatch epoch batch total _) =>
                     Some (epoch, batch, total)
                 | _ => None
                 end) tr.

(** The steps under which the per-batch training loss is written to the
    summary writer. *)
Definition batch_loss_steps (tr : list event) : list Z :=
  omap (fun e => match e with
                 | EvScalar train_writer tag _ step =>
                     if String.eqb tag "Train/batch_loss"
                     then Some step else None
                 | _ => None
                 end) tr.

(** The directory of epoch [j] holds a checkpoint that records epoch
    [j]. *)
Definition holds_epoch (f : filesystem) (j : Z) : Prop :=
  exists c, f !! epoch_dir j = Some (Some c) /\ ckpt_epoch c = j.

(** Two states that differ at most by test events added to the trace. *)
Definition only_test_events (w w' : world) : Prop :=
  data_module w' = data_module w /\
  model w' = model w /\
  model_grads w' = model_grads w /\
  optimizer w' = optimizer w /\
  scheduler w' = scheduler w /\
  best_epoch w' = best_epoch w /\
  fs w' = fs w /\
  random_state w' = random_state w /\
  exists ev, trace w' = trace w ++ ev /\ forallb is_test_event ev = true.

(** The validation and test splits of two data modules agree. *)
Definition same_held_out (d d' : DataModule) : Prop :=
  val_texts d' = val_texts d /\ val_pols d' = val_pols d /\
  test_texts d' = test_texts d /\ test_pols d' = test_pols d.

End Effects.

(** * Properties *)

(** ** Batching *)

Section Batching.

Context {A : Type}.
Implicit Types (l : list A) (b n : Z).

Lemma num_batches_nonzero n b :
  b <> 0 -> num_batches n b = Some (- ((- n) / b)).
Proof.
  intros Hb. unfold num_batches.
  destruct (Z.eqb_spec b 0); [contradiction | reflexivity].
Qed.

(** For a positive batch size the count is the ceiling of [n / b]. *)
Lemma num_batches_ceil n b nb :
  0 < b -> num_batches n b = Some nb -> (nb - 1) * b < n <= nb * b.
Proof.
  intros Hb H. rewrite num_batches_nonzero in H by lia.
  injection H as <-.
  pose proof (Z.div_mod (- n) b ltac:(lia)) as Hdm.
  pose proof (Z.mod_pos_bound (- n) b Hb) as Hm.
  nia.
Qed.

Lemma num_batches_nonneg n b nb :
  0 < b -> 0 <= n -> num_batches n b = Some nb -> 0 <= nb.
Proof.
  intros Hb Hn H. pose proof (num_batches_ceil _ _ _ Hb H). nia.
Qed.

Lemma num_batches_empty b : b <> 0 -> num_batches 0 b = Some 0.
Proof.
  intros Hb. rewrite num_batches_nonzero by assumption.
  simpl. rewrite Z.div_0_l by assumption. reflexivity.
Qed.

(** With a negative batch size the count is not positive: the loop body
    never runs. *)
Lemma num_batches_negative n b nb :
  b < 0 -> 0 <= n -> num_batches n b = Some nb -> nb <= 0.
Proof.
  intros Hb Hn H. rewrite num_batches_nonzero in H by lia.
  injection H as <-.
  pose proof (Z.div_mod (- n) b ltac:(lia)) as Hdm.
  pose proof (Z.mod_neg_bound (- n) b Hb) as Hm.
  nia.
Qed.

Lemma py_range_nonpos n : n <= 0 -> py_range n = [].
Proof.
  intros H. unfold py_range.
  replace (Z.to_nat n) with O by lia. reflexivity.
Qed.

Lemma py_range_length n : 0 <= n -> Z.of_nat (length (py_range n)) = n.
Proof.
  intros H. unfold py_range. rewrite length_map, length_seq. lia.
Qed.

Lemma py_range_elem n i : In i (py_range n) <-> 0 <= i < n.
Proof.
  unfold py_range. rewrite in_map_iff. split.
  - intros (k & <- & Hk). apply in_seq in Hk. lia.
  - intros H. exists (Z.to_nat i). split; [lia |]. apply in_seq. lia.
Qed.

(** In the loop the slice of batch [i] is the block of [b] elements that
    starts at position [i * b]. *)
Lemma batch_slice_block l b (i : nat) :
  0 < b ->
  batch_slice l b (Z.of_nat i) =
  firstn (Z.to_nat b) (skipn (i * Z.to_nat b) l).
Proof.
  intros Hb. unfold batch_slice, py_slice, clamp_index.
  assert (Hk : b = Z.of_nat (Z.to_nat b)) by lia.
  revert Hk. generalize (Z.to_nat b) as k. intros k ->.
  destruct (Z.ltb_spec (Z.of_nat i * Z.of_nat k) 0) as [Hneg | _]; [nia |].
  destruct (Z.ltb_spec ((Z.of_nat i + 1) * Z.of_nat k) 0) as [Hneg | _]; [nia |].
  assert (Hlen : length (skipn (i * k) l) = (length l - i * k)%nat)
    by apply length_skipn.
  destruct (Nat.le_gt_cases (length l) (i * k)) as [Hout | Hin].
  - rewrite !Z.min_r by nia.
    rewrite (skipn_all2 (n := Z.to_nat (Z.of_nat (length l)))) by lia.
    rewrite (skipn_all2 (n := (i * k)%nat)) by lia.
    now rewrite !firstn_nil.
  - rewrite (Z.min_l (Z.of_nat i * Z.of_nat k)) by nia.
    replace (Z.to_nat (Z.of_nat i * Z.of_nat k)) with (i * k)%nat by nia.
    destruct (Nat.le_gt_cases ((i + 1) * k) (length l)) as [Hfull | Hpart].
    + rewrite (Z.min_l ((Z.of_nat i + 1) * Z.of_nat k)) by nia. f_equal. nia.
    + rewrite (Z.min_r ((Z.of_nat i + 1) * Z.of_nat k)) by nia.
      rewrite !firstn_all2; [reflexivity | rewrite Hlen; nia | rewrite Hlen; nia].
Qed.

Lemma batch_slice_length l b (i : nat) :
  0 < b ->
  length (batch_slice l b (Z.of_nat i)) =
  Nat.min (Z.to_nat b) (length l - i * Z.to_nat b).
Proof.
  intros Hb. rewrite batch_slice_block by assumption.
  now rewrite length_firstn, length_skipn.
Qed.

Lemma blocks_concat l (k c : nat) :
  concat (map (fun i => firstn k (skipn (i * k) l)) (seq 0 c)) = firstn (c * k) l.
Proof.
  induction c as [| c IH]; [reflexivity |].
  rewrite seq_S, map_app, concat_app, IH. simpl.
  rewrite app_nil_r, take_take_drop. f_equal. lia.
Qed.

Lemma batch_slices_map l b nb :
  0 < b ->
  map (batch_slice l b) (py_range nb) =
  map (fun i => firstn (Z.to_nat b) (skipn (i * Z.to_nat b) l))
      (seq 0 (Z.to_nat nb)).
Proof.
  intros Hb. unfold py_range. rewrite map_map.
  apply map_ext. intros i. now apply batch_slice_block.
Qed.

(** The batches, concatenated in loop order, give the split back. *)
Lemma batch_slices_concat l b nb :
  0 < b -> num_batches (Z.of_nat (length l)) b = Some nb ->
  concat (map (batch_slice l b) (py_range nb)) = l.
Proof.
  intros Hb Hnb.
  pose proof (num_batches_ceil _ _ _ Hb Hnb) as Hc.
  rewrite batch_slices_map by assumption.
  rewrite blocks_concat. apply firstn_all2. nia.
Qed.

(** Every batch the loop takes is non-empty and has at most [b] elements. *)
Lemma batch_slice_nonempty l b nb i :
  0 < b -> num_batches (Z.of_nat (length l)) b = Some nb ->
  0 <= i < nb ->
  (0 < length (batch_slice l b i) <= Z.to_nat b)%nat.
Proof.
  intros Hb Hnb Hi.
  pose proof (num_batches_ceil _ _ _ Hb Hnb) as Hc.
  replace i with (Z.of_nat (Z.to_nat i)) by lia.
  rewrite batch_slice_length by assumption. nia.
Qed.

End Batching.

(** ** Reasoning about statements *)

(** Unfolds the primitive statements and simplifies the state. *)
Ltac run_prims :=
  cbv [bind get modify emit log_info ret raise]; cbn.

Section Statements.

Context {B : Backend}.

(** Loop rule: an invariant over the iterations done so far. *)
Lemma for_fold_inv {A S : Type}
    (I : list A -> S -> world -> Prop) (E : exn -> world -> Prop)
    (l : list A) (body : A -> S -> M S) :
  (forall done x rest acc w,
      l = done ++ x :: rest -> I done acc w ->
      match body x acc w with
      | (Ok acc', w') => I (done ++ [x]) acc' w'
      | (Raise e, w') => E e w'
      end) ->
  forall acc w, I [] acc w ->
  match for_fold l body acc w with
  | (Ok acc', w') => I l acc' w'
  | (Raise e, w') => E e w'
  end.
Proof.
  intros Hbody.
  assert (Hgen : forall rest done acc w,
             l = done ++ rest -> I done acc w ->
             match for_fold rest body acc w with
             | (Ok acc', w') => I l acc' w'
             | (Raise e, w') => E e w'
             end).
  { induction rest as [| x rest IH]; intros done acc w Hl HI.
    - simpl. rewrite app_nil_r in Hl. now subst.
    - simpl. unfold bind.
      specialize (Hbody done x rest acc w Hl HI).
      destruct (body x acc w) as [[acc' | e] w']; [| exact Hbody].
      apply (IH (done ++ [x])); [| exact Hbody].
      now rewrite <- app_assoc. }
  intros acc w HI. now apply (Hgen l []).
Qed.

(** The validation loop computes the per-batch results and only calls
    [inference]. *)
Lemma eval_loop (cfg : Config) (d : DataModule) (l : list Z) :
  forall preds losses w,
  for_fold l (eval_batch cfg d) (preds, losses) w
  = (Ok (preds ++ concat (map (val_batch_preds cfg d (model w)) l),
         losses ++ map (val_batch_loss cfg d (model w)) l),
     set_trace
       (trace w ++
        map (fun batch =>
               EvInference true
                 (batch_slice (val_texts d) (batch_size_val cfg) batch)) l)
       w).
Proof.
  induction l as [| batch l IH]; intros preds losses w.
  - simpl. unfold ret. rewrite !app_nil_r. now destruct w.
  - simpl for_fold. unfold bind at 1, eval_batch at 1, call_inference.
    run_prims.
    unfold val_batch_preds at 1, val_batch_loss at 1.
    destruct (inference true cfg (model w) _) as [ps outs] eqn:Einf.
    rewrite IH. cbn. rewrite <- !app_assoc. reflexivity.
Qed.

Lemma eval_model_eq (cfg : Config) (epoch nb : Z) (w : world) :
  num_batches (len (val_texts (data_module w))) (batch_size_val cfg) = Some nb ->
  eval_model cfg epoch w = (Ok tt, eval_model_result cfg epoch nb w).
Proof.
  intros Hnb. unfold eval_model. run_prims. rewrite Hnb.
  unfold or_raise. run_prims. rewrite eval_loop.
  unfold eval_model_result, update_best. run_prims.
  destruct (ltb _ _); run_prims; rewrite <- ?app_assoc; reflexivity.
Qed.

Lemma eval_model_zero_division (cfg : Config) (epoch : Z) (w : world) :
  num_batches (len (val_texts (data_module w))) (batch_size_val cfg) = None ->
  eval_model cfg epoch w = (Raise ZeroDivisionError, w).
Proof.
  intros Hb. unfold eval_model. run_prims. now rewrite Hb.
Qed.

Lemma py_index_nat {A : Type} (l : list A) (i : nat) :
  py_index l (Z.of_nat i) = nth_error l i.
Proof.
  unfold py_index.
  destruct (Z.ltb_spec (Z.of_nat i) 0); [lia |].
  now rewrite Nat2Z.id.
Qed.

Lemma py_index_in_range {A : Type} (l : list A) (i : nat) (d : A) :
  (i < length l)%nat -> py_index l (Z.of_nat i) = Some (nth i l d).
Proof.
  intros H. rewrite py_index_nat. now apply nth_error_nth'.
Qed.

(** The inner loop of [test_model] logs one record per example of the
    batch. *)
Lemma test_inner_loop (cfg : Config) (batch : Z)
    (sentences : list sentence) (labels preds : list label)
    (probs : list scores) :
  forall (k s : nat) (w : world),
  (s + k <= length sentences)%nat ->
  (s + k <= length labels)%nat ->
  (s + k <= length preds)%nat ->
  (s + k <= length probs)%nat ->
  Forall (fun row => row <> []) probs ->
  for_each (map Z.of_nat (seq s k))
    (test_example cfg batch sentences labels preds probs) w
  = (Ok tt,
     set_trace
       (trace w ++
        map EvLog
          (flat_map (test_record cfg batch sentences labels preds probs)
                    (seq s k))) w).
Proof.
  unfold for_each.
  induction k as [| k IH]; intros s w Hs Hl Hp Hr Hne.
  - simpl. unfold ret. rewrite app_nil_r. now destruct w.
  - simpl map. simpl for_fold. unfold bind at 1, test_example at 1.
    rewrite (py_index_in_range sentences s []) by lia.
    rewrite (py_index_in_range labels s 0) by lia.
    rewrite (py_index_in_range preds s 0) by lia.
    rewrite (py_index_in_range probs s []) by lia.
    assert (Hrow : nth s probs [] <> []).
    { rewrite List.Forall_forall in Hne. apply Hne, nth_In. lia. }
    destruct (py_max (nth s probs [])) as [c |] eqn:Hmax.
    2:{ destruct (nth s probs []); [congruence | discriminate]. }
    unfold or_raise. run_prims. rewrite Hmax. run_prims.
    rewrite IH by first [lia | assumption]. run_prims.
    rewrite ?Hmax. rewrite <- !app_assoc. reflexivity.
Qed.

Lemma test_outer_loop (cfg : Config) (d : DataModule) (l : list Z) :
  forall preds0 w,
  Forall (test_batch_ok cfg (test_texts d) (test_pols d) (model w)) l ->
  for_fold l (test_batch cfg d) preds0 w
  = (Ok (preds0 ++ concat (map (test_batch_preds cfg (test_texts d) (model w)) l)),
     set_trace
       (trace w ++
        concat (map (test_batch_events cfg (test_texts d) (test_pols d) (model w)) l))
       w).
Proof.
  induction l as [| batch l IH]; intros preds0 w Hok.
  - simpl. unfold ret. rewrite !app_nil_r. now destruct w.
  - apply List.Forall_cons_iff in Hok as [[(Hp & Hr & Hne) Hl] Hok].
    simpl for_fold. unfold bind at 1, test_batch at 1, call_inference.
    run_prims.
    destruct (inference false cfg (model w) _) as [ps rows] eqn:Einf.
    simpl in Hp, Hr, Hne.
    unfold py_range, len. rewrite Nat2Z.id.
    rewrite test_inner_loop by first [lia | assumption].
    run_prims. rewrite IH by exact Hok. run_prims.
    unfold test_batch_preds at 2, test_batch_events at 2.
    rewrite Einf. simpl. rewrite <- !app_assoc. reflexivity.
Qed.

Lemma test_model_eq (cfg : Config) (nb : Z) (w : world) :
  let d := test_data cfg (data_module w) in
  num_batches (len (test_texts d)) (batch_size_test cfg) = Some nb ->
  Forall (test_batch_ok cfg (test_texts d) (test_pols d) (model w))
         (py_range nb) ->
  test_model cfg w = (Ok tt, test_model_result cfg nb w).
Proof.
  intros d Hnb Hok. subst d.
  unfold test_model, test_model_result, test_data in *.
  destruct w as [d m g o sc be f r t].
  destruct (test_on_val cfg); run_prims; cbn in Hnb, Hok;
    rewrite Hnb; unfold or_raise; run_prims;
    rewrite test_outer_loop by exact Hok; run_prims;
    rewrite <- ?app_assoc; reflexivity.
Qed.

Lemma train_frame_refl (w : world) : train_frame w w.
Proof.
  repeat split; auto. exists []. now rewrite app_nil_r.
Qed.

Lemma train_frame_trans (w1 w2 w3 : world) :
  train_frame w1 w2 -> train_frame w2 w3 -> train_frame w1 w3.
Proof.
  intros (Hd & Hf & Hb & Hs & ev & Ht & He) (Hd' & Hf' & Hb' & Hs' & ev' & Ht' & He').
  repeat split; try congruence; auto.
  exists (ev ++ ev'). split.
  - rewrite Ht', Ht. now rewrite app_assoc.
  - rewrite forallb_app, He, He'. reflexivity.
Qed.

(** Names the results of [optimizer_step] and [scheduler_step]. *)
Ltac destruct_step :=
  match goal with
  | |- context [optimizer_step ?o ?p ?g] =>
      let o' := fresh "o" in let p' := fresh "p" in
      destruct (optimizer_step o p g) as [o' p']
  | |- context [scheduler_step ?s ?o] =>
      let s' := fresh "sc" in let o' := fresh "o" in
      destruct (scheduler_step s o) as [s' o']
  end.

Ltac solve_train_frame :=
  repeat split; cbn; auto;
  try (eexists; split; [rewrite <- ?app_assoc; reflexivity | reflexivity]);
  try (intros _; eexists; reflexivity).

(** A training batch touches nothing but the model, its gradients, the
    optimizer and the scheduler. *)
Lemma train_batch_frame (cfg : Config) (epoch nb batch : Z)
    (total_loss : list pyfloat) (w : world) :
  train_frame w (snd (train_batch cfg epoch nb batch total_loss w)).
Proof.
  unfold train_batch. run_prims.
  destruct (encode_batch cfg _) as [[inputs masks] |]; unfold or_raise;
    run_prims; [| apply train_frame_refl].
  unfold do_optimizer_step, do_scheduler_step.
  destruct (use_BERT cfg); run_prims.
  - destruct (gtb (clip_norm cfg) (of_Z 0)); run_prims;
      destruct_step; run_prims;
      destruct (scheduler w) as [sc |]; run_prims;
      try destruct_step; run_prims;
      solve_train_frame.
  - destruct_step; run_prims.
    solve_train_frame.
Qed.

(** A relation between the states before and after that every iteration
    keeps is kept by the loop. *)
Lemma for_fold_frame {A S : Type} (R : world -> world -> Prop)
    (body : A -> S -> M S) :
  (forall w, R w w) ->
  (forall w1 w2 w3, R w1 w2 -> R w2 w3 -> R w1 w3) ->
  (forall x acc w, R w (snd (body x acc w))) ->
  forall l acc w, R w (snd (for_fold l body acc w)).
Proof.
  intros Hrefl Htrans Hbody.
  induction l as [| x l IH]; intros acc w.
  - apply Hrefl.
  - simpl for_fold. unfold bind.
    pose proof (Hbody x acc w) as Hstep.
    destruct (body x acc w) as [[acc' | e] w1]; simpl in Hstep |- *;
      [| exact Hstep].
    eapply Htrans; [exact Hstep | apply IH].
Qed.

Lemma train_loop_frame (cfg : Config) (epoch nb : Z) (l : list Z)
    (total_loss : list pyfloat) (w : world) :
  train_frame w (snd (for_fold l (train_batch cfg epoch nb) total_loss w)).
Proof.
  apply for_fold_frame.
  - apply train_frame_refl.
  - apply train_frame_trans.
  - apply train_batch_frame.
Qed.

Lemma test_frame_refl (w : world) : test_frame w w.
Proof.
  repeat split; auto. exists []. now rewrite app_nil_r.
Qed.

Lemma test_frame_trans (w1 w2 w3 : world) :
  test_frame w1 w2 -> test_frame w2 w3 -> test_frame w1 w3.
Proof.
  intros (Hm & Hf & Hb & ev & Ht & He) (Hm' & Hf' & Hb' & ev' & Ht' & He').
  repeat split; try congruence.
  exists (ev ++ ev'). split.
  - rewrite Ht', Ht. now rewrite app_assoc.
  - rewrite forallb_app, He, He'. reflexivity.
Qed.

Ltac solve_test_frame :=
  repeat split; cbn; auto;
  try (eexists; split; [rewrite <- ?app_assoc; reflexivity | reflexivity]).

Lemma test_example_frame (cfg : Config) (batch : Z)
    (sentences : list sentence) (labels preds : list label)
    (probs : list scores) (idx : Z) (w : world) :
  test_frame w
    (snd (test_example cfg batch sentences labels preds probs idx w)).
Proof.
  unfold test_example, or_raise.
  destruct (py_index sentences idx); run_prims; [| apply test_frame_refl].
  destruct (py_index labels idx); run_prims; [| solve_test_frame].
  destruct (py_index preds idx); run_prims; [| solve_test_frame].
  destruct (py_index probs idx) as [row |]; run_prims; [| solve_test_frame].
  destruct (py_max row); run_prims; solve_test_frame.
Qed.

Lemma test_batch_frame (cfg : Config) (d : DataModule) (batch : Z)
    (predictions : list label) (w : world) :
  test_frame w (snd (test_batch cfg d batch predictions w)).
Proof.
  unfold test_batch, call_inference. run_prims.
  destruct (inference false cfg (model w) _) as [preds probs].
  match goal with
  | |- context [for_each ?l ?f ?w0] =>
      pose proof (for_fold_frame test_frame (fun x (_ : unit) => f x)
                    test_frame_refl test_frame_trans
                    (fun x _ w => test_example_frame cfg batch _ _ _ _ x w)
                    l tt w0) as Hloop;
      change (for_fold l (fun x (_ : unit) => f x) tt w0)
        with (for_each l f w0) in Hloop;
      destruct (for_each l f w0) as [[[] | e] w1]
  end; simpl in Hloop |- *;
    (eapply test_frame_trans; [| exact Hloop]); solve_test_frame.
Qed.

Lemma test_model_frame (cfg : Config) (w : world) :
  test_frame w (snd (test_model cfg w)).
Proof.
  unfold test_model.
  destruct (test_on_val cfg); run_prims;
    (destruct (num_batches _ _) as [nb |]; unfold or_raise; run_prims;
     [| solve_test_frame; exists []; now rewrite app_nil_r]);
    match goal with
    | |- context [for_fold ?l (test_batch cfg ?d) ?a ?w0] =>
        pose proof (for_fold_frame test_frame (test_batch cfg d)
                      test_frame_refl test_frame_trans
                      (test_batch_frame cfg d) l a w0) as Hloop;
        destruct (for_fold l (test_batch cfg d) a w0) as [[preds | e] w1]
    end; simpl in Hloop |- *;
    (eapply test_frame_trans; [| eapply test_frame_trans; [exact Hloop |]]);
    solve_test_frame; try (exists []; now rewrite app_nil_r).
Qed.

(** Logging and saving the checkpoint of an epoch. *)
Lemma save_model_eq (epoch : Z) (w : world) :
  save_model epoch (set_trace (trace w ++ [EvLog (MsgSaveModel epoch)]) w)
  = (Ok tt, after_save epoch w).
Proof.
  unfold save_model, after_save. run_prims.
  rewrite <- app_assoc. reflexivity.
Qed.

(** [run_epoch], statement by statement. *)
Lemma run_epoch_eq (cfg : Config) (epoch : Z) (w : world) :
  run_epoch cfg epoch w =
  match num_batches (len (train_texts (data_module w))) (batch_size_train cfg) with
  | None => (Raise ZeroDivisionError, w)
  | Some nb =>
      match for_fold (py_range nb) (train_batch cfg epoch nb) [] (shuffled w) with
      | (Raise e, w2) => (Raise e, w2)
      | (Ok total_loss, w2) =>
          let w3 := after_training cfg epoch total_loss w2 in
          match num_batches (len (val_texts (data_module w3)))
                            (batch_size_val cfg) with
          | None => (Raise ZeroDivisionError, w3)
          | Some nbv =>
              let w5 := after_save epoch (eval_model_result cfg epoch nbv w3) in
              if epoch =? num_epoch cfg
              then os_rename (epoch_dir (fst (best_epoch w5))) e_best w5
              else (Ok tt, w5)
          end
      end
  end.
Proof.
  unfold run_epoch. run_prims.
  destruct (num_batches _ (batch_size_train cfg)) as [nb |]; unfold or_raise;
    run_prims; [| reflexivity].
  assert (Hsh : (let d := data_module w in
                 let '(texts, pols, r) :=
                   shuffle_lists (random_state w) (train_texts d) (train_pols d) in
                 set_random_state r
                   (set_data (mkData texts pols (val_texts d) (val_pols d)
                                     (test_texts d) (test_pols d)) w))
                = shuffled w) by reflexivity.
  cbn zeta in Hsh. rewrite Hsh. clear Hsh.
  destruct (for_fold _ _ _ _) as [[total_loss | e] w2]; [| reflexivity].
  cbn zeta.
  match goal with
  | |- context [eval_model cfg epoch ?w0] =>
      replace w0 with (after_training cfg epoch total_loss w2)
        by (unfold after_training; rewrite <- !app_assoc; reflexivity)
  end.
  destruct (num_batches _ (batch_size_val cfg)) as [nbv |] eqn:Hnbv.
  - rewrite (eval_model_eq cfg epoch nbv) by exact Hnbv.
    cbv beta iota zeta. rewrite save_model_eq.
    destruct (epoch =? num_epoch cfg); reflexivity.
  - rewrite eval_model_zero_division by exact Hnbv. reflexivity.
Qed.

(** [os.rename] between two different names, case by case. *)
Lemma os_rename_eq (src dst : ckpt_name) (w : world) :
  src <> dst ->
  os_rename src dst w =
  match fs w !! src with
  | None => (Raise (FileNotFoundError src), w)
  | Some x =>
      match fs w !! dst with
      | Some (Some _) => (Raise (OSError dst), w)
      | _ => (Ok tt,
              set_trace (trace w ++ [EvRename src dst])
                (set_fs (<[dst := x]> (delete src (fs w))) w))
      end
  end.
Proof.
  intros Hne. unfold os_rename. run_prims.
  destruct (fs w !! src) as [x |]; [| reflexivity].
  destruct (decide (src = dst)); [contradiction |].
  destruct (fs w !! dst) as [[c |] |]; reflexivity.
Qed.

(** Projections of a trace whose events are all of a kind the projection
    ignores. *)
Lemma omap_ignored {X Y : Type} (P : X -> bool) (f : X -> option Y) (l : list X) :
  (forall x, P x = true -> f x = None) ->
  forallb P l = true -> omap f l = [].
Proof.
  intros Hf. induction l as [| x l IH]; [reflexivity |].
  simpl forallb. intros H. apply andb_true_iff in H as [Hx Hl].
  change (omap f (x :: l))
    with (match f x with Some y => y :: omap f l | None => omap f l end).
  rewrite (Hf x Hx). now apply IH.
Qed.

Lemma omap_map_ignored {X Y Z' : Type} (g : X -> Y) (f : Y -> option Z')
    (l : list X) :
  (forall x, f (g x) = None) -> omap f (map g l) = [].
Proof.
  intros Hf. induction l as [| x l IH]; [reflexivity |].
  change (omap f (map g (x :: l)))
    with (match f (g x) with
          | Some y => y :: omap f (map g l)
          | None => omap f (map g l)
          end).
  now rewrite Hf.
Qed.

Lemma train_events_quiet (ev : list event) :
  forallb is_train_event ev = true ->
  val_log ev = [] /\ best_log ev = [] /\ key_events ev = [] /\
  inference_calls ev = [].
Proof.
  intros H. repeat split;
    (eapply omap_ignored; [| exact H]);
    intros [[] | [] | | | | | | | | | | | ]; simpl; congruence.
Qed.

Lemma test_events_keys (ev : list event) :
  forallb is_test_event ev = true ->
  val_log ev = [] /\ best_log ev = [] /\
  key_events ev = repeat KTest (length ev).
Proof.
  intros H. repeat split.
  1-2: (eapply omap_ignored; [| exact H]);
       intros [[] | | | | | [] | | | | | | | ]; simpl; congruence.
  induction ev as [| e ev IH]; [reflexivity |].
  simpl in H. apply andb_true_iff in H as [He Hev].
  change (key_events (e :: ev))
    with (match key_of e with
          | Some y => y :: key_events ev
          | None => key_events ev
          end).
  rewrite (IH Hev).
  destruct e as [[] | | | | | [] | | | | | | | ]; simpl in He |- *;
    congruence.
Qed.

Lemma shuffled_fields (w : world) :
  trace (shuffled w) = trace w /\ fs (shuffled w) = fs w /\
  best_epoch (shuffled w) = best_epoch w /\
  scheduler (shuffled w) = scheduler w /\
  model (shuffled w) = model w.
Proof.
  unfold shuffled. destruct (shuffle_lists _ _ _) as [[texts pols] r].
  repeat split.
Qed.

Lemma num_batches_none (n b : Z) : num_batches n b = None -> b = 0.
Proof.
  unfold num_batches. destruct (Z.eqb_spec b 0); [auto | discriminate].
Qed.

(** Projections of the events of one epoch. *)
Ltac project_events :=
  unfold val_log, best_log, key_events in *;
  rewrite ?omap_app;
  repeat match goal with
         | H : omap _ ?ev = [] |- context [omap _ ?ev] => rewrite H
         end;
  rewrite ?omap_map_ignored by reflexivity;
  try reflexivity.

Lemma run_epoch_spec (cfg : Config) (epoch : Z) (w : world) :
  epoch_run cfg epoch w (fst (run_epoch cfg epoch w)) (snd (run_epoch cfg epoch w)).
Proof.
  rewrite run_epoch_eq.
  destruct (num_batches _ (batch_size_train cfg)) as [nb |] eqn:Hnb.
  2:{ simpl. apply (epoch_aborted _ _ _ _ _ []); rewrite ?app_nil_r; auto.
      left. split; [now apply num_batches_none in Hnb | reflexivity]. }
  pose proof (train_loop_frame cfg epoch nb (py_range nb) [] (shuffled w)) as Hfr.
  destruct (shuffled_fields w) as (Ht & Hf & Hb & Hs & Hm).
  destruct (for_fold _ _ _ _) as [[tl | e] w2] eqn:Hloop; simpl in Hfr;
    destruct Hfr as (Hd2 & Hf2 & Hb2 & Hs2 & ev & Htr & Hev);
    destruct (train_events_quiet ev Hev) as (Hv & Hbl & Hk & _).
  2:{ simpl. apply (epoch_aborted _ _ _ _ _ ev); try congruence.
      right. right. now exists nb, w2. }
  cbn zeta.
  destruct (num_batches _ (batch_size_val cfg)) as [nbv |] eqn:Hnbv.
  2:{ simpl. eapply (epoch_aborted _ _ _ _ _ (ev ++ _)).
      - unfold after_training. cbn. rewrite Htr, Ht, <- app_assoc. reflexivity.
      - project_events.
      - project_events.
      - project_events.
      - cbn. congruence.
      - cbn. congruence.
      - right. left. split; [now apply num_batches_none in Hnbv | reflexivity]. }
  set (w3 := after_training cfg epoch tl w2) in *.
  set (w5 := after_save epoch (eval_model_result cfg epoch nbv w3)).
  set (loss := np_mean (map (val_batch_loss cfg (data_module w3) (model w3))
                            (py_range nbv))).
  set (c := mkCheckpoint epoch (model w3) (optimizer w3)).
  assert (Hbest5 : best_epoch w5 = update_best (best_epoch w) epoch loss).
  { subst w5 w3 loss. cbn. congruence. }
  assert (Hfs5 : fs w5 = <[epoch_dir epoch := Some c]> (fs w)).
  { subst w5 w3 c. cbn. congruence. }
  assert (Hsch5 : is_Some (scheduler w) -> is_Some (scheduler w5)).
  { subst w5 w3. cbn. rewrite <- Hs. exact Hs2. }
  assert (Htr5 : exists ev5,
             trace w5 = trace w ++ ev5 /\
             val_log ev5 = [(epoch, loss)] /\
             best_log ev5 = [best_epoch w5] /\
             key_events ev5 = [KSave epoch]).
  { eexists (ev ++ _). split; [| split; [| split]].
    - subst w5 w3. unfold after_save, eval_model_result, after_training.
      cbn. rewrite Htr, Ht, <- !app_assoc. reflexivity.
    - project_events.
    - rewrite Hbest5. project_events. cbn. subst loss w3. cbn.
      rewrite Hb2, Hb. reflexivity.
    - project_events. }
  destruct Htr5 as (ev5 & Htr5 & Hv5 & Hbl5 & Hk5).
  clearbody w5 c loss.
  destruct (epoch =? num_epoch cfg) eqn:HeN.
  - rewrite os_rename_eq by discriminate. rewrite Hfs5.
    destruct (<[epoch_dir epoch := Some c]> (fs w) !! epoch_dir (fst (best_epoch w5)))
      as [x |] eqn:Hsrc.
    2:{ simpl. eapply (epoch_saved _ _ _ _ _ ev5 loss c []); eauto.
        unfold promotion. rewrite HeN, Hsrc, Hfs5. reflexivity. }
    destruct (<[epoch_dir epoch := Some c]> (fs w) !! e_best) as [[c' |] |] eqn:Hdst.
    + simpl. eapply (epoch_saved _ _ _ _ _ ev5 loss c []); eauto.
      unfold promotion. rewrite HeN, Hsrc, Hdst, Hfs5. reflexivity.
    + simpl.
      eapply (epoch_saved _ _ _ _ _ (ev5 ++ [EvRename _ e_best]) loss c
                [KRename (epoch_dir (fst (best_epoch w5))) e_best]); simpl.
      * rewrite Htr5, <- app_assoc. reflexivity.
      * unfold val_log in *. rewrite omap_app, Hv5. reflexivity.
      * unfold best_log in *. rewrite omap_app, Hbl5. reflexivity.
      * exact Hbest5.
      * unfold key_events in *. rewrite omap_app, Hk5. reflexivity.
      * unfold promotion. rewrite HeN, Hsrc, Hdst. reflexivity.
      * exact Hsch5.
    + simpl.
      eapply (epoch_saved _ _ _ _ _ (ev5 ++ [EvRename _ e_best]) loss c
                [KRename (epoch_dir (fst (best_epoch w5))) e_best]); simpl.
      * rewrite Htr5, <- app_assoc. reflexivity.
      * unfold val_log in *. rewrite omap_app, Hv5. reflexivity.
      * unfold best_log in *. rewrite omap_app, Hbl5. reflexivity.
      * exact Hbest5.
      * unfold key_events in *. rewrite omap_app, Hk5. reflexivity.
      * unfold promotion. rewrite HeN, Hsrc, Hdst. reflexivity.
      * exact Hsch5.
  - simpl. eapply (epoch_saved _ _ _ _ _ ev5 loss c []); eauto.
    unfold promotion. rewrite HeN, Hfs5. reflexivity.
Qed.

Lemma encode_batch_some (cfg : Config) (sentences : list sentence) :
  (use_BERT cfg = true -> sentences <> []) ->
  exists inputs masks, encode_batch cfg sentences = Some (inputs, masks).
Proof.
  intros H. unfold encode_batch.
  destruct (use_BERT cfg); simpl; [| eauto].
  destruct sentences; [now contradiction H | eauto].
Qed.

(** One training batch: the gradient the optimizer steps with, the model it
    produces, the model call recorded, and the loss appended, which is
    returned unless the scheduler is missing. *)
Lemma train_batch_step (cfg : Config) (epoch nb batch : Z)
    (total_loss : list pyfloat) (w : world) inputs masks :
  let d := data_module w in
  let labels := batch_slice (train_pols d) (batch_size_train cfg) batch in
  let g := stepped_gradient cfg (model w) inputs masks labels in
  let r := train_batch cfg epoch nb batch total_loss w in
  encode_batch cfg (batch_slice (train_texts d) (batch_size_train cfg) batch)
    = Some (inputs, masks) ->
  optimizer_steps (trace (snd r)) = optimizer_steps (trace w) ++ [g] /\
  model (snd r) = snd (optimizer_step (optimizer w) (model w) g) /\
  forward_calls (trace (snd r)) = forward_calls (trace w) ++ [inputs] /\
  ((use_BERT cfg = true -> is_Some (scheduler w)) ->
   fst r = Ok (total_loss ++
               [train_batch_loss cfg (model w) inputs masks labels])).
Proof.
  intros d labels g r Henc. subst r g labels d.
  unfold train_batch, stepped_gradient, train_batch_loss. run_prims.
  rewrite Henc. unfold or_raise. run_prims.
  unfold do_optimizer_step, do_scheduler_step, optimizer_steps, forward_calls.
  destruct (use_BERT cfg); run_prims.
  - destruct (gtb (clip_norm cfg) (of_Z 0)); run_prims;
      destruct_step; run_prims;
      (destruct (scheduler w) as [sc |]; run_prims;
       [destruct_step; run_prims |]);
      rewrite ?omap_app; cbn; rewrite ?app_nil_r;
      (repeat split; auto);
      intros Hs; try reflexivity; destruct (Hs eq_refl); discriminate.
  - destruct_step; run_prims.
    rewrite ?omap_app; cbn; rewrite ?app_nil_r. repeat split; auto.
Qed.

(** With a scheduler at hand whenever the transformer is used, and no
    empty batch, the batch loop of [run_epoch] completes, having called the
    model once per batch, in order. *)
Lemma train_loop_run (cfg : Config) (epoch nb : Z) (l : list Z) :
  forall total_loss w,
  (use_BERT cfg = true -> is_Some (scheduler w)) ->
  (use_BERT cfg = true ->
   forall batch, In batch l ->
     batch_slice (train_texts (data_module w)) (batch_size_train cfg) batch <> []) ->
  exists total_loss' w',
    for_fold l (train_batch cfg epoch nb) total_loss w = (Ok total_loss', w') /\
    forward_calls (trace w') =
      forward_calls (trace w) ++
      map (fun batch =>
             encoded_inputs cfg
               (batch_slice (train_texts (data_module w))
                            (batch_size_train cfg) batch)) l /\
    length total_loss' = (length total_loss + length l)%nat.
Proof.
  induction l as [| batch l IH]; intros total_loss w Hs Hne.
  - exists total_loss, w. simpl. rewrite app_nil_r. repeat split; lia.
  - destruct (encode_batch_some cfg
                (batch_slice (train_texts (data_module w))
                             (batch_size_train cfg) batch))
      as (inputs & masks & Henc).
    { intros Hb. apply (Hne Hb). now left. }
    pose proof (train_batch_step cfg epoch nb batch total_loss w inputs masks Henc)
      as (_ & _ & Hfw & Hok).
    specialize (Hok Hs).
    pose proof (train_batch_frame cfg epoch nb batch total_loss w)
      as (Hd & _ & _ & Hs1 & _).
    simpl for_fold. unfold bind.
    destruct (train_batch cfg epoch nb batch total_loss w) as [r1 w1].
    simpl in Hok, Hfw, Hd, Hs1. subst r1.
    destruct (IH (total_loss ++ [train_batch_loss cfg (model w) inputs masks
                   (batch_slice (train_pols (data_module w))
                                (batch_size_train cfg) batch)]) w1)
      as (tl' & w' & Hrun & Hfw' & Hlen).
    { intros Hb. apply Hs1, Hs, Hb. }
    { intros Hb b' Hin. rewrite Hd. apply (Hne Hb). now right. }
    exists tl', w'. split; [exact Hrun |]. split.
    + rewrite Hfw', Hfw, Hd. simpl. unfold encoded_inputs at 2.
      rewrite Henc. now rewrite <- app_assoc.
    + rewrite Hlen, length_app. simpl. lia.
Qed.

Lemma inference_calls_batches (val : bool) (f : Z -> list sentence) (l : list Z) :
  inference_calls (map (fun batch => EvInference val (f batch)) l)
  = map (fun batch => (val, f batch)) l.
Proof.
  induction l as [| x l IH]; [reflexivity |].
  unfold inference_calls in *. simpl map.
  change (omap ?g (?e :: ?r))
    with (match g e with Some y => y :: omap g r | None => omap g r end).
  simpl. now rewrite IH.
Qed.

(** What a validation pass shows: the calls of [inference], the loss and
    the record logged, and the record kept. *)
Lemma eval_model_observed (cfg : Config) (epoch nb : Z) (w : world) :
  let d := data_module w in
  let loss := np_mean (map (val_batch_loss cfg d (model w)) (py_range nb)) in
  let r := eval_model cfg epoch w in
  num_batches (len (val_texts d)) (batch_size_val cfg) = Some nb ->
  fst r = Ok tt /\
  best_epoch (snd r) = update_best (best_epoch w) epoch loss /\
  exists ev,
    trace (snd r) = trace w ++ ev /\
    val_log ev = [(epoch, loss)] /\
    best_log ev = [update_best (best_epoch w) epoch loss] /\
    inference_calls ev =
      map (fun batch =>
             (true, batch_slice (val_texts d) (batch_size_val cfg) batch))
          (py_range nb).
Proof.
  intros d loss r Hnb. subst r. rewrite (eval_model_eq cfg epoch nb w Hnb).
  split; [reflexivity |]. split; [reflexivity |].
  eexists. split; [reflexivity |].
  unfold val_log, best_log.
  rewrite !omap_app, !omap_map_ignored by reflexivity.
  repeat split.
  unfold inference_calls. rewrite omap_app.
  change (omap _ (map ?g ?l)) with (inference_calls (map g l)).
  rewrite (inference_calls_batches true
             (fun batch => batch_slice (val_texts d) (batch_size_val cfg) batch)).
  cbn. now rewrite app_nil_r.
Qed.

End Statements.

(** ** Arithmetic of [np.mean] *)



(** ** Order on floats *)

Lemma ltb_leb (x y : pyfloat) : ltb x y = true -> leb x y = true.
Proof.
  unfold ltb, leb. destruct x as [a | | |], y as [b | | |]; try congruence.
  destruct (Qlt_le_dec a b) as [Hlt | Hle]; [| discriminate].
  destruct (Qlt_le_dec b a) as [Hlt' | _]; [| reflexivity].
  intros _. exfalso. apply (Qlt_irrefl a). now apply Qlt_trans with b.
Qed.

Lemma ltb_not_nan (x y : pyfloat) : ltb x y = true -> is_nan x = false.
Proof. unfold ltb. destruct x, y; simpl; congruence. Qed.

Lemma leb_refl (x : pyfloat) : is_nan x = false -> leb x x = true.
Proof.
  unfold leb. destruct x as [a | | |]; simpl; try congruence.
  intros _. destruct (Qlt_le_dec a a) as [Hlt | _]; [| reflexivity].
  exfalso. now apply (Qlt_irrefl a).
Qed.

Lemma ltb_trans (x y z : pyfloat) :
  ltb x y = true -> ltb y z = true -> ltb x z = true.
Proof.
  unfold ltb.
  destruct x as [a | | |], y as [b | | |], z as [c | | |]; try congruence.
  destruct (Qlt_le_dec a b) as [Hab | _]; [| discriminate].
  destruct (Qlt_le_dec b c) as [Hbc | _]; [| discriminate].
  destruct (Qlt_le_dec a c) as [_ | Hca]; [reflexivity |].
  intros _ _. exfalso. apply (Qlt_irrefl a).
  apply Qlt_le_trans with c; [now apply Qlt_trans with b | exact Hca].
Qed.

Lemma ltb_irrefl (x : pyfloat) : ltb x x = false.
Proof.
  unfold ltb. destruct x as [a | | |]; try reflexivity.
  destruct (Qlt_le_dec a a) as [Hlt | _]; [| reflexivity].
  exfalso. now apply (Qlt_irrefl a).
Qed.

(** ** The best-epoch record *)

Section Records.

Context {B : Backend}.
Implicit Types (best : Z * pyfloat) (vals : list (Z * pyfloat)).

Lemma update_best_cases best epoch loss :
  (ltb loss (snd best) = true /\ update_best best epoch loss = (epoch, loss)) \/
  (ltb loss (snd best) = false /\ update_best best epoch loss = best).
Proof. unfold update_best. destruct (ltb loss (snd best)); auto. Qed.

Lemma update_best_not_nan best epoch loss :
  is_nan (snd best) = false ->
  is_nan (snd (update_best best epoch loss)) = false.
Proof.
  intros Hb. destruct (update_best_cases best epoch loss) as [[Hlt ->] | [_ ->]];
    [apply (ltb_not_nan _ _ Hlt) | exact Hb].
Qed.

Lemma update_best_leb best epoch loss :
  is_nan (snd best) = false ->
  leb (snd (update_best best epoch loss)) (snd best) = true.
Proof.
  intros Hb. destruct (update_best_cases best epoch loss) as [[Hlt ->] | [_ ->]];
    [now apply ltb_leb | now apply leb_refl].
Qed.

Lemma final_record_app best vals v :
  final_record best (vals ++ [v])
  = update_best (final_record best vals) (fst v) (snd v).
Proof. unfold final_record. now rewrite fold_left_app. Qed.

Lemma records_from_app best vals epoch loss :
  records_from best (vals ++ [(epoch, loss)])
  = records_from best vals ++ [update_best (final_record best vals) epoch loss].
Proof.
  revert best. induction vals as [| [e l] vals IH]; intros best.
  - reflexivity.
  - simpl. now rewrite IH.
Qed.

Lemma records_from_length best vals :
  length (records_from best vals) = length vals.
Proof.
  revert best. induction vals as [| [e l] vals IH]; intros best;
    [reflexivity | simpl; now rewrite IH].
Qed.

Lemma records_nonincreasing best vals :
  is_nan (snd best) = false ->
  nonincreasing (snd best) (records_from best vals).
Proof.
  revert best. induction vals as [| [e l] vals IH]; intros best Hb.
  - exact I.
  - simpl. split; [now apply update_best_leb |].
    apply IH. now apply update_best_not_nan.
Qed.

(** The final record is the initial one exactly when no loss was below
    it; otherwise it is one of the validation results, with a loss below
    the initial one. *)
Lemma final_record_cases best vals :
  (final_record best vals = best /\
   forall v, In v vals -> ltb (snd v) (snd best) = false) \/
  (In (final_record best vals) vals /\
   ltb (snd (final_record best vals)) (snd best) = true).
Proof.
  revert best. induction vals as [| [e l] vals IH]; intros best.
  - left. split; [reflexivity | intros v []].
  - change (final_record best ((e, l) :: vals))
      with (final_record (update_best best e l) vals).
    destruct (update_best_cases best e l) as [[Hlt Hu] | [Hge Hu]]; rewrite Hu.
    + right. destruct (IH (e, l)) as [[Hf _] | [Hin Hlt']].
      * rewrite Hf. split; [now left | exact Hlt].
      * split; [now right |]. eapply ltb_trans; [exact Hlt' | exact Hlt].
    + destruct (IH best) as [[Hf Hall] | [Hin Hlt']].
      * left. split; [exact Hf |].
        intros v [<- | Hv]; [exact Hge | now apply Hall].
      * right. split; [now right | exact Hlt'].
Qed.

End Records.

(** ** The loop over the epochs *)

Lemma py_range2_In (lo hi k : Z) : In k (py_range2 lo hi) <-> lo <= k < hi.
Proof.
  unfold py_range2. rewrite in_map_iff. split.
  - intros (i & <- & Hi). apply in_seq in Hi. lia.
  - intros H. exists (Z.to_nat (k - lo)). split; [lia |]. apply in_seq. lia.
Qed.

Lemma py_range2_split (lo hi : Z) (done : list Z) (x : Z) (rest : list Z) :
  py_range2 lo hi = done ++ x :: rest ->
  lo <= x < hi /\ (forall k, In k done -> lo <= k < x) /\
  length done = Z.to_nat (x - lo).
Proof.
  unfold py_range2. intros H.
  apply map_eq_app in H as (l1 & l2 & Hseq & Hdone & Hrest).
  destruct l2 as [| y l2]; [discriminate |].
  injection Hrest as Hx _.
  assert (Hlen : length (seq 0 (Z.to_nat (hi - lo))) = (length l1 + S (length l2))%nat).
  { rewrite Hseq, length_app. reflexivity. }
  rewrite length_seq in Hlen.
  rewrite Hlen, seq_app in Hseq.
  apply app_inj_1 in Hseq as [Hl1 Hl2]; [| now rewrite length_seq].
  simpl in Hl2. injection Hl2 as Hy _. subst y x.
  split; [lia |]. split; [| rewrite <- Hdone, length_map; lia].
  intros k Hk. rewrite <- Hdone in Hk. apply in_map_iff in Hk as (i & <- & Hi).
  rewrite <- Hl1 in Hi. apply in_seq in Hi. lia.
Qed.

Lemma py_range2_length (lo hi : Z) :
  length (py_range2 lo hi) = Z.to_nat (hi - lo).
Proof. unfold py_range2. now rewrite length_map, length_seq. Qed.

Lemma existsb_eqb_false (n : Z) (l : list Z) :
  (forall k, In k l -> k <> n) -> existsb (Z.eqb n) l = false.
Proof.
  intros H. induction l as [| k l IH]; [reflexivity |].
  simpl. rewrite IH by (intros; apply H; now right).
  destruct (Z.eqb_spec n k) as [-> |]; [| reflexivity].
  exfalso. apply (H k); [now left | reflexivity].
Qed.

Section Epochs.

Context {B : Backend}.

Lemma dirs_after_app (D : gset ckpt_name) (ks1 ks2 : list key) :
  dirs_after D (ks1 ++ ks2) = dirs_after (dirs_after D ks1) ks2.
Proof. unfold dirs_after. apply fold_left_app. Qed.

Lemma dirs_after_saves (D : gset ckpt_name) (l : list Z) (x : ckpt_name) :
  x ∈ dirs_after D (map KSave l) <->
  x ∈ D \/ exists k, In k l /\ x = epoch_dir k.
Proof.
  revert D. induction l as [| k l IH]; intros D.
  - simpl. split; [auto | intros [H | (k & [] & _)]; exact H].
  - change (dirs_after D (map KSave (k :: l)))
      with (dirs_after ({[ epoch_dir k ]} ∪ D) (map KSave l)).
    rewrite IH. rewrite elem_of_union, elem_of_singleton. split.
    + intros [[-> | H] | (k' & Hk' & ->)].
      * right. exists k. split; [now left | reflexivity].
      * now left.
      * right. exists k'. split; [now right | reflexivity].
    + intros [H | (k' & [-> | Hk'] & ->)].
      * left. now right.
      * left. now left.
      * right. exists k'. split; [assumption | reflexivity].
Qed.

(** One more epoch validated and saved. *)
Lemma run_shape_saved (t0 : list event) (D0 : gset ckpt_name)
    (w w' : world) (done : list Z) (x : Z) (loss : pyfloat)
    (ev' : list event) (tail : list key) :
  run_shape t0 D0 w done [] ->
  trace w' = trace w ++ ev' ->
  val_log ev' = [(x, loss)] ->
  best_log ev' = [best_epoch w'] ->
  best_epoch w' = update_best (best_epoch w) x loss ->
  key_events ev' = KSave x :: tail ->
  dom (fs w') = dirs_after ({[ epoch_dir x ]} ∪ dom (fs w)) tail ->
  run_shape t0 D0 w' (done ++ [x]) tail.
Proof.
  intros (ev & Htr & Hvals & Hbl & Hbest & Hkeys & Hdom) Htr' Hv' Hbl' Hbest' Hk' Hdom'.
  rewrite app_nil_r in Hkeys.
  exists (ev ++ ev'). unfold val_log, best_log, key_events in *.
  rewrite !omap_app, Hv', Hbl', Hk', Hkeys.
  split; [rewrite Htr', Htr; now rewrite app_assoc |].
  split; [rewrite map_app, Hvals; reflexivity |].
  split; [rewrite records_from_app, Hbl, Hbest', Hbest; reflexivity |].
  split; [rewrite final_record_app, Hbest', Hbest; reflexivity |].
  split; [rewrite map_app, <- app_assoc; reflexivity |].
  rewrite Hdom', Hdom, Hkeys.
  change (KSave x :: tail) with ([KSave x] ++ tail).
  rewrite !dirs_after_app. reflexivity.
Qed.

Lemma run_shape_quiet (t0 : list event) (D0 : gset ckpt_name)
    (w w' : world) (done : list Z) (tail : list key) (ev' : list event) :
  run_shape t0 D0 w done tail ->
  trace w' = trace w ++ ev' ->
  val_log ev' = [] -> best_log ev' = [] -> key_events ev' = [] ->
  fs w' = fs w -> best_epoch w' = best_epoch w ->
  run_shape t0 D0 w' done tail.
Proof.
  intros (ev & Htr & Hvals & Hbl & Hbest & Hkeys & Hdom) Htr' Hv' Hbl' Hk' Hfs' Hb'.
  exists (ev ++ ev'). unfold val_log, best_log, key_events in *.
  rewrite !omap_app, Hv', Hbl', Hk', !app_nil_r.
  repeat split; try congruence.
  rewrite Htr', Htr. now rewrite app_assoc.
Qed.

Lemma epochs_loop (cfg : Config) (t0 : list event) (D0 : gset ckpt_name)
    (w1 : world) :
  run_shape t0 D0 w1 [] [] ->
  let l := py_range2 1 (num_epoch cfg + 1) in
  match for_each l (run_epoch cfg) w1 with
  | (Ok _, w') =>
      run_shape t0 D0 w' l (promo_tail cfg l w') /\
      sched_kept w1 w' /\ promo_valid cfg D0 l w'
  | (Raise e, w') => epochs_aborted cfg t0 D0 w1 l e w'
  end.
Proof.
  intros H0 l. unfold for_each.
  apply (for_fold_inv
           (fun done (_ : unit) w =>
              run_shape t0 D0 w done (promo_tail cfg done w) /\
              sched_kept w1 w /\ promo_valid cfg D0 done w)
           (fun e w => epochs_aborted cfg t0 D0 w1 l e w)).
  2:{ split; [exact H0 |]. split; [intros H; exact H | discriminate]. }
  intros done x rest [] w Hl (Hshape & Hsch & _).
  assert (Hdom : dom (fs w) = dirs_after D0 (map KSave done)).
  { destruct Hshape as (ev & _ & _ & _ & _ & Hkeys & Hdom).
    rewrite Hdom, Hkeys. unfold promo_tail.
    destruct (existsb _ done) eqn:Hex; [| now rewrite app_nil_r].
    exfalso. apply existsb_exists in Hex as (k & Hk & Heq).
    apply Z.eqb_eq in Heq. subst k.
    destruct (py_range2_split _ _ _ _ _ Hl) as (Hx & Hdone & _).
    specialize (Hdone _ Hk). lia. }
  destruct (py_range2_split _ _ _ _ _ Hl) as (Hx & Hdone & _).
  assert (Hnot : existsb (Z.eqb (num_epoch cfg)) done = false).
  { apply existsb_eqb_false. intros k Hk. specialize (Hdone k Hk). lia. }
  unfold promo_tail in Hshape. rewrite Hnot in Hshape.
  pose proof (run_epoch_spec cfg x w) as Hrun.
  destruct (run_epoch cfg x w) as [r w']. simpl in Hrun.
  destruct Hrun as [e w' ev' Htr' Hv' Hbl' Hk' Hfs' Hbest' Hcause
                   | r w' ev' loss c tail Htr' Hv' Hbl' Hbest' Hk' Hprom Hs'].
  - exists done, x, rest. split; [exact Hl |]. left. split.
    + eapply run_shape_quiet; eauto.
    + exists w. split; assumption.
  - assert (Hexists : existsb (Z.eqb (num_epoch cfg)) (done ++ [x])
                      = (x =? num_epoch cfg)).
    { rewrite existsb_app, Hnot. simpl. rewrite orb_false_r. apply Z.eqb_sym. }
    unfold promotion in Hprom.
    destruct (x =? num_epoch cfg) eqn:HxN.
    + apply Z.eqb_eq in HxN.
      destruct (_ !! epoch_dir (fst (best_epoch w'))) as [content |] eqn:Hsrc.
      * destruct (_ !! e_best) as [[c' |] |] eqn:Hdst;
          injection Hprom as <- <- Hfs.
        -- exists done, x, rest. split; [exact Hl |]. right.
           split; [exact HxN |]. split.
           ++ eapply run_shape_saved; eauto.
              rewrite <- Hfs, dom_insert_L. reflexivity.
           ++ right. split; [reflexivity |].
              rewrite <- Hfs. split; apply elem_of_dom;
                [rewrite Hdst | rewrite Hsrc]; eauto.
        -- split; [| split; [intros H; apply Hs', Hsch, H |]].
           ++ unfold promo_tail. rewrite Hexists.
              eapply run_shape_saved; eauto.
              rewrite <- Hfs. simpl.
              rewrite dom_insert_L, dom_delete_L, dom_insert_L. reflexivity.
           ++ intros _. rewrite map_app, dirs_after_app, <- Hdom. simpl.
              rewrite <- (dom_insert_L (fs w) (epoch_dir x) (Some c)).
              apply elem_of_dom. rewrite Hsrc. eauto.
        -- split; [| split; [intros H; apply Hs', Hsch, H |]].
           ++ unfold promo_tail. rewrite Hexists.
              eapply run_shape_saved; eauto.
              rewrite <- Hfs. simpl.
              rewrite dom_insert_L, dom_delete_L, dom_insert_L. reflexivity.
           ++ intros _. rewrite map_app, dirs_after_app, <- Hdom. simpl.
              rewrite <- (dom_insert_L (fs w) (epoch_dir x) (Some c)).
              apply elem_of_dom. rewrite Hsrc. eauto.
      * injection Hprom as <- <- Hfs.
        exists done, x, rest. split; [exact Hl |]. right.
        split; [exact HxN |]. split.
        -- eapply run_shape_saved; eauto.
           rewrite <- Hfs, dom_insert_L. reflexivity.
        -- left. split; [reflexivity |].
           rewrite <- Hfs. now apply not_elem_of_dom.
    + injection Hprom as <- <- Hfs.
      split; [| split; [intros H; apply Hs', Hsch, H |]].
      * unfold promo_tail. rewrite Hexists.
        eapply run_shape_saved; eauto.
        rewrite <- Hfs, dom_insert_L. reflexivity.
      * intros Hex. rewrite Hexists in Hex. discriminate.
Qed.

Lemma run_shape_extend (t0 : list event) (D0 : gset ckpt_name)
    (w w' : world) (done : list Z) (tail ks : list key) (ev' : list event) :
  run_shape t0 D0 w done tail ->
  trace w' = trace w ++ ev' ->
  val_log ev' = [] -> best_log ev' = [] -> key_events ev' = ks ->
  (forall D, dirs_after D ks = D) ->
  fs w' = fs w -> best_epoch w' = best_epoch w ->
  run_shape t0 D0 w' done (tail ++ ks).
Proof.
  intros (ev & Htr & Hvals & Hbl & Hbest & Hkeys & Hdom) Htr' Hv' Hbl' Hk' Hin Hfs' Hb'.
  exists (ev ++ ev'). unfold val_log, best_log, key_events in *.
  rewrite !omap_app, Hv', Hbl', Hk', Hkeys, !app_nil_r.
  repeat split; try congruence.
  - rewrite Htr', Htr. now rewrite app_assoc.
  - now rewrite app_assoc.
  - rewrite Hfs', Hdom, Hkeys.
    rewrite (dirs_after_app D0 (map KSave done ++ tail) ks), Hin. reflexivity.
Qed.

Lemma dirs_after_tests (D : gset ckpt_name) (src : ckpt_name) (n : nat) :
  dirs_after D (KLoad src :: repeat KTest n) = D.
Proof.
  simpl. induction n as [| n IH]; [reflexivity | exact IH].
Qed.

Lemma promo_tail_best (cfg : Config) (l : list Z) (w w' : world) :
  best_epoch w' = best_epoch w -> promo_tail cfg l w' = promo_tail cfg l w.
Proof. intros H. unfold promo_tail. now rewrite H. Qed.

(** The end of a training run, once the loop over the epochs has
    returned: the parameters of [e_best] are loaded and the test pass runs. *)
Lemma main_train_finish (cfg : Config) (w0 w2 : world) :
  let l := py_range2 1 (num_epoch cfg + 1) in
  let r := (log_info MsgFinishedTraining ;;
            load_model e_best ;; test_model cfg) w2 in
  run_shape (trace w0) (dom (fs w0)) w2 l (promo_tail cfg l w2) ->
  promo_valid cfg (dom (fs w0)) l w2 ->
  train_outcome cfg w0 (fst r) (snd r).
Proof.
  intros l r Hshape Hvalid. subst r. unfold load_model. run_prims.
  destruct (fs w2 !! e_best) as [[c |] |] eqn:Hbest; run_prims.
  - match goal with
    | |- context [test_model cfg ?w3] =>
        pose proof (test_model_frame cfg w3) as (Hm & Hfs & Hb & ev & Htr & Hev);
        destruct (test_model cfg w3) as [r w4]
    end.
    simpl in Hm, Hfs, Hb, Htr |- *.
    destruct (test_events_keys ev Hev) as (Hv & Hbl & Hk).
    apply (train_tested cfg w0 r w4 (length ev)); fold l.
    + rewrite (promo_tail_best cfg l w2 w4 Hb).
      eapply (run_shape_extend _ _ w2 w4 _ _ _
                ([EvLog MsgFinishedTraining; EvLoadModel e_best] ++ ev));
        [exact Hshape | | | | | | exact Hfs | exact Hb].
      * rewrite Htr, <- !app_assoc. reflexivity.
      * unfold val_log in *. rewrite omap_app, Hv. reflexivity.
      * unfold best_log in *. rewrite omap_app, Hbl. reflexivity.
      * unfold key_events in *. rewrite omap_app, Hk. reflexivity.
      * intros D. apply dirs_after_tests.
    + unfold promo_valid in *. rewrite Hb. exact Hvalid.
    + rewrite Hfs, Hbest. eauto.
  - apply train_no_best; fold l.
    + match goal with
      | |- run_shape _ _ ?w3 _ _ =>
          rewrite (promo_tail_best cfg l w2 w3 eq_refl)
      end.
      eapply run_shape_quiet; [exact Hshape | reflexivity | | | | | ];
        reflexivity.
    + exact Hvalid.
    + simpl. rewrite Hbest. congruence.
  - apply train_no_best; fold l.
    + match goal with
      | |- run_shape _ _ ?w3 _ _ =>
          rewrite (promo_tail_best cfg l w2 w3 eq_refl)
      end.
      eapply run_shape_quiet; [exact Hshape | reflexivity | | | | | ];
        reflexivity.
    + exact Hvalid.
    + simpl. rewrite Hbest. congruence.
Qed.

Lemma main_train_outcome (cfg : Config) (w0 : world) :
  mode cfg = "train"%string ->
  train_outcome cfg w0 (fst (main cfg w0)) (snd (main cfg w0)).
Proof.
  intros Hmode. unfold main. rewrite Hmode. simpl String.eqb. cbv iota.
  assert (Hstart : forall (w1 : world) (ev : list event),
             trace w1 = trace w0 ++ ev ->
             val_log ev = [] -> best_log ev = [] -> key_events ev = [] ->
             fs w1 = fs w0 -> best_epoch w1 = initial_best ->
             (use_BERT cfg = true -> is_Some (scheduler w1)) ->
             let r := (for_each (py_range2 1 (num_epoch cfg + 1)) (run_epoch cfg) ;;
                       log_info MsgFinishedTraining ;;
                       load_model e_best ;; test_model cfg) w1 in
             train_outcome cfg w0 (fst r) (snd r)).
  { intros w1 ev Htr Hv Hbl Hk Hfs Hb Hs r.
    assert (Hshape : run_shape (trace w0) (dom (fs w0)) w1 [] []).
    { exists ev. rewrite Hv, Hbl, Hk, Hfs, Hb. repeat split; assumption. }
    pose proof (epochs_loop cfg _ _ w1 Hshape) as Hloop. simpl in Hloop.
    assert (Hr : r = match for_each (py_range2 1 (num_epoch cfg + 1))
                             (run_epoch cfg) w1 with
                     | (Ok _, w') =>
                         (log_info MsgFinishedTraining ;;
                          load_model e_best ;; test_model cfg) w'
                     | (Raise e, w') => (Raise e, w')
                     end) by reflexivity.
    clearbody r. subst r.
    destruct (for_each _ _ w1) as [[[] | e] w2].
    - destruct Hloop as (Hshape2 & _ & Hvalid).
      now apply main_train_finish.
    - simpl. now apply (train_epochs_aborted cfg w0 e w1 w2). }
  destruct (use_BERT cfg) eqn:Hbert; run_prims.
  - destruct (num_batches _ _) as [nb |] eqn:Hnb; unfold or_raise; run_prims.
    + match goal with
      | |- context [for_each _ _ ?w1] =>
          apply (Hstart w1 [EvCopyFile; EvLog MsgStartTraining])
      end; try reflexivity.
      * cbn. rewrite <- app_assoc. reflexivity.
      * intros _. cbn. eauto.
    + apply train_init_failed;
        [exact Hbert | now apply num_batches_none in Hnb |].
      exists [EvCopyFile]. repeat split.
  - match goal with
    | |- context [for_each _ _ ?w1] =>
        apply (Hstart w1 [EvCopyFile; EvLog MsgStartTraining])
    end; try reflexivity.
    + cbn. rewrite <- app_assoc. reflexivity.
    + discriminate.
Qed.

End Epochs.

(** * The properties of the specification *)

Lemma leb_not_gtb (x y : pyfloat) : leb x y = true -> gtb x y = false.
Proof.
  unfold leb, gtb, ltb.
  destruct x as [a | | |], y as [b | | |]; try congruence.
  destruct (Qlt_le_dec b a); congruence.
Qed.

(** C7.  With a mode that is neither ["train"] nor ["test"], the program
    logs the message that names the mode and exits: the log entry is the
    only event of the run and every other part of the state (checkpoints,
    model, best-epoch record, data) is as it was, so no epoch ran, no
    checkpoint was written and no test pass took place. *)
Theorem main_incorrect_mode {B : Backend} (cfg : Config) (w : world) :
  mode cfg <> "train"%string ->
  mode cfg <> "test"%string ->
  main cfg w =
  (Raise SystemExit,
   set_trace (trace w ++ [EvLog (MsgIncorrectMode (mode cfg))]) w).
Proof.
  intros Htrain Htest. unfold main.
  apply String.eqb_neq in Htrain, Htest. rewrite Htrain, Htest.
  reflexivity.
Qed.

Lemma main_incorrect_mode_witness :
  let cfg := small_config "eval" false 3 (Fin 1) in
  mode cfg <> "train"%string /\ mode cfg <> "test"%string /\
  @main small_backend cfg small_world =
  (Raise SystemExit,
   set_trace (trace small_world ++ [EvLog (MsgIncorrectMode (mode cfg))])
             small_world).
Proof.
  split; [discriminate |]. split; [discriminate |].
  apply (@main_incorrect_mode small_backend); discriminate.
Defined.



(** C9.  For every backbone, the transformer included, the loss a
    validation pass logs and compares against the best-epoch record is
    [np.mean] of the external criterion applied, batch by batch, to the raw
    outputs that [inference] returned; the loss computed inside the
    transformer is what a training batch records when the transformer is
    used, and nothing else. *)
Theorem validation_uses_external_criterion {B : Backend} (cfg : Config)
    (epoch nb : Z) (w : world) :
  let d := data_module w in
  num_batches (len (val_texts d)) (batch_size_val cfg) = Some nb ->
  let external_loss batch :=
    criterion
      (snd (inference true cfg (model w)
              (batch_slice (val_texts d) (batch_size_val cfg) batch)))
      (batch_slice (val_pols d) (batch_size_val cfg) batch) in
  let loss := np_mean (map external_loss (py_range nb)) in
  (fst (eval_model cfg epoch w) = Ok tt /\
   best_epoch (snd (eval_model cfg epoch w))
     = update_best (best_epoch w) epoch loss /\
   exists ev, trace (snd (eval_model cfg epoch w)) = trace w ++ ev /\
              val_log ev = [(epoch, loss)] /\ forward_calls ev = []) /\
  (forall nbt batch total_loss inputs masks,
     let labels := batch_slice (train_pols d) (batch_size_train cfg) batch in
     encode_batch cfg (batch_slice (train_texts d) (batch_size_train cfg) batch)
       = Some (inputs, masks) ->
     (use_BERT cfg = true -> is_Some (scheduler w)) ->
     fst (train_batch cfg epoch nbt batch total_loss w)
     = Ok (total_loss ++
           [if use_BERT cfg
            then fst (bert_forward (model w) inputs masks labels)
            else criterion (model_forward (model w) inputs) labels])).
Proof.
  intros d Hnb external_loss loss. split.
  - rewrite (eval_model_eq cfg epoch nb w Hnb).
    split; [reflexivity |]. split; [reflexivity |].
    eexists. split; [reflexivity |].
    unfold val_log, forward_calls.
    rewrite !omap_app, !omap_map_ignored by reflexivity.
    split; reflexivity.
  - intros nbt batch total_loss inputs masks labels Henc Hs.
    pose proof (train_batch_step cfg epoch nbt batch total_loss w inputs masks Henc)
      as (_ & _ & _ & Hok).
    exact (Hok Hs).
Qed.

Lemma validation_uses_external_criterion_witness :
  let cfg := small_config "train" true 1 (Fin 1) in
  let w := small_world_bert in
  num_batches (len (val_texts (data_module w))) (batch_size_val cfg) = Some 2 /\
  fst (@eval_model small_backend cfg 1 w) = Ok tt /\
  fst (@train_batch small_backend cfg 1 1 0 [] w) = Ok [Fin (1 # 2)].
Proof.
  pose proof (@validation_uses_external_criterion small_backend
                (small_config "train" true 1 (Fin 1)) 1 2
                small_world_bert eq_refl) as [Hval Htrain].
  split; [reflexivity |].
  split; [exact (proj1 Hval) |].
  exact (Htrain 1 0 [] [[4; 4]; [3]] [[1; 1]; [1]] eq_refl
           ltac:(intros _; eexists; reflexivity)).
Defined.

(** C1, as the code has it.  In a training batch the optimizer steps with
    the gradient that [loss.backward()] left, except that with the
    transformer backbone and [clip_norm > 0] that gradient first goes
    through [clip_grad_norm_] with the configured threshold.  With
    [clip_norm <= 0], and with a CNN or LSTM whatever [clip_norm] is, the
    gradient is not rescaled.  The model after the batch is the one the
    optimizer produced from that gradient. *)
Theorem clipping_policy {B : Backend} (cfg : Config) (epoch nb batch : Z)
    (total_loss : list pyfloat) (w : world) inputs masks :
  let d := data_module w in
  let labels := batch_slice (train_pols d) (batch_size_train cfg) batch in
  let g_bert := backward_bert (model w) inputs masks labels zero_grad in
  let g_plain := backward_criterion (model w) inputs labels zero_grad in
  let w' := snd (train_batch cfg epoch nb batch total_loss w) in
  encode_batch cfg (batch_slice (train_texts d) (batch_size_train cfg) batch)
    = Some (inputs, masks) ->
  (use_BERT cfg = true -> gtb (clip_norm cfg) (of_Z 0) = true ->
   optimizer_steps (trace w')
     = optimizer_steps (trace w) ++ [clip_grad_norm_ g_bert (clip_norm cfg)] /\
   model w' = snd (optimizer_step (optimizer w) (model w)
                     (clip_grad_norm_ g_bert (clip_norm cfg)))) /\
  (use_BERT cfg = true -> leb (clip_norm cfg) (of_Z 0) = true ->
   optimizer_steps (trace w') = optimizer_steps (trace w) ++ [g_bert] /\
   model w' = snd (optimizer_step (optimizer w) (model w) g_bert)) /\
  (use_BERT cfg = false ->
   optimizer_steps (trace w') = optimizer_steps (trace w) ++ [g_plain] /\
   model w' = snd (optimizer_step (optimizer w) (model w) g_plain)).
Proof.
  intros d labels g_bert g_plain w' Henc.
  pose proof (train_batch_step cfg epoch nb batch total_loss w inputs masks Henc)
    as (Hsteps & Hmodel & _ & _).
  unfold stepped_gradient in Hsteps, Hmodel.
  split; [| split].
  - intros Hb Hclip. rewrite Hb, Hclip in Hsteps, Hmodel. now split.
  - intros Hb Hclip. apply leb_not_gtb in Hclip.
    rewrite Hb, Hclip in Hsteps, Hmodel. now split.
  - intros Hb. rewrite Hb in Hsteps, Hmodel. now split.
Qed.

Lemma clipping_policy_witness :
  let cfg := small_config "train" true 1 (Fin 1) in
  let w := small_world_bert in
  encode_batch (B := small_backend) cfg
    (batch_slice (train_texts (data_module w)) (batch_size_train cfg) 0)
    = Some ([[4; 4]; [3]], [[1; 1]; [1]]) /\
  optimizer_steps (trace (snd (@train_batch small_backend cfg 1 1 0 [] w)))
    = [1%Q].
Proof.
  split; [reflexivity |].
  exact (proj1 (proj1 (@clipping_policy small_backend
                         (small_config "train" true 1 (Fin 1)) 1 1 0 []
                         small_world_bert
                         [[4; 4]; [3]] [[1; 1]; [1]] eq_refl)
                      eq_refl eq_refl)).
Defined.

(** C1 as stated fails: with a CNN, [clip_norm = 1] and a gradient of 5,
    the optimizer steps with 5, not with the clipped gradient. *)
Lemma clipping_not_for_every_backbone :
  ~ (forall (B : Backend) (cfg : Config) (epoch nb batch : Z)
            (total_loss : list pyfloat) (w : @world B) inputs masks,
       let d := data_module w in
       let labels := batch_slice (train_pols d) (batch_size_train cfg) batch in
       let unclipped :=
         if use_BERT cfg
         then backward_bert (model w) inputs masks labels zero_grad
         else backward_criterion (model w) inputs labels zero_grad in
       encode_batch cfg (batch_slice (train_texts d) (batch_size_train cfg) batch)
         = Some (inputs, masks) ->
       gtb (clip_norm cfg) (of_Z 0) = true ->
       optimizer_steps (trace (snd (train_batch cfg epoch nb batch total_loss w)))
       = optimizer_steps (trace w)
           ++ [clip_grad_norm_ unclipped (clip_norm cfg)]).
Proof.
  intros H.
  specialize (H small_backend (small_config "train" false 1 (Fin 1)) 1 1 0 []
                small_world [[4; 4]; [3]] [] eq_refl eq_refl).
  vm_compute in H. discriminate H.
Qed.

(** ** Passes and their batches *)

Section Passes.

Context {B : Backend}.

(** After its batch loop, [run_epoch] calls the model and the optimizer no
    more. *)
Lemma run_epoch_training_events (cfg : Config) (epoch nb : Z) (w : world) :
  num_batches (len (train_texts (data_module w))) (batch_size_train cfg)
    = Some nb ->
  let w2 := snd (for_fold (py_range nb) (train_batch cfg epoch nb) []
                          (shuffled w)) in
  let w' := snd (run_epoch cfg epoch w) in
  forward_calls (trace w') = forward_calls (trace w2) /\
  optimizer_steps (trace w') = optimizer_steps (trace w2).
Proof.
  intros Hnb. rewrite run_epoch_eq, Hnb.
  destruct (for_fold _ _ _ _) as [[tl | e] w2]; [| split; reflexivity].
  cbn zeta.
  destruct (num_batches _ (batch_size_val cfg)) as [nbv |].
  2:{ cbn. unfold forward_calls, optimizer_steps.
      rewrite !omap_app. cbn. now rewrite !app_nil_r. }
  assert (Hsaved :
            forward_calls (trace (after_save epoch
               (eval_model_result cfg epoch nbv (after_training cfg epoch tl w2))))
              = forward_calls (trace w2) /\
            optimizer_steps (trace (after_save epoch
               (eval_model_result cfg epoch nbv (after_training cfg epoch tl w2))))
              = optimizer_steps (trace w2)).
  { cbn. unfold forward_calls, optimizer_steps.
    rewrite !omap_app, !omap_map_ignored by reflexivity.
    cbn. now rewrite !app_nil_r. }
  destruct (epoch =? num_epoch cfg); [| exact Hsaved].
  rewrite os_rename_eq by discriminate.
  destruct (_ !! epoch_dir _) as [x |]; [| exact Hsaved].
  destruct (_ !! e_best) as [[c |] |]; [exact Hsaved | |];
    cbn [snd trace set_trace set_fs];
    unfold forward_calls, optimizer_steps in *;
    rewrite !(omap_app _ (trace _) [EvRename _ _]); cbn;
    rewrite !app_nil_r; exact Hsaved.
Qed.

End Passes.

(** C8.  For an empty split and a positive batch size the batch count is
    zero and there is no batch; a validation pass and a test pass over an
    empty split return without calling [inference], and an epoch over an
    empty training split calls neither the model nor the optimizer. *)
Theorem empty_split_no_batches {B : Backend} (cfg : Config) (epoch : Z)
    (w : world) :
  (forall b, 0 < b ->
     num_batches 0 b = Some 0 /\ py_range 0 = [] /\
     batch_slices ([] : list sentence) b = Some []) /\
  (val_texts (data_module w) = [] -> 0 < batch_size_val cfg ->
   fst (eval_model cfg epoch w) = Ok tt /\
   inference_calls (trace (snd (eval_model cfg epoch w)))
     = inference_calls (trace w)) /\
  (test_texts (test_data cfg (data_module w)) = [] -> 0 < batch_size_test cfg ->
   fst (test_model cfg w) = Ok tt /\
   inference_calls (trace (snd (test_model cfg w)))
     = inference_calls (trace w)) /\
  (train_texts (data_module w) = [] -> 0 < batch_size_train cfg ->
   forward_calls (trace (snd (run_epoch cfg epoch w)))
     = forward_calls (trace w) /\
   optimizer_steps (trace (snd (run_epoch cfg epoch w)))
     = optimizer_steps (trace w)).
Proof.
  split; [| split; [| split]].
  - intros b Hb.
    assert (H0 : num_batches 0 b = Some 0) by (apply num_batches_empty; lia).
    split; [exact H0 |]. split; [reflexivity |].
    unfold batch_slices. simpl length. change (Z.of_nat 0) with 0.
    now rewrite H0.
  - intros Hempty Hb.
    assert (Hnb : num_batches (len (val_texts (data_module w)))
                              (batch_size_val cfg) = Some 0).
    { rewrite Hempty. apply num_batches_empty. lia. }
    rewrite (eval_model_eq cfg epoch 0 w Hnb).
    split; [reflexivity |].
    cbn. unfold inference_calls. rewrite omap_app. cbn.
    now rewrite app_nil_r.
  - intros Hempty Hb.
    assert (Hnb : num_batches (len (test_texts (test_data cfg (data_module w))))
                              (batch_size_test cfg) = Some 0).
    { rewrite Hempty. apply num_batches_empty. lia. }
    rewrite (test_model_eq cfg 0 w Hnb) by constructor.
    split; [reflexivity |].
    cbn. unfold inference_calls. rewrite omap_app. cbn.
    now rewrite app_nil_r.
  - intros Hempty Hb.
    assert (Hnb : num_batches (len (train_texts (data_module w)))
                              (batch_size_train cfg) = Some 0).
    { rewrite Hempty. apply num_batches_empty. lia. }
    destruct (run_epoch_training_events cfg epoch 0 w Hnb) as [Hf Ho].
    rewrite Hf, Ho. simpl.
    destruct (shuffled_fields w) as (Ht & _). now rewrite Ht.
Qed.

Lemma empty_split_no_batches_witness :
  let cfg := small_config "train" false 1 (Fin 1) in
  num_batches 0 2 = Some 0 /\
  fst (@eval_model small_backend cfg 1 empty_world) = Ok tt /\
  fst (@test_model small_backend cfg empty_world) = Ok tt /\
  forward_calls (trace (snd (@run_epoch small_backend cfg 1 empty_world))) = [].
Proof.
  destruct (@empty_split_no_batches small_backend
              (small_config "train" false 1 (Fin 1)) 1 empty_world)
    as (Hcount & Hval & Htest & Htrain).
  split; [exact (proj1 (Hcount 2 eq_refl)) |].
  split; [exact (proj1 (Hval eq_refl eq_refl)) |].
  split; [exact (proj1 (Htest eq_refl eq_refl)) |].
  exact (proj1 (Htrain eq_refl eq_refl)).
Defined.

(** The batches of a split, for a positive batch size: their number is the
    ceiling of [|S| / b], batch [i] is the block of at most [b] elements
    starting at position [i * b], and the batches in order make up the
    split, so their sizes add up to its size. *)
Lemma batch_slices_spec {A : Type} (S : list A) (b : Z) :
  0 < b ->
  exists bs,
    batch_slices S b = Some bs /\
    (len bs - 1) * b < len S <= len bs * b /\
    (forall i, (i < length bs)%nat ->
       nth i bs [] = firstn (Z.to_nat b) (skipn (i * Z.to_nat b) S)) /\
    concat bs = S /\
    list_sum (map (@length A) bs) = length S.
Proof.
  intros Hb. unfold batch_slices.
  destruct (num_batches (Z.of_nat (length S)) b) as [nb |] eqn:Hnb.
  2:{ apply num_batches_none in Hnb. lia. }
  pose proof (num_batches_ceil _ _ _ Hb Hnb) as Hceil.
  pose proof (num_batches_nonneg _ b nb Hb (Nat2Z.is_nonneg (length S)) Hnb)
    as Hnn.
  exists (map (batch_slice S b) (py_range nb)).
  assert (Hlen : length (map (batch_slice S b) (py_range nb)) = Z.to_nat nb).
  { unfold py_range. now rewrite !length_map, length_seq. }
  assert (Hcat : concat (map (batch_slice S b) (py_range nb)) = S)
    by now apply batch_slices_concat.
  split; [reflexivity |]. split; [unfold len; rewrite Hlen; lia |].
  split; [| split; [exact Hcat |]].
  - intros i Hi. rewrite Hlen in Hi.
    rewrite batch_slices_map by assumption.
    set (h := fun j : nat => firstn (Z.to_nat b) (skipn (j * Z.to_nat b) S)).
    rewrite (nth_indep _ [] (h O)) by now rewrite length_map, length_seq.
    rewrite (map_nth h). now rewrite seq_nth.
  - rewrite <- length_concat. now rewrite Hcat.
Qed.

Section PassBatches.

Context {B : Backend}.

Lemma inference_calls_test_batches (cfg : Config) (texts : list sentence)
    (pols : list label) (m : params) (l : list Z) :
  inference_calls (concat (map (test_batch_events cfg texts pols m) l))
  = map (fun batch => (false, batch_slice texts (batch_size_test cfg) batch)) l.
Proof.
  induction l as [| batch l IH]; [reflexivity |].
  simpl. unfold inference_calls in *. rewrite omap_app, IH.
  unfold test_batch_events.
  change (omap ?g (?e :: ?r))
    with (match g e with Some y => y :: omap g r | None => omap g r end).
  cbv beta iota. rewrite omap_map_ignored by reflexivity. reflexivity.
Qed.

(** The model calls of one epoch are the encoded batches of the shuffled
    training split, in order. *)
Lemma run_epoch_forward_calls (cfg : Config) (epoch nb : Z) (w : world) :
  0 < batch_size_train cfg ->
  (use_BERT cfg = true -> is_Some (scheduler w)) ->
  length (train_texts (data_module (shuffled w)))
    = length (train_texts (data_module w)) ->
  num_batches (len (train_texts (data_module w))) (batch_size_train cfg)
    = Some nb ->
  forward_calls (trace (snd (run_epoch cfg epoch w)))
  = forward_calls (trace w) ++
    map (encoded_inputs cfg)
        (map (batch_slice (train_texts (data_module (shuffled w)))
                          (batch_size_train cfg))
             (py_range nb)).
Proof.
  intros Hb Hs Hlen Hnb.
  destruct (run_epoch_training_events cfg epoch nb w Hnb) as [Hf _].
  rewrite Hf.
  destruct (shuffled_fields w) as (Ht & _ & _ & Hsch & _).
  destruct (train_loop_run cfg epoch nb (py_range nb) [] (shuffled w))
    as (tl & w2 & Hrun & Hfw & _).
  - rewrite Hsch. exact Hs.
  - intros _ batch Hin. apply py_range_elem in Hin.
    assert (Hnb' : num_batches
                     (Z.of_nat (length (train_texts (data_module (shuffled w)))))
                     (batch_size_train cfg) = Some nb)
      by (rewrite Hlen; exact Hnb).
    pose proof (batch_slice_nonempty _ _ _ batch Hb Hnb' Hin) as Hne.
    intros Heq. rewrite Heq in Hne. simpl in Hne. lia.
  - rewrite Hrun. simpl. rewrite Hfw, Ht, map_map. reflexivity.
Qed.

End PassBatches.

(** C2.  For a positive batch size the batches of a split are
    [ceil(|S| / b)] contiguous blocks which, in order, make up the split
    (so they are disjoint and their sizes add up to [|S|]); a validation
    pass and a test pass hand exactly these batches to [inference], in
    order, and the batch loop of an epoch calls the model on exactly the
    batches of the shuffled training split, in order. *)
Theorem passes_cover_split {B : Backend} (cfg : Config) (epoch : Z) (w : world) :
  (forall (S : list sentence) b, 0 < b ->
     exists bs,
       batch_slices S b = Some bs /\
       (len bs - 1) * b < len S <= len bs * b /\
       (forall i, (i < length bs)%nat ->
          nth i bs [] = firstn (Z.to_nat b) (skipn (i * Z.to_nat b) S)) /\
       concat bs = S /\
       list_sum (map (@length sentence) bs) = length S) /\
  (0 < batch_size_val cfg ->
   exists bs ev,
     batch_slices (val_texts (data_module w)) (batch_size_val cfg) = Some bs /\
     fst (eval_model cfg epoch w) = Ok tt /\
     trace (snd (eval_model cfg epoch w)) = trace w ++ ev /\
     inference_calls ev = map (pair true) bs) /\
  (let d := test_data cfg (data_module w) in
   0 < batch_size_test cfg ->
   (forall batch, 0 <= batch ->
      test_batch_ok cfg (test_texts d) (test_pols d) (model w) batch) ->
   exists bs ev,
     batch_slices (test_texts d) (batch_size_test cfg) = Some bs /\
     fst (test_model cfg w) = Ok tt /\
     trace (snd (test_model cfg w)) = trace w ++ ev /\
     inference_calls ev = map (pair false) bs) /\
  (let S := train_texts (data_module (shuffled w)) in
   0 < batch_size_train cfg ->
   (use_BERT cfg = true -> is_Some (scheduler w)) ->
   length S = length (train_texts (data_module w)) ->
   exists bs,
     batch_slices S (batch_size_train cfg) = Some bs /\
     forward_calls (trace (snd (run_epoch cfg epoch w)))
     = forward_calls (trace w) ++ map (encoded_inputs cfg) bs).
Proof.
  split; [| split; [| split]].
  - intros S b Hb. now apply batch_slices_spec.
  - intros Hb. unfold batch_slices.
    destruct (num_batches _ _) as [nb |] eqn:Hnb.
    2:{ apply num_batches_none in Hnb. lia. }
    destruct (eval_model_observed cfg epoch nb w Hnb)
      as (Hok & _ & ev & Htr & _ & _ & Hcalls).
    eexists. exists ev. split; [reflexivity |]. split; [exact Hok |].
    split; [exact Htr |]. now rewrite Hcalls, map_map.
  - intros d Hb Hokb. unfold batch_slices.
    destruct (num_batches _ _) as [nb |] eqn:Hnb.
    2:{ apply num_batches_none in Hnb. lia. }
    assert (Hall : Forall (test_batch_ok cfg (test_texts d) (test_pols d) (model w))
                          (py_range nb)).
    { apply List.Forall_forall. intros batch Hin.
      apply py_range_elem in Hin. apply Hokb. lia. }
    rewrite (test_model_eq cfg nb w Hnb Hall).
    eexists. eexists. split; [reflexivity |]. split; [reflexivity |].
    split; [reflexivity |].
    unfold inference_calls. rewrite omap_app.
    change (omap _ (concat ?l)) with (inference_calls (concat l)).
    fold d. rewrite inference_calls_test_batches. cbn.
    now rewrite app_nil_r, map_map.
  - intros S Hb Hs Hlen. unfold batch_slices.
    destruct (num_batches _ _) as [nb |] eqn:Hnb.
    2:{ apply num_batches_none in Hnb. lia. }
    eexists. split; [reflexivity |].
    apply run_epoch_forward_calls; try assumption.
    unfold len. rewrite <- Hlen. exact Hnb.
Qed.

Lemma small_test_batch_ok (cfg : Config) (texts : list sentence)
    (pols : list label) (m : Z) (batch : Z) :
  0 < batch_size_test cfg -> length pols = length texts -> 0 <= batch ->
  @test_batch_ok small_backend cfg texts pols m batch.
Proof.
  intros Hb Hlen Hbatch. split.
  - unfold inference_well_formed. simpl. rewrite !length_map.
    split; [reflexivity |]. split; [reflexivity |].
    apply List.Forall_forall. intros row Hin.
    apply in_map_iff in Hin as (s & <- & _). discriminate.
  - replace batch with (Z.of_nat (Z.to_nat batch)) by lia.
    rewrite !batch_slice_length by assumption. rewrite Hlen. lia.
Qed.

Lemma passes_cover_split_witness :
  let cfg := small_config "train" false 1 (Fin 1) in
  0 < batch_size_val cfg /\ 0 < batch_size_test cfg /\
  0 < batch_size_train cfg /\
  (exists bs ev,
     batch_slices (val_texts (data_module small_world)) (batch_size_val cfg)
       = Some bs /\
     fst (@eval_model small_backend cfg 1 small_world) = Ok tt /\
     trace (snd (@eval_model small_backend cfg 1 small_world))
       = trace small_world ++ ev /\
     inference_calls ev = map (pair true) bs) /\
  (exists bs ev,
     batch_slices (test_texts (data_module small_world)) (batch_size_test cfg)
       = Some bs /\
     fst (@test_model small_backend cfg small_world) = Ok tt /\
     trace (snd (@test_model small_backend cfg small_world))
       = trace small_world ++ ev /\
     inference_calls ev = map (pair false) bs) /\
  (exists bs,
     batch_slices (train_texts (data_module (@shuffled small_backend small_world)))
                  (batch_size_train cfg) = Some bs /\
     forward_calls (trace (snd (@run_epoch small_backend cfg 1 small_world)))
     = forward_calls (trace small_world)
         ++ map (@encoded_inputs small_backend cfg) bs).
Proof.
  destruct (@passes_cover_split small_backend
              (small_config "train" false 1 (Fin 1)) 1 small_world)
    as (_ & Hval & Htest & Htrain).
  split; [reflexivity |]. split; [reflexivity |]. split; [reflexivity |].
  split; [exact (Hval eq_refl) |].
  split; [| exact (Htrain eq_refl ltac:(discriminate) eq_refl)].
  apply (Htest eq_refl).
  intros batch Hbatch. now apply small_test_batch_ok.
Defined.

(** ** The records of a test pass *)

Lemma firstn_seq_min (k s len : nat) :
  firstn k (seq s len) = seq s (Nat.min k len).
Proof.
  revert s len. induction k as [| k IH]; intros s len; [reflexivity |].
  destruct len as [| len]; [reflexivity |].
  simpl. now rewrite IH.
Qed.

Lemma seq_from (s len : nat) : seq s len = map (Nat.add s) (seq 0 len).
Proof.
  revert s. induction len as [| len IH]; intros s; [reflexivity |].
  simpl. rewrite Nat.add_0_r. f_equal.
  rewrite (IH (S s)), (IH 1%nat), map_map.
  apply map_ext. intros a. lia.
Qed.

Lemma flat_map_map_compose {X Y Z' : Type} (g : X -> Y) (f : Y -> list Z')
    (l : list X) :
  flat_map f (map g l) = flat_map (fun x => f (g x)) l.
Proof.
  induction l as [| x l IH]; [reflexivity | simpl; now rewrite IH].
Qed.

Lemma flat_map_concat {X Y : Type} (f : X -> list Y) (L : list (list X)) :
  flat_map f (concat L) = concat (map (flat_map f) L).
Proof.
  induction L as [| x L IH]; [reflexivity |].
  simpl. now rewrite flat_map_app, IH.
Qed.

Lemma flat_map_ext_in {X Y : Type} (f g : X -> list Y) (l : list X) :
  (forall x, In x l -> f x = g x) -> flat_map f l = flat_map g l.
Proof.
  induction l as [| x l IH]; intros H; [reflexivity |].
  simpl. rewrite (H x) by now left.
  rewrite IH; [reflexivity |]. intros y Hy. apply H. now right.
Qed.

Section TestRecords.

Context {B : Backend}.

Lemma log_of_logs (l : list log_msg) : log_of (map EvLog l) = l.
Proof.
  induction l as [| m l IH]; [reflexivity |].
  unfold log_of in *. simpl map.
  change (omap ?g (?e :: ?r))
    with (match g e with Some y => y :: omap g r | None => omap g r end).
  simpl. now rewrite IH.
Qed.

Lemma log_of_test_batches (cfg : Config) (texts : list sentence)
    (pols : list label) (m : params) (l : list Z) :
  log_of (concat (map (test_batch_events cfg texts pols m) l))
  = concat (map (test_batch_log cfg texts pols m) l).
Proof.
  induction l as [| batch l IH]; [reflexivity |].
  simpl. unfold log_of in *. rewrite omap_app, IH.
  unfold test_batch_events.
  change (omap ?g (?e :: ?r))
    with (match g e with Some y => y :: omap g r | None => omap g r end).
  cbv beta iota.
  change (omap _ (map EvLog ?x)) with (log_of (map EvLog x)).
  now rewrite log_of_logs.
Qed.

(** Within a batch, the record of example [idx] is the record of the
    example at position [i * b + idx] of the split. *)
Lemma test_batch_log_global (cfg : Config) (texts : list sentence)
    (pols : list label) (m : params) (i : nat) :
  0 < batch_size_test cfg ->
  let k := Z.to_nat (batch_size_test cfg) in
  test_batch_log cfg texts pols m (Z.of_nat i)
  = flat_map (test_record_global cfg texts pols m)
      (seq (i * k) (length (batch_slice texts (batch_size_test cfg) (Z.of_nat i)))).
Proof.
  intros Hb k. unfold test_batch_log.
  rewrite (seq_from (i * k)), flat_map_map_compose.
  apply flat_map_ext_in. intros idx Hidx. apply in_seq in Hidx.
  rewrite batch_slice_length in Hidx by assumption. fold k in Hidx.
  assert (Hk : batch_size_test cfg = Z.of_nat k) by (subst k; lia).
  assert (Hdiv : ((i * k + idx) / k)%nat = i).
  { symmetry. apply (Nat.div_unique _ _ _ idx); lia. }
  assert (Hmod : ((i * k + idx) mod k)%nat = idx).
  { symmetry. apply (Nat.mod_unique _ _ i); lia. }
  unfold test_record, test_record_global. fold k. rewrite Hdiv, Hmod.
  rewrite !batch_slice_block by assumption. fold k.
  rewrite !nth_firstn, !nth_skipn.
  destruct (Nat.ltb_spec idx k) as [_ | Hge]; [| lia].
  f_equal. f_equal. rewrite Hk. lia.
Qed.

(** The blocks of positions of the batches make up [0 .. n-1]. *)
Lemma position_blocks (texts : list sentence) (b nb : Z) :
  0 < b -> num_batches (Z.of_nat (length texts)) b = Some nb ->
  concat (map (fun i => seq (i * Z.to_nat b)
                            (length (batch_slice texts b (Z.of_nat i))))
              (seq 0 (Z.to_nat nb)))
  = seq 0 (length texts).
Proof.
  intros Hb Hnb.
  pose proof (num_batches_ceil _ _ _ Hb Hnb) as Hceil.
  transitivity (firstn (Z.to_nat nb * Z.to_nat b) (seq 0 (length texts)));
    [| apply firstn_all2; rewrite length_seq; nia].
  rewrite <- blocks_concat. f_equal. apply map_ext. intros i.
  rewrite skipn_seq, firstn_seq_min, batch_slice_length by assumption.
  reflexivity.
Qed.

Lemma test_log_global (cfg : Config) (texts : list sentence)
    (pols : list label) (m : params) (nb : Z) :
  0 < batch_size_test cfg ->
  num_batches (Z.of_nat (length texts)) (batch_size_test cfg) = Some nb ->
  concat (map (test_batch_log cfg texts pols m) (py_range nb))
  = flat_map (test_record_global cfg texts pols m) (seq 0 (length texts)).
Proof.
  intros Hb Hnb.
  rewrite <- (position_blocks texts _ nb Hb Hnb), flat_map_concat.
  unfold py_range. rewrite !map_map. f_equal.
  apply map_ext. intros i. now apply test_batch_log_global.
Qed.

End TestRecords.

(** C6.  When the labels are as many as the sentences and [inference]
    answers every batch with one prediction and one non-empty score vector
    per sentence, a test pass logs, batch after batch, the records of the
    examples of the batch, the record of example [idx] of batch [batch]
    carrying the number [batch * batch_size_test + idx + 1]; over the whole
    pass these are the records of the examples in the order of the split,
    numbered 1, 2, ... with no restart at batch boundaries, each with the
    sentence, the gold label, the prediction and the largest raw score of
    its example, followed by the test accuracy. *)
Theorem test_records_numbered {B : Backend} (cfg : Config) (w : world) :
  let d := test_data cfg (data_module w) in
  let texts := test_texts d in
  let pols := test_pols d in
  0 < batch_size_test cfg ->
  length pols = length texts ->
  (forall batch, 0 <= batch ->
     inference_well_formed cfg (model w)
       (batch_slice texts (batch_size_test cfg) batch)) ->
  fst (test_model cfg w) = Ok tt /\
  exists ev nb acc,
    trace (snd (test_model cfg w)) = trace w ++ ev /\
    num_batches (len texts) (batch_size_test cfg) = Some nb /\
    log_of ev
      = concat (map (test_batch_log cfg texts pols (model w)) (py_range nb))
        ++ [MsgTestAccuracy acc] /\
    log_of ev
      = flat_map (test_record_global cfg texts pols (model w))
                 (seq 0 (length texts))
        ++ [MsgTestAccuracy acc].
Proof.
  intros d texts pols Hb Hlen Hwf.
  destruct (num_batches (len texts) (batch_size_test cfg)) as [nb |] eqn:Hnb.
  2:{ apply num_batches_none in Hnb. lia. }
  assert (Hall : Forall (test_batch_ok cfg texts pols (model w)) (py_range nb)).
  { apply List.Forall_forall. intros batch Hin. apply py_range_elem in Hin.
    split; [apply Hwf; lia |].
    replace batch with (Z.of_nat (Z.to_nat batch)) by lia.
    rewrite !batch_slice_length by assumption. rewrite Hlen. lia. }
  rewrite (test_model_eq cfg nb w Hnb Hall).
  split; [reflexivity |].
  eexists. exists nb. eexists. split; [reflexivity |]. split; [reflexivity |].
  assert (Hlog : forall acc,
             log_of (concat (map (test_batch_events cfg texts pols (model w))
                                 (py_range nb))
                     ++ [EvLog (MsgTestAccuracy acc)])
             = concat (map (test_batch_log cfg texts pols (model w)) (py_range nb))
               ++ [MsgTestAccuracy acc]).
  { intros acc. unfold log_of. rewrite omap_app.
    change (omap _ (concat ?l)) with (log_of (concat l)).
    now rewrite log_of_test_batches. }
  fold d texts pols. rewrite Hlog. split; [reflexivity |].
  now rewrite (test_log_global cfg texts pols (model w) nb Hb Hnb).
Qed.

Lemma small_inference_well_formed (cfg : Config) (m : Z)
    (sentences : list sentence) :
  @inference_well_formed small_backend cfg m sentences.
Proof.
  unfold inference_well_formed. simpl. rewrite !length_map.
  split; [reflexivity |]. split; [reflexivity |].
  apply List.Forall_forall. intros row Hin.
  apply in_map_iff in Hin as (s & <- & _). discriminate.
Qed.

Lemma test_records_numbered_witness :
  let cfg := small_config "test" false 1 (Fin 1) in
  fst (@test_model small_backend cfg small_world) = Ok tt /\
  exists ev nb acc,
    trace (snd (@test_model small_backend cfg small_world))
      = trace small_world ++ ev /\
    num_batches 3 2 = Some nb /\
    log_of ev
      = concat (map (@test_batch_log small_backend cfg
                       (test_texts small_data) (test_pols small_data) 0)
                    (py_range nb))
        ++ [MsgTestAccuracy acc] /\
    log_of ev
      = flat_map (@test_record_global small_backend cfg
                    (test_texts small_data) (test_pols small_data) 0)
                 (seq 0 3)
        ++ [MsgTestAccuracy acc].
Proof.
  apply (@test_records_numbered small_backend
           (small_config "test" false 1 (Fin 1)) small_world).
  - reflexivity.
  - reflexivity.
  - intros batch _. apply small_inference_well_formed.
Defined.

(** The records of the three test examples of the small data set, split
    into batches of two: the third record, first of the second batch, is
    numbered 3. *)
Example test_records_small :
  log_of (trace (snd (@test_model small_backend
                        (small_config "test" false 1 (Fin 1)) small_world)))
  = [MsgTestHeader 1; MsgSentence "nice one"; MsgLabel 1; MsgPrediction 1;
     MsgConfidence (Fin (9 # 10));
     MsgTestHeader 2; MsgSentence "awful"; MsgLabel 0; MsgPrediction 1;
     MsgConfidence (Fin (9 # 10));
     MsgTestHeader 3; MsgSentence "superb cast"; MsgLabel 1; MsgPrediction 1;
     MsgConfidence (Fin (9 # 10));
     MsgTestAccuracy (Fin (2 # 3))].
Proof. vm_compute. reflexivity. Qed.

(** ** A training run as a whole *)

Section TrainingRun.

Context {B : Backend}.

(** However a training run ends, its observations have the shape of a run
    over the first epochs of [1 .. num_epoch]. *)
Lemma train_outcome_shape (cfg : Config) (w0 : world) r w' :
  train_outcome cfg w0 r w' ->
  exists validated tail rest,
    run_shape (trace w0) (dom (fs w0)) w' validated tail /\
    py_range2 1 (num_epoch cfg + 1) = validated ++ rest.
Proof.
  intros [w1 _ _ Hshape
         | e w1 w2 _ (done & x & rest & Hl & [[Hshape _] | (_ & Hshape & _)])
         | w1 l Hshape _ _
         | r1 w1 n l Hshape _ _].
  - now exists [], [], (py_range2 1 (num_epoch cfg + 1)).
  - now exists done, [], (x :: rest).
  - exists (done ++ [x]), [], rest. split; [exact Hshape |].
    now rewrite <- app_assoc.
  - exists l, (promo_tail cfg l w1), []. split; [exact Hshape |].
    now rewrite app_nil_r.
  - exists l, (promo_tail cfg l w1 ++ KLoad e_best :: repeat KTest n), [].
    split; [exact Hshape |]. now rewrite app_nil_r.
Qed.

End TrainingRun.

(** C3.  In a training run the best-epoch record starts as [(0, inf)];
    the validation passes logged are those of the epochs 1, 2, ... in
    order, one per epoch; the record logged after each of them is the
    record before it, replaced by the epoch and its mean validation loss
    exactly when that loss is strictly lower (a tie or a higher loss leaves
    it as it is); the record held at the end is the last one; so the losses
    of the successive records never increase.  For the validation losses
    0.9, 0.7, 0.8, 0.6 of epochs 1 to 4 the records are (1, 0.9), (2, 0.7),
    (2, 0.7), (4, 0.6). *)
Theorem best_epoch_record {B : Backend} (cfg : Config) (w0 : world) :
  mode cfg = "train"%string ->
  let w' := snd (main cfg w0) in
  (exists ev rest,
     trace w' = trace w0 ++ ev /\
     py_range2 1 (num_epoch cfg + 1) = map fst (val_log ev) ++ rest /\
     best_log ev = records_from (0, inf) (val_log ev) /\
     length (best_log ev) = length (val_log ev) /\
     best_epoch w' = final_record (0, inf) (val_log ev) /\
     nonincreasing inf (best_log ev)) /\
  (forall best epoch loss,
     (ltb loss (snd best) = true ->
      update_best best epoch loss = (epoch, loss)) /\
     (ltb loss (snd best) = false -> update_best best epoch loss = best)) /\
  (forall best epoch, update_best best epoch (snd best) = best) /\
  records_from (0, inf)
    [(1, Fin (9 # 10)); (2, Fin (7 # 10)); (3, Fin (8 # 10)); (4, Fin (6 # 10))]
  = [(1, Fin (9 # 10)); (2, Fin (7 # 10)); (2, Fin (7 # 10)); (4, Fin (6 # 10))].
Proof.
  intros Hmode w'.
  pose proof (main_train_outcome cfg w0 Hmode) as Hout.
  apply train_outcome_shape in Hout
    as (validated & tail & rest & (ev & Htr & Hvals & Hbl & Hbest & _) & Hl).
  split; [| split; [| split]].
  - exists ev, rest. rewrite Hvals.
    split; [exact Htr |]. split; [exact Hl |]. split; [exact Hbl |].
    split; [rewrite Hbl; apply records_from_length |].
    split; [exact Hbest |].
    rewrite Hbl. now apply (records_nonincreasing initial_best).
  - intros best epoch loss. unfold update_best.
    split; intros ->; reflexivity.
  - intros best epoch. unfold update_best. now rewrite ltb_irrefl.
  - vm_compute. reflexivity.
Qed.

Lemma best_epoch_record_witness :
  let cfg := small_config "train" false 4 (Fin 1) in
  mode cfg = "train"%string /\
  (exists ev rest,
     trace (snd (@main small_backend cfg small_world)) = trace small_world ++ ev /\
     py_range2 1 (num_epoch cfg + 1) = map fst (val_log ev) ++ rest /\
     best_log ev = records_from (0, inf) (val_log ev) /\
     length (best_log ev) = length (val_log ev) /\
     best_epoch (snd (@main small_backend cfg small_world))
       = final_record (0, inf) (val_log ev) /\
     nonincreasing inf (best_log ev)).
Proof.
  split; [reflexivity |].
  exact (proj1 (@best_epoch_record small_backend
                  (small_config "train" false 4 (Fin 1)) small_world eq_refl)).
Defined.

(** The run of four epochs on the small backend, whose validation losses
    are 0.9, 0.7, 0.8 and 0.6. *)
Example best_epoch_record_small :
  let w' := snd (@main small_backend (small_config "train" false 4 (Fin 1))
                       small_world) in
  val_log (trace w')
  = [(1, Fin (9 # 10)); (2, Fin (7 # 10)); (3, Fin (4 # 5)); (4, Fin (3 # 5))] /\
  best_log (trace w')
  = [(1, Fin (9 # 10)); (2, Fin (7 # 10)); (2, Fin (7 # 10)); (4, Fin (3 # 5))] /\
  best_epoch w' = (4, Fin (3 # 5)).
Proof. vm_compute. repeat split. Qed.

Section Promotion.

Context {B : Backend}.

Lemma promo_tail_cases (cfg : Config) (l : list Z) (w : world) :
  (existsb (Z.eqb (num_epoch cfg)) l = false /\ promo_tail cfg l w = []) \/
  (existsb (Z.eqb (num_epoch cfg)) l = true /\
   promo_tail cfg l w = [KRename (epoch_dir (fst (best_epoch w))) e_best]).
Proof. unfold promo_tail. destruct (existsb _ l); auto. Qed.

Lemma last_epoch_in_range (cfg : Config) :
  existsb (Z.eqb (num_epoch cfg)) (py_range2 1 (num_epoch cfg + 1)) = true ->
  1 <= num_epoch cfg.
Proof.
  intros H. apply existsb_exists in H as (k & Hk & Heq).
  apply Z.eqb_eq in Heq. subst k. apply py_range2_In in Hk. lia.
Qed.

(** Saving checkpoints never creates [e_best]: before the promotion, no
    state of the checkpoint directories has it. *)
Lemma no_best_before_rename (D0 : gset ckpt_name) (done : list Z)
    (tail ks_p ks_q : list key) :
  e_best ∉ D0 ->
  ks_p ++ ks_q = map KSave done ++ tail ->
  (tail = [] \/ exists src dst after, tail = KRename src dst :: after) ->
  (forall src dst, ~ In (KRename src dst) ks_p) ->
  e_best ∉ dirs_after D0 ks_p.
Proof.
  intros HD Heq Htail Hno.
  assert (Hsaves : exists done', ks_p = map KSave done').
  { apply app_eq_app in Heq as (m & [[Hp Ht] | [Hd Hq]]).
    - destruct m as [| k m].
      + exists done. now rewrite app_nil_r in Hp.
      + exfalso. destruct Htail as [-> | (src & dst & after & ->)];
          [discriminate |].
        injection Ht as <- _. apply (Hno src dst).
        rewrite Hp. apply in_or_app. right. now left.
    - apply map_eq_app in Hd as (l1 & l2 & _ & Hl1 & _).
      now exists l1. }
  destruct Hsaves as (done' & ->).
  rewrite dirs_after_saves. intros [H | (k & _ & H)];
    [contradiction | discriminate].
Qed.

End Promotion.

(** C5.  In a training run that starts with no [e_best] directory, the
    key events are the checkpoints of the epochs 1, 2, ... in order and
    then, only when all [num_epoch] checkpoints are there, the renaming of
    the directory of the best epoch to [e_best], only then the loading of
    [e_best] into the model, and only then the events of the test pass.
    The directories at the end are those the key events produce, and before
    the renaming no state of the run has an [e_best] directory. *)
Theorem best_checkpoint_after_training {B : Backend} (cfg : Config)
    (w0 : world) :
  mode cfg = "train"%string ->
  e_best ∉ dom (fs w0) ->
  let w' := snd (main cfg w0) in
  let l := py_range2 1 (num_epoch cfg + 1) in
  exists ev done tail,
    trace w' = trace w0 ++ ev /\
    key_events ev = map KSave done ++ tail /\
    (exists rest, l = done ++ rest) /\
    (tail = [] \/
     (done = l /\ 1 <= num_epoch cfg /\
      exists after,
        tail = KRename (epoch_dir (fst (best_epoch w'))) e_best :: after /\
        (after = [] \/ exists n, after = KLoad e_best :: repeat KTest n))) /\
    dom (fs w') = dirs_after (dom (fs w0)) (key_events ev) /\
    (forall p q, ev = p ++ q ->
       (forall src dst, ~ In (KRename src dst) (key_events p)) ->
       e_best ∉ dirs_after (dom (fs w0)) (key_events p)).
Proof.
  intros Hmode Hfresh w' l.
  pose proof (main_train_outcome cfg w0 Hmode) as Hout. fold w' in Hout.
  subst l. set (l := py_range2 1 (num_epoch cfg + 1)) in *.
  assert (Hmain : exists ev done tail,
             trace w' = trace w0 ++ ev /\
             key_events ev = map KSave done ++ tail /\
             (exists rest, l = done ++ rest) /\
             (tail = [] \/
              (done = l /\ 1 <= num_epoch cfg /\
               exists after,
                 tail = KRename (epoch_dir (fst (best_epoch w'))) e_best :: after /\
                 (after = [] \/ exists n, after = KLoad e_best :: repeat KTest n))) /\
             dom (fs w') = dirs_after (dom (fs w0)) (key_events ev)).
  { destruct Hout as [w1 _ _ Hshape
                     | e w1 w2 _ (done & x & rest & Hl & [[Hshape _] | (_ & Hshape & _)])
                     | w1 l' Hshape _ _
                     | r1 w1 n l' Hshape _ Hsome];
      try (subst l'; fold l in Hshape).
    - destruct Hshape as (ev & Htr & _ & _ & _ & Hk & Hdom).
      exists ev, [], []. repeat split; try assumption; [| now left].
      now exists l.
    - destruct Hshape as (ev & Htr & _ & _ & _ & Hk & Hdom).
      exists ev, done, []. repeat split; try assumption; [| now left].
      now exists (x :: rest).
    - destruct Hshape as (ev & Htr & _ & _ & _ & Hk & Hdom).
      exists ev, (done ++ [x]), []. repeat split; try assumption; [| now left].
      exists rest. fold l in Hl. now rewrite <- app_assoc.
    - destruct Hshape as (ev & Htr & _ & _ & _ & Hk & Hdom).
      exists ev, l, (promo_tail cfg l w1).
      repeat split; try assumption; [exists []; now rewrite app_nil_r |].
      destruct (promo_tail_cases cfg l w1) as [[_ ->] | [Hex ->]]; [now left |].
      right. split; [reflexivity |].
      split; [now apply last_epoch_in_range |].
      exists []. split; [reflexivity | now left].
    - destruct Hshape as (ev & Htr & _ & _ & _ & Hk & Hdom).
      exists ev, l, (promo_tail cfg l w1 ++ KLoad e_best :: repeat KTest n).
      repeat split; try assumption; [exists []; now rewrite app_nil_r |].
      destruct (promo_tail_cases cfg l w1) as [[_ Hp] | [Hex Hp]]; rewrite Hp in *.
      + exfalso. apply Hfresh.
        apply elem_of_dom in Hsome. rewrite Hdom, Hk in Hsome.
        simpl app in Hsome.
        rewrite dirs_after_app, dirs_after_tests in Hsome.
        apply dirs_after_saves in Hsome as [H | (k & _ & H)];
          [exact H | discriminate].
      + right. split; [reflexivity |].
        split; [now apply last_epoch_in_range |].
        eexists. split; [reflexivity |]. right. now exists n. }
  destruct Hmain as (ev & done & tail & Htr & Hk & Hpre & Htail & Hdom).
  exists ev, done, tail. repeat split; try assumption.
  intros p q Hev Hno.
  apply (no_best_before_rename (dom (fs w0)) done tail _ (key_events q));
    try assumption.
  - rewrite <- Hk, Hev. unfold key_events. now rewrite omap_app.
  - destruct Htail as [-> | (_ & _ & after & -> & _)]; [now left |].
    right. eauto.
Qed.

Lemma best_checkpoint_after_training_witness :
  let cfg := small_config "train" false 4 (Fin 1) in
  let w' := snd (@main small_backend cfg small_world) in
  mode cfg = "train"%string /\
  (e_best ∉ dom (fs small_world)) /\
  exists ev done tail,
    trace w' = trace small_world ++ ev /\
    key_events ev = map KSave done ++ tail /\
    (exists rest, py_range2 1 (num_epoch cfg + 1) = done ++ rest) /\
    (tail = [] \/
     (done = py_range2 1 (num_epoch cfg + 1) /\ 1 <= num_epoch cfg /\
      exists after,
        tail = KRename (epoch_dir (fst (best_epoch w'))) e_best :: after /\
        (after = [] \/ exists n, after = KLoad e_best :: repeat KTest n))) /\
    dom (fs w') = dirs_after (dom (fs small_world)) (key_events ev) /\
    (forall p q, ev = p ++ q ->
       (forall src dst, ~ In (KRename src dst) (key_events p)) ->
       e_best ∉ dirs_after (dom (fs small_world)) (key_events p)).
Proof.
  split; [reflexivity |].
  assert (Hfresh : e_best ∉ dom (fs small_world)).
  { intros H. apply elem_of_dom in H as [x Hx]. discriminate Hx. }
  split; [exact Hfresh |].
  exact (@best_checkpoint_after_training small_backend
           (small_config "train" false 4 (Fin 1)) small_world eq_refl Hfresh).
Defined.

(** The key events of the run of four epochs on the small backend. *)
Example key_events_small :
  key_events (trace (snd (@main small_backend
                            (small_config "train" false 4 (Fin 1)) small_world)))
  = [KSave 1; KSave 2; KSave 3; KSave 4; KRename (epoch_dir 4) e_best;
     KLoad e_best] ++ repeat KTest 18.
Proof. vm_compute. reflexivity. Qed.

Section PromotionTarget.

Context {B : Backend}.

Lemma epoch_dir_zero_not_saved (cfg : Config) (D0 : gset ckpt_name)
    (done rest : list Z) :
  epoch_dir 0 ∉ D0 ->
  py_range2 1 (num_epoch cfg + 1) = done ++ rest ->
  epoch_dir 0 ∉ dirs_after D0 (map KSave done).
Proof.
  intros HD Hl. rewrite dirs_after_saves.
  intros [H | (k & Hk & Heq)]; [contradiction |].
  injection Heq as <-.
  assert (Hin : In 0 (py_range2 1 (num_epoch cfg + 1)))
    by (rewrite Hl; apply in_or_app; now left).
  apply py_range2_In in Hin. lia.
Qed.

Lemma final_record_initial (vals : list (Z * pyfloat)) :
  (forall v, In v vals -> ltb (snd v) inf = false) ->
  final_record initial_best vals = initial_best.
Proof.
  intros Hall.
  destruct (final_record_cases initial_best vals) as [[H _] | [Hin Hlt]];
    [exact H |].
  change (snd initial_best) with inf in Hlt.
  rewrite (Hall _ Hin) in Hlt. discriminate.
Qed.

(** When the record is still the initial one, the promotion cannot have
    found its source directory. *)
Lemma promo_valid_needs_update (cfg : Config) (D0 : gset ckpt_name) (w : world) :
  let l := py_range2 1 (num_epoch cfg + 1) in
  epoch_dir 0 ∉ D0 ->
  existsb (Z.eqb (num_epoch cfg)) l = true ->
  promo_valid cfg D0 l w ->
  fst (best_epoch w) <> 0.
Proof.
  intros l HD Hex Hvalid H0. specialize (Hvalid Hex). rewrite H0 in Hvalid.
  apply (epoch_dir_zero_not_saved cfg D0 l [] HD); [| exact Hvalid].
  now rewrite app_nil_r.
Qed.

Lemma in_saves_tail (done : list Z) (tail : list key) (k : Z) :
  (forall j, ~ In (KSave j) tail) ->
  In (KSave k) (map KSave done ++ tail) -> In k done.
Proof.
  intros Htail Hin. apply in_app_or in Hin as [Hin | Hin].
  - apply in_map_iff in Hin as (j & Heq & Hj). now injection Heq as <-.
  - now apply Htail in Hin.
Qed.

Lemma tail_no_saves (cfg : Config) (l : list Z) (w : world) (n : nat) (j : Z) :
  ~ In (KSave j) (promo_tail cfg l w ++ KLoad e_best :: repeat KTest n) /\
  ~ In (KSave j) (promo_tail cfg l w).
Proof.
  assert (Hp : ~ In (KSave j) (promo_tail cfg l w)).
  { destruct (promo_tail_cases cfg l w) as [[_ ->] | [_ ->]];
      [intros [] | intros [H | []]; discriminate]. }
  split; [| exact Hp].
  intros Hin. apply in_app_or in Hin as [Hin | [Hin | Hin]];
    [now apply Hp | discriminate |].
  apply repeat_spec in Hin. discriminate.
Qed.

Lemma tail_renames (cfg : Config) (l : list Z) (w : world) (n : nat) src dst :
  (In (KRename src dst) (promo_tail cfg l w ++ KLoad e_best :: repeat KTest n) \/
   In (KRename src dst) (promo_tail cfg l w)) ->
  existsb (Z.eqb (num_epoch cfg)) l = true /\
  src = epoch_dir (fst (best_epoch w)) /\ dst = e_best.
Proof.
  intros Hin.
  assert (Hp : In (KRename src dst) (promo_tail cfg l w)).
  { destruct Hin as [Hin | Hin]; [| exact Hin].
    apply in_app_or in Hin as [Hin | [Hin | Hin]];
      [exact Hin | discriminate |].
    apply repeat_spec in Hin. discriminate. }
  destruct (promo_tail_cases cfg l w) as [[_ Heq] | [Hex Heq]];
    rewrite Heq in Hp; [destruct Hp |].
  destruct Hp as [Hp | []]. injection Hp as <- <-. now split.
Qed.

(** With non-zero batch sizes, and for the transformer a scheduler and a
    shuffle that keeps the length, no epoch stops before its validation
    pass has completed. *)
Lemma epoch_never_aborts (cfg : Config) (epoch : Z) (w : world) (e : exn) :
  batch_size_train cfg <> 0 ->
  batch_size_val cfg <> 0 ->
  (use_BERT cfg = true -> is_Some (scheduler w)) ->
  (use_BERT cfg = true -> shuffle_keeps_length) ->
  ~ epoch_aborts cfg epoch w e.
Proof.
  intros Hbt Hbv Hs Hsh [[Hb _] | [[Hb _] | (nb & w2 & Hnb & Hloop)]];
    [contradiction | contradiction |].
  destruct (shuffled_fields w) as (_ & _ & _ & Hsch & _).
  destruct (train_loop_run cfg epoch nb (py_range nb) [] (shuffled w))
    as (tl & w3 & Hrun & _).
  - rewrite Hsch. exact Hs.
  - intros Hbert batch Hin. apply py_range_elem in Hin.
    assert (Hlen : length (train_texts (data_module (shuffled w)))
                   = length (train_texts (data_module w))).
    { unfold shuffled.
      pose proof (Hsh Hbert (random_state w) (train_texts (data_module w))
                      (train_pols (data_module w))) as Hk.
      destruct (shuffle_lists _ _ _) as [[texts pols] r]. exact Hk. }
    destruct (Z.lt_trichotomy (batch_size_train cfg) 0) as [Hneg | [H0 | Hpos]];
      [| contradiction |].
    + pose proof (num_batches_negative _ _ _ Hneg
                    (Nat2Z.is_nonneg (length (train_texts (data_module w)))) Hnb).
      lia.
    + unfold len in Hnb. rewrite <- Hlen in Hnb.
      pose proof (batch_slice_nonempty _ _ _ batch Hpos Hnb Hin) as Hne.
      intros Heq. rewrite Heq in Hne. simpl in Hne. lia.
  - rewrite Hrun in Hloop. discriminate.
Qed.

End PromotionTarget.

(** C10.  In a training run of at least one epoch that starts with no
    [epoch_0] directory: every checkpoint saved is that of an epoch between
    1 and [num_epoch], so the run never creates [epoch_0]; a promotion that
    takes place renames the directory of the epoch [k] of the best-epoch
    record, and then [k >= 1] and epoch [k] had a validation loss strictly
    below [inf]; and when all epochs were validated without any loss below
    [inf], the record is still [(0, inf)], the promotion aims at [epoch_0],
    which does not exist, and the run stops there with
    [FileNotFoundError].  All epochs are validated whenever the batch sizes
    are not zero and, for the transformer, shuffling keeps the length of
    the training split. *)
Theorem promotion_target {B : Backend} (cfg : Config) (w0 : world) :
  mode cfg = "train"%string ->
  1 <= num_epoch cfg ->
  epoch_dir 0 ∉ dom (fs w0) ->
  let r := fst (main cfg w0) in
  let w' := snd (main cfg w0) in
  exists ev,
    trace w' = trace w0 ++ ev /\
    (forall k, In (KSave k) (key_events ev) -> 1 <= k <= num_epoch cfg) /\
    (forall src dst, In (KRename src dst) (key_events ev) ->
       src = epoch_dir (fst (best_epoch w')) /\ dst = e_best /\
       1 <= fst (best_epoch w') <= num_epoch cfg /\
       In (best_epoch w') (val_log ev) /\
       ltb (snd (best_epoch w')) inf = true) /\
    (map fst (val_log ev) = py_range2 1 (num_epoch cfg + 1) ->
     (forall v, In v (val_log ev) -> ltb (snd v) inf = false) ->
     r = Raise (FileNotFoundError (epoch_dir 0)) /\
     best_epoch w' = (0, inf) /\
     (epoch_dir 0 ∉ dom (fs w')) /\
     forall src dst, ~ In (KRename src dst) (key_events ev)) /\
    (batch_size_train cfg <> 0 -> batch_size_val cfg <> 0 ->
     (use_BERT cfg = true -> shuffle_keeps_length) ->
     map fst (val_log ev) = py_range2 1 (num_epoch cfg + 1)).
Proof.
  intros Hmode HN H0 r w'.
  pose proof (main_train_outcome cfg w0 Hmode) as Hout. fold r w' in Hout.
  set (l := py_range2 1 (num_epoch cfg + 1)) in *.
  assert (HNl : existsb (Z.eqb (num_epoch cfg)) l = true).
  { apply existsb_exists. exists (num_epoch cfg).
    split; [apply py_range2_In; lia | apply Z.eqb_refl]. }
  assert (Hrange : forall done rest k,
             l = done ++ rest -> In k done -> 1 <= k <= num_epoch cfg).
  { intros done rest k Hl Hk.
    assert (Hin : In k l) by (rewrite Hl; apply in_or_app; now left).
    apply py_range2_In in Hin. lia. }
  assert (Hpromoted : forall w1 vals,
             promo_valid cfg (dom (fs w0)) l w1 ->
             best_epoch w1 = final_record initial_best vals ->
             map fst vals = l ->
             1 <= fst (best_epoch w1) <= num_epoch cfg /\
             In (best_epoch w1) vals /\
             ltb (snd (best_epoch w1)) inf = true).
  { intros w1 vals Hvalid Hbest Hvals.
    pose proof (promo_valid_needs_update cfg (dom (fs w0)) w1 H0 HNl Hvalid) as Hne.
    rewrite Hbest in *.
    destruct (final_record_cases initial_best vals) as [[Hf _] | [Hin Hlt]];
      [rewrite Hf in Hne; now contradiction Hne |].
    split; [| split; assumption].
    apply (Hrange l [] _ (eq_sym (app_nil_r l))).
    rewrite <- Hvals. now apply in_map. }
  destruct Hout as [w1 _ Hzero Hshape
                   | e w1 w2 Hsched (done & x & rest & Hl & [[Hshape Hcause] | (Hx & Hshape & He)])
                   | w1 l' Hshape Hvalid _
                   | r1 w1 n l' Hshape Hvalid _];
    try (subst l'; fold l in Hshape, Hvalid);
    destruct Hshape as (ev & Htr & Hvals & Hbl & Hbest & Hk & Hdom);
    exists ev; (split; [exact Htr |]); rewrite Hk.
  - (* the scheduler could not be built *)
    split; [intros k [] |]. split; [intros src dst [] |].
    split; [| intros Hbt; contradiction].
    intros Hall _. rewrite Hvals in Hall. rewrite <- Hall in HNl. discriminate.
  - (* an epoch stopped before its validation was complete *)
    rewrite app_nil_r.
    split; [intros k Hin; apply in_map_iff in Hin as (j & Heq & Hj);
            injection Heq as <-; now apply (Hrange done (x :: rest)) |].
    split; [intros src dst Hin; apply in_map_iff in Hin as (j & Heq & _);
            discriminate |].
    split.
    + intros Hall _. rewrite Hvals in Hall. exfalso.
      assert (Hlen : length done = length (done ++ x :: rest))
        by now rewrite <- Hl, Hall.
      rewrite length_app in Hlen. simpl in Hlen. lia.
    + intros Hbt Hbv Hsh. exfalso.
      destruct Hcause as (wb & Hkept & Hcause).
      apply (epoch_never_aborts cfg x wb e Hbt Hbv); try assumption.
      intros Hbert. apply Hkept, Hsched, Hbert.
  - (* the promotion failed *)
    rewrite app_nil_r.
    assert (Hl' : l = (done ++ [x]) ++ rest) by now rewrite <- app_assoc.
    split; [intros k Hin; apply in_map_iff in Hin as (j & Heq & Hj);
            injection Heq as <-; now apply (Hrange (done ++ [x]) rest) |].
    split; [intros src dst Hin; apply in_map_iff in Hin as (j & Heq & _);
            discriminate |].
    split.
    + intros _ Hnone.
      assert (Hinit : best_epoch w2 = initial_best)
        by (rewrite Hbest; now apply final_record_initial).
      assert (Hzero : epoch_dir 0 ∉ dom (fs w2)).
      { rewrite Hdom, Hk, app_nil_r.
        now apply (epoch_dir_zero_not_saved cfg _ (done ++ [x]) rest). }
      rewrite Hinit in He. simpl in He.
      destruct He as [[-> _] | [_ [_ Hsrc]]]; [| now contradiction Hzero].
      repeat split; try assumption.
      intros src dst Hin. apply in_map_iff in Hin as (j & Heq & _). discriminate.
    + intros _ _ _. rewrite Hvals.
      destruct (py_range2_split _ _ _ _ _ Hl) as (_ & _ & Hlen).
      assert (Hrest : rest = []).
      { pose proof (py_range2_length 1 (num_epoch cfg + 1)) as Hll.
        rewrite Hl, length_app in Hll. simpl in Hll.
        destruct rest; [reflexivity | simpl in Hll; lia]. }
      rewrite Hrest in Hl. symmetry. exact Hl.
  - (* all epochs done, [e_best] could not be loaded *)
    split; [intros k Hin; apply (Hrange l [] k (eq_sym (app_nil_r l)));
            apply (in_saves_tail l (promo_tail cfg l w1)); [| exact Hin];
            intros j; apply (tail_no_saves cfg l w1 O j) |].
    split.
    + intros src dst Hin. apply in_app_or in Hin as [Hin | Hin];
        [apply in_map_iff in Hin as (j & Heq & _); discriminate |].
      destruct (tail_renames cfg l w1 O src dst (or_intror Hin)) as (_ & -> & ->).
      destruct (Hpromoted w1 (val_log ev) Hvalid Hbest Hvals) as (Hr & Hin' & Hlt).
      now repeat split.
    + split; [| intros _ _ _; exact Hvals].
      intros _ Hnone. exfalso.
      apply (promo_valid_needs_update cfg (dom (fs w0)) w1 H0 HNl Hvalid).
      rewrite Hbest, final_record_initial by exact Hnone. reflexivity.
  - (* all epochs done, [e_best] loaded, test pass run *)
    split; [intros k Hin; apply (Hrange l [] k (eq_sym (app_nil_r l)));
            apply (in_saves_tail l _ k) in Hin; [exact Hin |];
            intros j; apply (tail_no_saves cfg l w1 n j) |].
    split.
    + intros src dst Hin. apply in_app_or in Hin as [Hin | Hin];
        [apply in_map_iff in Hin as (j & Heq & _); discriminate |].
      destruct (tail_renames cfg l w1 n src dst (or_introl Hin)) as (_ & -> & ->).
      destruct (Hpromoted w1 (val_log ev) Hvalid Hbest Hvals) as (Hr & Hin' & Hlt).
      now repeat split.
    + split; [| intros _ _ _; exact Hvals].
      intros _ Hnone. exfalso.
      apply (promo_valid_needs_update cfg (dom (fs w0)) w1 H0 HNl Hvalid).
      rewrite Hbest, final_record_initial by exact Hnone. reflexivity.
Qed.

Lemma promotion_target_witness :
  let cfg := small_config "train" false 2 (Fin 1) in
  mode cfg = "train"%string /\
  1 <= num_epoch cfg /\
  (epoch_dir 0 ∉ dom (fs no_val_world)) /\
  val_log (trace (snd (@main small_backend cfg no_val_world)))
    = [(1, NaN); (2, NaN)] /\
  fst (@main small_backend cfg no_val_world)
    = Raise (FileNotFoundError (epoch_dir 0)) /\
  best_epoch (snd (@main small_backend cfg no_val_world)) = (0, inf).
Proof.
  assert (Hfresh : epoch_dir 0 ∉ dom (fs no_val_world)).
  { intros H. apply elem_of_dom in H as [x Hx]. discriminate Hx. }
  assert (Hlog : val_log (trace (snd (@main small_backend
                   (small_config "train" false 2 (Fin 1)) no_val_world)))
                 = [(1, NaN); (2, NaN)])
    by (vm_compute; reflexivity).
  split; [reflexivity |]. split; [discriminate |]. split; [exact Hfresh |].
  split; [exact Hlog |].
  destruct (@promotion_target small_backend
              (small_config "train" false 2 (Fin 1)) no_val_world
              eq_refl ltac:(discriminate) Hfresh)
    as (ev & Htr & _ & _ & Hnever & _).
  change (trace no_val_world ++ ev) with ev in Htr.
  rewrite <- Htr, Hlog in Hnever.
  destruct Hnever as (Hr & Hb & _).
  - reflexivity.
  - intros v [<- | [<- | []]]; reflexivity.
  - split; assumption.
Defined.

(** * Further properties of the control loop *)

(** ** Batch sizes *)

(** X1.  For a positive batch size, every batch of a pass but the last has
    exactly [b] elements, and the last one has the remaining
    [n - (nb - 1) * b] elements, between 1 and [b]: the final partial batch
    is neither dropped nor padded. *)
Theorem batch_sizes {A : Type} (S : list A) (b nb i : Z) :
  0 < b ->
  num_batches (len S) b = Some nb ->
  0 <= i < nb ->
  len (batch_slice S b i) = (if i <? nb - 1 then b else len S - (nb - 1) * b) /\
  0 < len S - (nb - 1) * b <= b.
Proof.
  intros Hb Hnb Hi. unfold len in *.
  pose proof (num_batches_ceil _ _ _ Hb Hnb) as Hc.
  replace i with (Z.of_nat (Z.to_nat i)) at 1 by lia.
  rewrite batch_slice_length by assumption.
  split; [| lia].
  destruct (Z.ltb_spec i (nb - 1)); nia.
Qed.

Lemma batch_sizes_witness :
  0 < 2 /\ num_batches (len [10; 20; 30; 40; 50]) 2 = Some 3 /\ 0 <= 2 < 3 /\
  len (batch_slice [10; 20; 30; 40; 50] 2 2) = 1.
Proof.
  split; [lia |]. split; [reflexivity |]. split; [lia |].
  exact (proj1 (batch_sizes [10; 20; 30; 40; 50] 2 3 2
                  ltac:(lia) eq_refl ltac:(lia))).
Defined.

(** ** Degenerate batch sizes *)

(** X2.  A batch size of zero makes the pass that uses it raise
    [ZeroDivisionError] before it does anything else: a validation pass
    leaves the state as it was, a test pass has at most substituted the
    validation split, and an epoch stops before the training split is
    shuffled. *)
Theorem zero_batch_size_raises {B : Backend} (cfg : Config) (epoch : Z)
    (w : world) :
  (batch_size_val cfg = 0 ->
   eval_model cfg epoch w = (Raise ZeroDivisionError, w)) /\
  (batch_size_test cfg = 0 ->
   test_model cfg w
   = (Raise ZeroDivisionError, set_data (test_data cfg (data_module w)) w)) /\
  (batch_size_train cfg = 0 ->
   run_epoch cfg epoch w = (Raise ZeroDivisionError, w)).
Proof.
  split; [| split]; intros Hb.
  - apply eval_model_zero_division. unfold num_batches. now rewrite Hb.
  - unfold test_model, test_data, num_batches. rewrite Hb.
    destruct w. destruct (test_on_val cfg); reflexivity.
  - rewrite run_epoch_eq. unfold num_batches. now rewrite Hb.
Qed.

Lemma zero_batch_size_raises_witness :
  let cfg := mkConfig "train" false "cnn" 0 0 0 1 (Fin 1) true 4
                      (tok "<pad>") (tok "<unk>") "saved" in
  batch_size_val cfg = 0 /\ batch_size_test cfg = 0 /\ batch_size_train cfg = 0 /\
  @eval_model small_backend cfg 1 small_world
    = (Raise ZeroDivisionError, small_world) /\
  fst (@test_model small_backend cfg small_world) = Raise ZeroDivisionError /\
  @run_epoch small_backend cfg 1 small_world
    = (Raise ZeroDivisionError, small_world).
Proof.
  pose proof (@zero_batch_size_raises small_backend
                (mkConfig "train" false "cnn" 0 0 0 1 (Fin 1) true 4
                          (tok "<pad>") (tok "<unk>") "saved") 1 small_world)
    as (Hval & Htest & Htrain).
  split; [reflexivity |]. split; [reflexivity |]. split; [reflexivity |].
  split; [exact (Hval eq_refl) |].
  split; [exact (f_equal fst (Htest eq_refl)) | exact (Htrain eq_refl)].
Defined.

(** X3.  With a validation batch size of zero an epoch never reaches its
    checkpoint: [run_epoch] raises, whatever the training batches did, and
    the checkpoint directories and the best-epoch record are as before the
    epoch; nothing is saved or renamed. *)
Theorem no_checkpoint_without_validation {B : Backend} (cfg : Config)
    (epoch : Z) (w : world) :
  batch_size_val cfg = 0 ->
  let r := run_epoch cfg epoch w in
  (exists e, fst r = Raise e) /\
  fs (snd r) = fs w /\
  best_epoch (snd r) = best_epoch w /\
  key_events (trace (snd r)) = key_events (trace w) /\
  val_log (trace (snd r)) = val_log (trace w).
Proof.
  intros Hb r. subst r. rewrite run_epoch_eq.
  destruct (num_batches _ (batch_size_train cfg)) as [nb |].
  2:{ simpl. repeat split; eauto. }
  pose proof (train_loop_frame cfg epoch nb (py_range nb) [] (shuffled w)) as Hfr.
  destruct (shuffled_fields w) as (Ht & Hf & Hbe & _ & _).
  destruct (for_fold _ _ _ _) as [[tl | e] w2]; simpl in Hfr;
    destruct Hfr as (_ & Hf2 & Hb2 & _ & ev & Htr & Hev);
    destruct (train_events_quiet ev Hev) as (Hv & _ & Hk & _).
  - cbn zeta. unfold num_batches at 1. rewrite Hb. cbn.
    unfold key_events, val_log in *.
    rewrite Htr, Ht, !omap_app, Hk, Hv. cbn. rewrite !app_nil_r.
    repeat split; eauto; congruence.
  - cbn. unfold key_events, val_log in *.
    rewrite Htr, Ht, !omap_app, Hk, Hv. rewrite !app_nil_r.
    repeat split; eauto; congruence.
Qed.

Lemma no_checkpoint_without_validation_witness :
  let cfg := mkConfig "train" false "cnn" 2 0 2 1 (Fin 1) false 4
                      (tok "<pad>") (tok "<unk>") "saved" in
  batch_size_val cfg = 0 /\
  fst (@run_epoch small_backend cfg 1 small_world) = Raise ZeroDivisionError /\
  fs (snd (@run_epoch small_backend cfg 1 small_world)) = fs small_world.
Proof.
  pose proof (@no_checkpoint_without_validation small_backend
                (mkConfig "train" false "cnn" 2 0 2 1 (Fin 1) false 4
                          (tok "<pad>") (tok "<unk>") "saved") 1 small_world
                eq_refl) as (_ & Hfs & _).
  split; [reflexivity |]. split; [vm_compute; reflexivity | exact Hfs].
Defined.

(** X4.  A validation pass with nothing to iterate over, because the
    validation split is empty or the batch size is negative, still
    completes: it calls [inference] not at all, logs a loss of nan (the
    mean of no batch loss) and leaves the best-epoch record as it was,
    since nan is below no loss. *)
Theorem eval_model_nothing_to_validate {B : Backend} (cfg : Config)
    (epoch : Z) (w : world) :
  (val_texts (data_module w) = [] /\ batch_size_val cfg <> 0) \/
  batch_size_val cfg < 0 ->
  let r := eval_model cfg epoch w in
  fst r = Ok tt /\
  best_epoch (snd r) = best_epoch w /\
  exists ev,
    trace (snd r) = trace w ++ ev /\
    val_log ev = [(epoch, NaN)] /\
    best_log ev = [best_epoch w] /\
    inference_calls ev = [].
Proof.
  intros Hcase r. subst r.
  assert (Hnb : exists nb,
             num_batches (len (val_texts (data_module w))) (batch_size_val cfg)
               = Some nb /\ nb <= 0).
  { destruct Hcase as [[Hempty Hb] | Hb].
    - exists 0. rewrite Hempty. split; [now apply num_batches_empty | lia].
    - eexists. split; [apply num_batches_nonzero; lia |].
      eapply num_batches_negative; [exact Hb | | apply num_batches_nonzero; lia].
      unfold len. lia. }
  destruct Hnb as (nb & Hnb & Hle).
  destruct (eval_model_observed cfg epoch nb w Hnb)
    as (Hok & Hbest & ev & Htr & Hv & Hbl & Hinf).
  rewrite py_range_nonpos in Hbest, Hv, Hbl, Hinf by exact Hle.
  simpl in Hbest, Hv, Hbl, Hinf.
  assert (Hkeep : update_best (best_epoch w) epoch (np_mean []) = best_epoch w)
    by reflexivity.
  rewrite Hkeep in Hbest, Hbl.
  split; [exact Hok |]. split; [exact Hbest |].
  exists ev. repeat split; assumption.
Qed.

Lemma eval_model_nothing_to_validate_witness :
  let cfg := mkConfig "train" false "cnn" 2 (-2) 2 1 (Fin 1) false 4
                      (tok "<pad>") (tok "<unk>") "saved" in
  batch_size_val cfg < 0 /\
  fst (@eval_model small_backend cfg 1 small_world) = Ok tt /\
  best_epoch (snd (@eval_model small_backend cfg 1 small_world)) = (0, inf).
Proof.
  pose proof (@eval_model_nothing_to_validate small_backend
                (mkConfig "train" false "cnn" 2 (-2) 2 1 (Fin 1) false 4
                          (tok "<pad>") (tok "<unk>") "saved") 1 small_world
                (or_intror eq_refl)) as (Hok & Hbest & _).
  split; [reflexivity |]. split; [exact Hok | exact Hbest].
Defined.

(** ** What a test pass changes *)

Section TestEffects.

Context {B : Backend}.

Lemma only_test_events_refl (w : world) : only_test_events w w.
Proof.
  repeat split; auto. exists []. now rewrite app_nil_r.
Qed.

Lemma only_test_events_trans (w1 w2 w3 : world) :
  only_test_events w1 w2 -> only_test_events w2 w3 -> only_test_events w1 w3.
Proof.
  intros (Hd & Hm & Hg & Ho & Hs & Hb & Hf & Hr & ev & Ht & He)
         (Hd' & Hm' & Hg' & Ho' & Hs' & Hb' & Hf' & Hr' & ev' & Ht' & He').
  repeat split; try congruence.
  exists (ev ++ ev'). split.
  - rewrite Ht', Ht. now rewrite app_assoc.
  - rewrite forallb_app, He, He'. reflexivity.
Qed.

Ltac solve_test_effect :=
  repeat split; cbn; auto;
  try (eexists; split; [rewrite <- ?app_assoc; reflexivity | reflexivity]).

Lemma test_example_effect (cfg : Config) (batch : Z)
    (sentences : list sentence) (labels preds : list label)
    (probs : list scores) (idx : Z) (w : world) :
  only_test_events w
    (snd (test_example cfg batch sentences labels preds probs idx w)).
Proof.
  unfold test_example, or_raise.
  destruct (py_index sentences idx); run_prims; [| apply only_test_events_refl].
  destruct (py_index labels idx); run_prims; [| solve_test_effect].
  destruct (py_index preds idx); run_prims; [| solve_test_effect].
  destruct (py_index probs idx) as [row |]; run_prims; [| solve_test_effect].
  destruct (py_max row); run_prims; solve_test_effect.
Qed.

Lemma test_batch_effect (cfg : Config) (d : DataModule) (batch : Z)
    (predictions : list label) (w : world) :
  only_test_events w (snd (test_batch cfg d batch predictions w)).
Proof.
  unfold test_batch, call_inference. run_prims.
  destruct (inference false cfg (model w) _) as [preds probs].
  match goal with
  | |- context [for_each ?l ?f ?w0] =>
      pose proof (for_fold_frame only_test_events (fun x (_ : unit) => f x)
                    only_test_events_refl only_test_events_trans
                    (fun x _ w => test_example_effect cfg batch _ _ _ _ x w)
                    l tt w0) as Hloop;
      change (for_fold l (fun x (_ : unit) => f x) tt w0)
        with (for_each l f w0) in Hloop;
      destruct (for_each l f w0) as [[[] | e] w1]
  end; simpl in Hloop |- *;
    (eapply only_test_events_trans; [| exact Hloop]); solve_test_effect.
Qed.

Lemma test_model_only_test_events (cfg : Config) (w : world) :
  only_test_events (set_data (test_data cfg (data_module w)) w)
                   (snd (test_model cfg w)).
Proof.
  unfold test_model, test_data.
  destruct (test_on_val cfg); run_prims;
    (destruct (num_batches _ _) as [nb |]; unfold or_raise; run_prims;
     [| destruct w; apply only_test_events_refl]);
    match goal with
    | |- context [for_fold ?l (test_batch cfg ?d) ?a ?w0] =>
        pose proof (for_fold_frame only_test_events (test_batch cfg d)
                      only_test_events_refl only_test_events_trans
                      (test_batch_effect cfg d) l a w0) as Hloop;
        destruct (for_fold l (test_batch cfg d) a w0) as [[preds | e] w1]
    end; simpl in Hloop |- *;
    (eapply only_test_events_trans; [| eapply only_test_events_trans;
                                       [exact Hloop |]]);
    solve_test_effect; try (exists []; now rewrite app_nil_r).
Qed.

End TestEffects.

(** X5.  Whatever its outcome, a test pass changes two things only: the
    trace, to which it adds calls of [inference] and test log entries, and,
    when [test_on_val] is set, the test split of [data_module], which is
    overwritten with the validation split and stays so after the pass.  The
    model, its gradients, the optimizer, the scheduler, the best-epoch
    record, the checkpoints and the training and validation splits are as
    before. *)
Theorem test_model_effect {B : Backend} (cfg : Config) (w : world) :
  let w' := snd (test_model cfg w) in
  data_module w' = test_data cfg (data_module w) /\
  (test_on_val cfg = false -> data_module w' = data_module w) /\
  (test_on_val cfg = true ->
   test_texts (data_module w') = val_texts (data_module w) /\
   test_pols (data_module w') = val_pols (data_module w) /\
   train_texts (data_module w') = train_texts (data_module w) /\
   train_pols (data_module w') = train_pols (data_module w) /\
   val_texts (data_module w') = val_texts (data_module w) /\
   val_pols (data_module w') = val_pols (data_module w)) /\
  model w' = model w /\
  model_grads w' = model_grads w /\
  optimizer w' = optimizer w /\
  scheduler w' = scheduler w /\
  best_epoch w' = best_epoch w /\
  fs w' = fs w /\
  exists ev, trace w' = trace w ++ ev /\ forallb is_test_event ev = true.
Proof.
  intros w'. subst w'.
  destruct (test_model_only_test_events cfg w)
    as (Hd & Hm & Hg & Ho & Hs & Hb & Hf & _ & ev & Ht & He).
  cbn in Hd, Hm, Hg, Ho, Hs, Hb, Hf, Ht.
  split; [exact Hd |].
  split; [intros Hv; rewrite Hd; unfold test_data; now rewrite Hv |].
  split; [intros Hv; rewrite Hd; unfold test_data; rewrite Hv; repeat split |].
  repeat split; try assumption. now exists ev.
Qed.

Lemma test_model_effect_witness :
  let cfg := mkConfig "test" false "cnn" 2 2 2 1 (Fin 1) true 4
                      (tok "<pad>") (tok "<unk>") "saved" in
  test_on_val cfg = true /\
  test_texts (data_module (snd (@test_model small_backend cfg small_world)))
    = [[tok "fine"]; [tok "dull"; tok "plot"]; [tok "great"]].
Proof.
  split; [reflexivity |].
  exact (proj1 (proj1 (proj2 (proj2
           (@test_model_effect small_backend
              (mkConfig "test" false "cnn" 2 2 2 1 (Fin 1) true 4
                        (tok "<pad>") (tok "<unk>") "saved") small_world)))
           eq_refl)).
Defined.

(** ** What an epoch does to the data and to the checkpoints *)

Section EpochEffects.

Context {B : Backend}.

Lemma shuffled_data (w : world) :
  same_held_out (data_module w) (data_module (shuffled w)) /\
  (train_texts (data_module (shuffled w)), train_pols (data_module (shuffled w)))
  = fst (shuffle_lists (random_state w) (train_texts (data_module w))
                       (train_pols (data_module w))) /\
  random_state (shuffled w)
  = snd (shuffle_lists (random_state w) (train_texts (data_module w))
                       (train_pols (data_module w))) /\
  optimizer (shuffled w) = optimizer w.
Proof.
  unfold shuffled, same_held_out.
  destruct (shuffle_lists _ _ _) as [[texts pols] r].
  repeat split.
Qed.

(** The data module an epoch leaves behind. *)
Lemma run_epoch_data (cfg : Config) (epoch : Z) (w : world) :
  data_module (snd (run_epoch cfg epoch w)) =
  match num_batches (len (train_texts (data_module w))) (batch_size_train cfg) with
  | None => data_module w
  | Some _ => data_module (shuffled w)
  end.
Proof.
  rewrite run_epoch_eq.
  destruct (num_batches _ (batch_size_train cfg)) as [nb |]; [| reflexivity].
  pose proof (train_loop_frame cfg epoch nb (py_range nb) [] (shuffled w)) as Hfr.
  destruct (for_fold _ _ _ _) as [[tl | e] w2]; simpl in Hfr;
    destruct Hfr as (Hd2 & _); [| exact Hd2].
  cbn zeta.
  destruct (num_batches _ (batch_size_val cfg)) as [nbv |]; [| exact Hd2].
  destruct (epoch =? num_epoch cfg); [| exact Hd2].
  rewrite os_rename_eq by discriminate.
  destruct (_ !! epoch_dir _) as [x |]; [| exact Hd2].
  destruct (_ !! e_best) as [[c |] |]; exact Hd2.
Qed.

(** An epoch that completes has saved its checkpoint from the state the
    training batches left, and then, in the last epoch, renamed. *)
Lemma run_epoch_completed (cfg : Config) (epoch : Z) (w : world) :
  fst (run_epoch cfg epoch w) = Ok tt ->
  exists w5,
    fs w5 = <[epoch_dir epoch :=
                Some (mkCheckpoint epoch (model w5) (optimizer w5))]> (fs w) /\
    if epoch =? num_epoch cfg
    then os_rename (epoch_dir (fst (best_epoch w5))) e_best w5
         = (Ok tt, snd (run_epoch cfg epoch w))
    else snd (run_epoch cfg epoch w) = w5.
Proof.
  rewrite run_epoch_eq.
  destruct (num_batches _ (batch_size_train cfg)) as [nb |]; [| discriminate].
  pose proof (train_loop_frame cfg epoch nb (py_range nb) [] (shuffled w)) as Hfr.
  destruct (shuffled_fields w) as (_ & Hf & _).
  destruct (for_fold _ _ _ _) as [[tl | e] w2]; simpl in Hfr;
    destruct Hfr as (_ & Hf2 & _); [| discriminate].
  cbn zeta.
  destruct (num_batches _ (batch_size_val cfg)) as [nbv |]; [| discriminate].
  intros Hok.
  exists (after_save epoch
            (eval_model_result cfg epoch nbv (after_training cfg epoch tl w2))).
  split; [cbn; congruence |].
  destruct (epoch =? num_epoch cfg); [| reflexivity].
  destruct (os_rename _ _ _) as [r w'] eqn:Hren.
  simpl in Hok. subst r. reflexivity.
Qed.

End EpochEffects.

(** X6.  Whatever its outcome, an epoch never modifies the validation and
    test splits.  Unless the training batch size is zero, the training
    texts and labels it leaves are the pair [shuffle_lists] returned at the
    start of the epoch: the split is shuffled once per epoch and not
    touched again; with a batch size of zero the data are not shuffled at
    all. *)
Theorem run_epoch_data_effect {B : Backend} (cfg : Config) (epoch : Z)
    (w : world) :
  let d := data_module w in
  let d' := data_module (snd (run_epoch cfg epoch w)) in
  same_held_out d d' /\
  (batch_size_train cfg <> 0 ->
   (train_texts d', train_pols d')
   = fst (shuffle_lists (random_state w) (train_texts d) (train_pols d))) /\
  (batch_size_train cfg = 0 -> d' = d).
Proof.
  intros d d'. subst d d'. rewrite run_epoch_data.
  destruct (shuffled_data w) as (Hheld & Htrain & _).
  destruct (num_batches _ (batch_size_train cfg)) as [nb |] eqn:Hnb.
  - split; [exact Hheld |]. split; [intros _; exact Htrain |].
    intros Hb. unfold num_batches in Hnb. rewrite Hb in Hnb. discriminate.
  - split; [repeat split |]. split; [| reflexivity].
    intros Hb. apply num_batches_none in Hnb. contradiction.
Qed.

Lemma run_epoch_data_effect_witness :
  let cfg := small_config "train" false 3 (Fin 1) in
  batch_size_train cfg <> 0 /\
  train_texts (data_module (snd (@run_epoch small_backend cfg 1 small_world)))
    = [[tok "bad"]; [tok "good"; tok "film"]] /\
  train_pols (data_module (snd (@run_epoch small_backend cfg 1 small_world)))
    = [0; 1].
Proof.
  split; [discriminate |].
  pose proof (proj1 (proj2 (@run_epoch_data_effect small_backend
                              (small_config "train" false 3 (Fin 1)) 1
                              small_world))
                    ltac:(discriminate)) as H.
  split; [exact (f_equal fst H) | exact (f_equal snd H)].
Defined.

(** X7.  An epoch other than the last that completes leaves the
    checkpoint directories as they were but for its own: [epoch_<epoch>]
    then holds the epoch number, and the parameters and optimizer state the
    model has at the end of the epoch, that is, after its training batches;
    the validation pass in between changes neither.  The checkpoint is
    written whether or not the validation loss improved. *)
Theorem run_epoch_checkpoint {B : Backend} (cfg : Config) (epoch : Z)
    (w : world) :
  epoch <> num_epoch cfg ->
  fst (run_epoch cfg epoch w) = Ok tt ->
  let w' := snd (run_epoch cfg epoch w) in
  let saved := mkCheckpoint epoch (model w') (optimizer w') in
  fs w' = <[epoch_dir epoch := Some saved]> (fs w) /\
  fs w' !! epoch_dir epoch = Some (Some saved) /\
  (forall n, n <> epoch_dir epoch -> fs w' !! n = fs w !! n).
Proof.
  intros Hne Hok w' saved. subst w' saved.
  destruct (run_epoch_completed cfg epoch w Hok) as (w5 & Hfs & Hend).
  apply Z.eqb_neq in Hne. rewrite Hne in Hend. rewrite Hend.
  split; [exact Hfs |]. rewrite Hfs.
  split; [now simplify_map_eq |].
  intros n Hn. now simplify_map_eq.
Qed.

Lemma run_epoch_checkpoint_witness :
  let cfg := small_config "train" false 3 (Fin 1) in
  1 <> num_epoch cfg /\
  fst (@run_epoch small_backend cfg 1 small_world) = Ok tt /\
  fs (snd (@run_epoch small_backend cfg 1 small_world)) !! epoch_dir 1
    = Some (Some (@mkCheckpoint small_backend 1 1 tt)).
Proof.
  assert (Hok : fst (@run_epoch small_backend
                       (small_config "train" false 3 (Fin 1)) 1 small_world)
                = Ok tt) by (vm_compute; reflexivity).
  split; [discriminate |]. split; [exact Hok |].
  exact (proj1 (proj2 (@run_epoch_checkpoint small_backend
                         (small_config "train" false 3 (Fin 1)) 1 small_world
                         ltac:(discriminate) Hok))).
Defined.

(** X8.  When the last epoch completes, the promotion has moved, not
    copied, the directory of the best epoch [k]: [e_best] holds what
    [epoch_<k>] held once the last checkpoint was saved, [epoch_<k>] is
    gone, and every other directory is as the save left it.  When the last
    epoch is itself the best one, [e_best] holds the checkpoint just
    saved. *)
Theorem promotion_moves_checkpoint {B : Backend} (cfg : Config) (w : world) :
  let epoch := num_epoch cfg in
  fst (run_epoch cfg epoch w) = Ok tt ->
  let w' := snd (run_epoch cfg epoch w) in
  let saved := mkCheckpoint epoch (model w') (optimizer w') in
  let f := <[epoch_dir epoch := Some saved]> (fs w) in
  let k := fst (best_epoch w') in
  is_Some (f !! epoch_dir k) /\
  fs w' !! e_best = f !! epoch_dir k /\
  fs w' !! epoch_dir k = None /\
  (forall n, n <> e_best -> n <> epoch_dir k -> fs w' !! n = f !! n) /\
  (k = epoch -> fs w' !! e_best = Some (Some saved)) /\
  (forall c, fs w !! e_best <> Some (Some c)).
Proof.
  intros epoch Hok w' saved f k. subst w' saved f k.
  destruct (run_epoch_completed cfg epoch w Hok) as (w5 & Hfs & Hend).
  subst epoch. rewrite Z.eqb_refl in Hend.
  rewrite os_rename_eq in Hend by discriminate.
  destruct (fs w5 !! epoch_dir (fst (best_epoch w5))) as [x |] eqn:Hsrc;
    [| discriminate].
  assert (Hold : forall c, fs w5 !! e_best <> Some (Some c) ->
                           fs w !! e_best <> Some (Some c)).
  { intros c H. rewrite Hfs in H. now simplify_map_eq. }
  destruct (fs w5 !! e_best) as [[c' |] |] eqn:Hdst; [discriminate | |];
    injection Hend as Hend; rewrite <- Hend; cbn;
    rewrite <- Hfs, Hsrc;
    (split; [eauto |]);
    (split; [now simplify_map_eq |]);
    (split; [now simplify_map_eq |]);
    (split; [intros n H1 H2; now simplify_map_eq |]);
    (split; [| intros c; apply Hold; congruence]);
    intros Hk; rewrite Hk, Hfs in Hsrc; now simplify_map_eq.
Qed.

Lemma promotion_moves_checkpoint_witness :
  let cfg := small_config "train" false 1 (Fin 1) in
  fst (@run_epoch small_backend cfg (num_epoch cfg) small_world) = Ok tt /\
  fs (snd (@run_epoch small_backend cfg 1 small_world)) !! e_best
    = Some (Some (@mkCheckpoint small_backend 1 1 tt)) /\
  fs (snd (@run_epoch small_backend cfg 1 small_world)) !! epoch_dir 1 = None.
Proof.
  assert (Hok : fst (@run_epoch small_backend
                       (small_config "train" false 1 (Fin 1)) 1 small_world)
                = Ok tt) by (vm_compute; reflexivity).
  split; [exact Hok |].
  destruct (@promotion_moves_checkpoint small_backend
              (small_config "train" false 1 (Fin 1)) small_world Hok)
    as (_ & _ & Hgone & _ & Hbest & _).
  split; [apply Hbest; vm_compute; reflexivity | exact Hgone].
Defined.

(** ** Steps and numbering within an epoch *)

(** [range(n)] shifted by [lo] is [range(lo, lo + n)]. *)
Lemma py_range_shift (lo n : Z) :
  map (fun i => lo + i) (py_range n) = py_range2 lo (lo + n).
Proof.
  unfold py_range, py_range2. rewrite map_map.
  now replace (Z.to_nat (lo + n - lo)) with (Z.to_nat n) by lia.
Qed.

Section EpochSteps.

Context {B : Backend}.

Ltac name_step :=
  match goal with
  | |- context [optimizer_step ?o ?p ?g] =>
      let o' := fresh "o" in let p' := fresh "p" in
      destruct (optimizer_step o p g) as [o' p']
  | |- context [scheduler_step ?s ?o] =>
      let s' := fresh "sc" in let o' := fresh "o" in
      destruct (scheduler_step s o) as [s' o']
  end.

(** What one training batch adds to the scheduler steps, to the training
    log and to the summary writer. *)
Lemma train_batch_counts (cfg : Config) (epoch nb batch : Z)
    (total_loss : list pyfloat) (w : world) inputs masks :
  encode_batch cfg
    (batch_slice (train_texts (data_module w)) (batch_size_train cfg) batch)
    = Some (inputs, masks) ->
  (use_BERT cfg = true -> is_Some (scheduler w)) ->
  let w' := snd (train_batch cfg epoch nb batch total_loss w) in
  scheduler_steps (trace w')
    = (scheduler_steps (trace w) + if use_BERT cfg then 1 else 0)%nat /\
  train_batch_logs (trace w')
    = train_batch_logs (trace w) ++ [(epoch, batch + 1, nb)] /\
  batch_loss_steps (trace w')
    = batch_loss_steps (trace w) ++ [epoch * nb + batch].
Proof.
  intros Henc Hs w'. subst w'.
  unfold train_batch. run_prims.
  rewrite Henc. unfold or_raise. run_prims.
  unfold do_optimizer_step, do_scheduler_step,
    scheduler_steps, train_batch_logs, batch_loss_steps.
  destruct (use_BERT cfg); run_prims.
  - destruct (Hs eq_refl) as [sc Hsc].
    destruct (gtb (clip_norm cfg) (of_Z 0)); run_prims;
      name_step; run_prims; rewrite Hsc; run_prims;
      name_step; run_prims;
      rewrite ?omap_app, ?length_app; cbn; rewrite ?app_nil_r;
      (repeat split; auto); lia.
  - name_step; run_prims.
    rewrite ?omap_app, ?length_app; cbn; rewrite ?app_nil_r.
    repeat split; auto; lia.
Qed.

Lemma train_loop_counts (cfg : Config) (epoch nb : Z) (l : list Z) :
  forall total_loss w,
  (use_BERT cfg = true -> is_Some (scheduler w)) ->
  (use_BERT cfg = true ->
   forall batch, In batch l ->
     batch_slice (train_texts (data_module w)) (batch_size_train cfg) batch <> []) ->
  let w' := snd (for_fold l (train_batch cfg epoch nb) total_loss w) in
  length (optimizer_steps (trace w'))
    = (length (optimizer_steps (trace w)) + length l)%nat /\
  scheduler_steps (trace w')
    = (scheduler_steps (trace w) + if use_BERT cfg then length l else 0)%nat /\
  train_batch_logs (trace w')
    = train_batch_logs (trace w) ++ map (fun batch => (epoch, batch + 1, nb)) l /\
  batch_loss_steps (trace w')
    = batch_loss_steps (trace w) ++ map (fun batch => epoch * nb + batch) l.
Proof.
  induction l as [| batch l IH]; intros total_loss w Hs Hne w'; subst w'.
  - simpl. rewrite !app_nil_r. repeat split; try lia.
    destruct (use_BERT cfg); lia.
  - destruct (encode_batch_some cfg
                (batch_slice (train_texts (data_module w))
                             (batch_size_train cfg) batch))
      as (inputs & masks & Henc).
    { intros Hb. apply (Hne Hb). now left. }
    pose proof (train_batch_step cfg epoch nb batch total_loss w inputs masks Henc)
      as (Hopt & _ & _ & Hok).
    specialize (Hok Hs).
    pose proof (train_batch_counts cfg epoch nb batch total_loss w inputs masks
                  Henc Hs) as (Hsch & Hlog & Hstep).
    pose proof (train_batch_frame cfg epoch nb batch total_loss w)
      as (Hd & _ & _ & Hs1 & _).
    simpl for_fold. unfold bind.
    destruct (train_batch cfg epoch nb batch total_loss w) as [r1 w1].
    simpl in Hok, Hopt, Hsch, Hlog, Hstep, Hd, Hs1. subst r1.
    match goal with
    | |- context [for_fold l _ ?tl w1] =>
        destruct (IH tl w1) as (Ho' & Hsch' & Hlog' & Hstep')
    end.
    { intros Hb. apply Hs1, Hs, Hb. }
    { intros Hb b' Hin. rewrite Hd. apply (Hne Hb). now right. }
    rewrite Ho', Hsch', Hlog', Hstep', Hopt, Hsch, Hlog, Hstep.
    rewrite length_app, <- !app_assoc. simpl.
    repeat split; try lia.
    destruct (use_BERT cfg); lia.
Qed.

(** After its batch loop, [run_epoch] steps the scheduler no more and
    writes no further per-batch entry. *)
Lemma run_epoch_batch_events (cfg : Config) (epoch nb : Z) (w : world) :
  num_batches (len (train_texts (data_module w))) (batch_size_train cfg)
    = Some nb ->
  let w2 := snd (for_fold (py_range nb) (train_batch cfg epoch nb) []
                          (shuffled w)) in
  let w' := snd (run_epoch cfg epoch w) in
  scheduler_steps (trace w') = scheduler_steps (trace w2) /\
  train_batch_logs (trace w') = train_batch_logs (trace w2) /\
  batch_loss_steps (trace w') = batch_loss_steps (trace w2).
Proof.
  intros Hnb. rewrite run_epoch_eq, Hnb.
  destruct (for_fold _ _ _ _) as [[tl | e] w2]; [| repeat split].
  cbn zeta.
  destruct (num_batches _ (batch_size_val cfg)) as [nbv |].
  2:{ cbn. unfold scheduler_steps, train_batch_logs, batch_loss_steps.
      rewrite !omap_app. cbn. now rewrite !app_nil_r. }
  assert (Hsaved :
            scheduler_steps (trace (after_save epoch
               (eval_model_result cfg epoch nbv (after_training cfg epoch tl w2))))
              = scheduler_steps (trace w2) /\
            train_batch_logs (trace (after_save epoch
               (eval_model_result cfg epoch nbv (after_training cfg epoch tl w2))))
              = train_batch_logs (trace w2) /\
            batch_loss_steps (trace (after_save epoch
               (eval_model_result cfg epoch nbv (after_training cfg epoch tl w2))))
              = batch_loss_steps (trace w2)).
  { cbn. unfold scheduler_steps, train_batch_logs, batch_loss_steps.
    rewrite !omap_app, !omap_map_ignored by reflexivity.
    cbn. now rewrite !app_nil_r. }
  destruct (epoch =? num_epoch cfg); [| exact Hsaved].
  rewrite os_rename_eq by discriminate.
  destruct (_ !! epoch_dir _) as [x |]; [| exact Hsaved].
  destruct (_ !! e_best) as [[c |] |]; [exact Hsaved | |];
    cbn [snd trace set_trace set_fs];
    unfold scheduler_steps, train_batch_logs, batch_loss_steps in *;
    rewrite !(omap_app _ (trace _) [EvRename _ _]); cbn;
    rewrite !app_nil_r; exact Hsaved.
Qed.

(** The steps and the numbering of one epoch, batch by batch. *)
Lemma run_epoch_counts (cfg : Config) (epoch nb : Z) (w : world) :
  0 < batch_size_train cfg ->
  num_batches (len (train_texts (data_module w))) (batch_size_train cfg)
    = Some nb ->
  (use_BERT cfg = true ->
   is_Some (scheduler w) /\
   length (train_texts (data_module (shuffled w)))
     = length (train_texts (data_module w))) ->
  let w' := snd (run_epoch cfg epoch w) in
  length (optimizer_steps (trace w'))
    = (length (optimizer_steps (trace w)) + Z.to_nat nb)%nat /\
  scheduler_steps (trace w')
    = (scheduler_steps (trace w) + if use_BERT cfg then Z.to_nat nb else 0)%nat /\
  train_batch_logs (trace w')
    = train_batch_logs (trace w)
        ++ map (fun batch => (epoch, batch + 1, nb)) (py_range nb) /\
  batch_loss_steps (trace w')
    = batch_loss_steps (trace w)
        ++ map (fun batch => epoch * nb + batch) (py_range nb).
Proof.
  intros Hb Hnb Hbert w'. subst w'.
  destruct (run_epoch_training_events cfg epoch nb w Hnb) as [_ Hopt].
  destruct (run_epoch_batch_events cfg epoch nb w Hnb) as (Hsch & Hlog & Hstep).
  rewrite Hopt, Hsch, Hlog, Hstep.
  destruct (shuffled_fields w) as (Ht & _ & _ & Hs & _).
  destruct (train_loop_counts cfg epoch nb (py_range nb) [] (shuffled w))
    as (Ho' & Hsch' & Hlog' & Hstep').
  { intros Hu. rewrite Hs. apply (Hbert Hu). }
  { intros Hu batch Hin. apply py_range_elem in Hin.
    destruct (Hbert Hu) as [_ Hlen].
    assert (Hnb' : num_batches
                     (Z.of_nat (length (train_texts (data_module (shuffled w)))))
                     (batch_size_train cfg) = Some nb)
      by (rewrite Hlen; exact Hnb).
    pose proof (batch_slice_nonempty _ _ _ batch Hb Hnb' Hin) as Hne.
    intros Heq. rewrite Heq in Hne. simpl in Hne. lia. }
  rewrite Ho', Hsch', Hlog', Hstep', Ht.
  assert (Hlen : length (py_range nb) = Z.to_nat nb)
    by (unfold py_range; now rewrite length_map, length_seq).
  rewrite Hlen. repeat split.
Qed.

End EpochSteps.

(** X9.  In an epoch with a positive training batch size and [nb] batches
    the optimizer steps once per batch; the scheduler steps once per batch
    with the transformer (given its scheduler and a shuffle that keeps the
    length of the split) and never with a CNN or LSTM.  The training log
    numbers the batches of the epoch [1 .. nb], while the summary writer
    receives the batch losses under the steps
    [epoch * nb .. (epoch + 1) * nb - 1]: the steps of one epoch continue
    those of the epoch before. *)
Theorem run_epoch_steps {B : Backend} (cfg : Config) (epoch nb : Z)
    (w : world) :
  0 < batch_size_train cfg ->
  num_batches (len (train_texts (data_module w))) (batch_size_train cfg)
    = Some nb ->
  (use_BERT cfg = true ->
   is_Some (scheduler w) /\
   length (train_texts (data_module (shuffled w)))
     = length (train_texts (data_module w))) ->
  let w' := snd (run_epoch cfg epoch w) in
  length (optimizer_steps (trace w'))
    = (length (optimizer_steps (trace w)) + Z.to_nat nb)%nat /\
  scheduler_steps (trace w')
    = (scheduler_steps (trace w) + if use_BERT cfg then Z.to_nat nb else 0)%nat /\
  train_batch_logs (trace w')
    = train_batch_logs (trace w)
        ++ map (fun i => (epoch, i, nb)) (py_range2 1 (nb + 1)) /\
  batch_loss_steps (trace w')
    = batch_loss_steps (trace w) ++ py_range2 (epoch * nb) ((epoch + 1) * nb).
Proof.
  intros Hb Hnb Hbert w'. subst w'.
  destruct (run_epoch_counts cfg epoch nb w Hb Hnb Hbert)
    as (Hopt & Hsch & Hlog & Hstep).
  split; [exact Hopt |]. split; [exact Hsch |].
  rewrite Hlog, Hstep, (py_range_shift (epoch * nb) nb).
  replace (epoch * nb + nb) with ((epoch + 1) * nb) by lia.
  replace (nb + 1) with (1 + nb) by lia.
  rewrite <- (py_range_shift 1 nb), map_map.
  split; [| reflexivity].
  f_equal. apply map_ext. intros i.
  now replace (1 + i) with (i + 1) by lia.
Qed.

Lemma run_epoch_steps_witness :
  let cfg := mkConfig "train" true "bert" 1 2 2 3 (Fin 1) false 4
                      (tok "<pad>") (tok "<unk>") "saved" in
  let w' := snd (@run_epoch small_backend cfg 2 small_world_bert) in
  0 < batch_size_train cfg /\
  num_batches (len (train_texts (data_module small_world_bert)))
              (batch_size_train cfg) = Some 2 /\
  scheduler_steps (trace w') = 2%nat /\
  train_batch_logs (trace w') = [(2, 1, 2); (2, 2, 2)] /\
  batch_loss_steps (trace w') = [4; 5].
Proof.
  destruct (@run_epoch_steps small_backend
              (mkConfig "train" true "bert" 1 2 2 3 (Fin 1) false 4
                        (tok "<pad>") (tok "<unk>") "saved") 2 2
              small_world_bert eq_refl eq_refl
              ltac:(intros _; split; [eexists; reflexivity | reflexivity]))
    as (_ & Hsch & Hlog & Hstep).
  split; [reflexivity |]. split; [reflexivity |].
  split; [exact Hsch |]. split; [exact Hlog | exact Hstep].
Defined.

(** ** The checkpoints a training loop leaves *)

Section LoopCheckpoints.

Context {B : Backend}.

(** The checkpoints after an epoch that completed, from those before. *)
Lemma run_epoch_fs (cfg : Config) (epoch : Z) (w : world) :
  fst (run_epoch cfg epoch w) = Ok tt ->
  let w' := snd (run_epoch cfg epoch w) in
  exists saved,
    ckpt_epoch saved = epoch /\
    let f := <[epoch_dir epoch := Some saved]> (fs w) in
    if epoch =? num_epoch cfg
    then exists x,
           f !! epoch_dir (fst (best_epoch w')) = Some x /\
           fs w' = <[e_best := x]> (delete (epoch_dir (fst (best_epoch w'))) f)
    else fs w' = f.
Proof.
  intros Hok w'. subst w'.
  destruct (run_epoch_completed cfg epoch w Hok) as (w5 & Hfs & Hend).
  exists (mkCheckpoint epoch (model w5) (optimizer w5)).
  split; [reflexivity |]. cbn zeta. rewrite <- Hfs.
  destruct (epoch =? num_epoch cfg); [| now rewrite Hend].
  rewrite os_rename_eq in Hend by discriminate.
  destruct (fs w5 !! epoch_dir (fst (best_epoch w5))) as [x |] eqn:Hsrc;
    [| discriminate].
  destruct (fs w5 !! e_best) as [[c' |] |]; [discriminate | |];
    injection Hend as Hend; rewrite <- Hend; cbn; exists x; now split.
Qed.

(** The best-epoch record after an epoch that completed names that epoch
    or is the record before. *)
Lemma run_epoch_best (cfg : Config) (epoch : Z) (w : world) :
  fst (run_epoch cfg epoch w) = Ok tt ->
  fst (best_epoch (snd (run_epoch cfg epoch w))) = epoch \/
  fst (best_epoch (snd (run_epoch cfg epoch w))) = fst (best_epoch w).
Proof.
  intros Hok. pose proof (run_epoch_spec cfg epoch w) as Hrun.
  rewrite Hok in Hrun. inversion Hrun as [| r w' ev loss c tail _ _ _ Hbest].
  rewrite Hbest.
  destruct (update_best_cases (best_epoch w) epoch loss) as [[_ Hu] | [_ Hu]];
    rewrite Hu; auto.
Qed.

(** The invariant of the loop over the epochs: before the last epoch, every
    epoch done has its checkpoint and no other epoch directory has changed;
    after it, the directory of the best epoch has become [e_best]. *)
Lemma epochs_loop_checkpoints (cfg : Config) (w1 : world) :
  fs w1 !! epoch_dir (fst (best_epoch w1)) = None ->
  let l := py_range2 1 (num_epoch cfg + 1) in
  match for_each l (run_epoch cfg) w1 with
  | (Ok _, w') =>
      (~ In (num_epoch cfg) l /\ forall j, In j l -> holds_epoch (fs w') j) \/
      (In (num_epoch cfg) l /\
       let k := fst (best_epoch w') in
       In k l /\
       (exists c, fs w' !! e_best = Some (Some c) /\ ckpt_epoch c = k) /\
       fs w' !! epoch_dir k = None /\
       forall j, In j l -> j <> k -> holds_epoch (fs w') j)
  | (Raise _, _) => True
  end.
Proof.
  intros Hfresh l.
  pose (I := fun (done : list Z) (_ : unit) (w : world) =>
    (fst (best_epoch w) = fst (best_epoch w1) \/ In (fst (best_epoch w)) done) /\
    ((~ In (num_epoch cfg) done /\
      (forall j, In j done -> holds_epoch (fs w) j) /\
      (forall j, ~ In j done -> fs w !! epoch_dir j = fs w1 !! epoch_dir j)) \/
     (In (num_epoch cfg) done /\
      In (fst (best_epoch w)) done /\
      (exists c, fs w !! e_best = Some (Some c) /\
                 ckpt_epoch c = fst (best_epoch w)) /\
      fs w !! epoch_dir (fst (best_epoch w)) = None /\
      forall j, In j done -> j <> fst (best_epoch w) -> holds_epoch (fs w) j))).
  assert (Hstep : forall done x rest (acc : unit) w,
             l = done ++ x :: rest -> I done acc w ->
             match run_epoch cfg x w with
             | (Ok acc', w') => I (done ++ [x]) acc' w'
             | (Raise e, w') => True
             end).
  { intros done x rest [] w Hl [Ha Hb].
    pose proof (py_range2_split _ _ _ _ _ Hl) as (Hx & Hdone & _).
    pose proof (run_epoch_fs cfg x w) as Hfs.
    pose proof (run_epoch_best cfg x w) as Hbest.
    destruct (run_epoch cfg x w) as [[[] | e] w2]; [| exact Logic.I].
    simpl in Hfs, Hbest.
    specialize (Hbest eq_refl).
    destruct (Hfs eq_refl) as (saved & Hsaved & Hfs'). clear Hfs.
    cbn zeta in Hfs'.
    destruct Hb as [(HnN & Hheld & Hrest) | (HN & _)];
      [| apply Hdone in HN; lia].
    assert (Ha' : fst (best_epoch w2) = fst (best_epoch w1) \/
                  In (fst (best_epoch w2)) (done ++ [x])).
    { destruct Hbest as [-> | ->].
      - right. apply in_or_app. right. now left.
      - destruct Ha as [Ha | Ha]; [now left |].
        right. apply in_or_app. now left. }
    assert (Hnew : forall j, In j (done ++ [x]) ->
                     holds_epoch (<[epoch_dir x := Some saved]> (fs w)) j).
    { intros j Hj. apply in_app_or in Hj as [Hj | [<- | []]].
      - destruct (Hheld j Hj) as (c & Hc & Hcj).
        exists c. split; [| exact Hcj].
        rewrite lookup_insert_ne; [exact Hc |].
        intros Heq. injection Heq as Heq. apply Hdone in Hj. lia.
      - exists saved. split; [apply lookup_insert_eq | exact Hsaved]. }
    split; [exact Ha' |].
    destruct (Z.eqb_spec x (num_epoch cfg)) as [HxN | HxN].
    + right. destruct Hfs' as (c0 & Hsrc & Hfs2).
      assert (Hk : In (fst (best_epoch w2)) (done ++ [x])).
      { destruct (in_dec Z.eq_dec (fst (best_epoch w2)) (done ++ [x]))
          as [Hin | Hout]; [exact Hin |].
        destruct Ha' as [Heq | Hin]; [| contradiction].
        exfalso.
        rewrite lookup_insert_ne in Hsrc.
        2:{ intros E. injection E as E. apply Hout, in_or_app.
            right. left. exact E. }
        rewrite Hrest in Hsrc.
        2:{ intros Hin. apply Hout, in_or_app. now left. }
        rewrite Heq, Hfresh in Hsrc. discriminate. }
      split; [apply in_or_app; right; left; exact HxN |].
      split; [exact Hk |].
      split; [| split].
      * destruct (Hnew _ Hk) as (c & Hc & Hck).
        exists c. split; [| exact Hck].
        rewrite Hfs2, lookup_insert_eq. congruence.
      * rewrite Hfs2, lookup_insert_ne by discriminate.
        apply lookup_delete_eq.
      * intros j Hj Hjk. destruct (Hnew j Hj) as (c & Hc & Hcj).
        exists c. split; [| exact Hcj].
        rewrite Hfs2, lookup_insert_ne by discriminate.
        rewrite lookup_delete_ne by congruence. exact Hc.
    + left. rewrite Hfs'. split; [| split].
      * intros Hin. apply in_app_or in Hin as [Hin | [Hin | []]];
          [contradiction | congruence].
      * exact Hnew.
      * intros j Hj. rewrite lookup_insert_ne.
        -- apply Hrest. intros Hin. apply Hj, in_or_app. now left.
        -- intros E. injection E as E. apply Hj, in_or_app.
           right. left. exact E. }
  assert (Hinit : I [] tt w1).
  { split; [now left |]. left. repeat split; auto. intros j []. }
  pose proof (for_fold_inv I (fun _ _ => True) l
                (fun x (_ : unit) => run_epoch cfg x) Hstep tt w1 Hinit) as Hloop.
  unfold for_each.
  destruct (for_fold l (fun x (_ : unit) => run_epoch cfg x) tt w1)
    as [[[] | e] w'] eqn:Hrun; [| exact Logic.I].
  destruct Hloop as [_ [(Hn & Hall & _) | (HN & Hk & He & Hg & Hall)]];
    [left | right]; auto.
Qed.

End LoopCheckpoints.

(** X10.  When the loop over the epochs [1 .. num_epoch] completes, from a
    state in which the directory named by the initial best-epoch record
    (for [main], [epoch_0]) does not exist: the best epoch [k] is one of
    the epochs run, [e_best] holds the checkpoint that records epoch [k],
    [epoch_<k>] no longer exists, and every other epoch [j] of the run still
    has its directory [epoch_<j>] with the checkpoint that records [j]. *)
Theorem promoted_checkpoint_records_best_epoch {B : Backend} (cfg : Config)
    (w1 : world) :
  1 <= num_epoch cfg ->
  fs w1 !! epoch_dir (fst (best_epoch w1)) = None ->
  let r := for_each (py_range2 1 (num_epoch cfg + 1)) (run_epoch cfg) w1 in
  fst r = Ok tt ->
  let k := fst (best_epoch (snd r)) in
  1 <= k <= num_epoch cfg /\
  (exists c, fs (snd r) !! e_best = Some (Some c) /\ ckpt_epoch c = k) /\
  fs (snd r) !! epoch_dir k = None /\
  (forall j, 1 <= j <= num_epoch cfg -> j <> k -> holds_epoch (fs (snd r)) j).
Proof.
  intros HN Hfresh r Hok k. subst r k.
  pose proof (epochs_loop_checkpoints cfg w1 Hfresh) as Hloop.
  cbn zeta in Hloop.
  destruct (for_each _ _ w1) as [[[] | e] w'];
    [| discriminate]. simpl.
  destruct Hloop as [(Hn & _) | (_ & Hk & He & Hg & Hall)].
  { exfalso. apply Hn, py_range2_In. lia. }
  apply py_range2_In in Hk.
  split; [lia |]. split; [exact He |]. split; [exact Hg |].
  intros j Hj Hjk. apply Hall; [apply py_range2_In; lia | exact Hjk].
Qed.

Lemma promoted_checkpoint_records_best_epoch_witness :
  let cfg := small_config "train" false 3 (Fin 1) in
  let r := @for_each small_backend _ (py_range2 1 (num_epoch cfg + 1))
             (run_epoch cfg) small_world in
  1 <= num_epoch cfg /\
  fs small_world !! epoch_dir (fst (best_epoch small_world)) = None /\
  fst r = Ok tt /\
  fst (best_epoch (snd r)) = 2 /\
  (exists c, fs (snd r) !! e_best = Some (Some c) /\ ckpt_epoch c = 2) /\
  fs (snd r) !! epoch_dir 2 = None.
Proof.
  assert (Hok : fst (@for_each small_backend _
                       (py_range2 1 (num_epoch (small_config "train" false 3 (Fin 1)) + 1))
                       (run_epoch (small_config "train" false 3 (Fin 1)))
                       small_world) = Ok tt)
    by (vm_compute; reflexivity).
  assert (Hbest : fst (best_epoch (snd (@for_each small_backend _
                       (py_range2 1 (num_epoch (small_config "train" false 3 (Fin 1)) + 1))
                       (run_epoch (small_config "train" false 3 (Fin 1)))
                       small_world))) = 2)
    by (vm_compute; reflexivity).
  destruct (@promoted_checkpoint_records_best_epoch small_backend
              (small_config "train" false 3 (Fin 1)) small_world
              ltac:(discriminate) eq_refl Hok)
    as (_ & He & Hg & _).
  rewrite Hbest in He, Hg.
  split; [discriminate |]. split; [reflexivity |]. split; [exact Hok |].
  split; [exact Hbest |]. split; [exact He | exact Hg].
Defined.

(** ** The program in its two modes *)

Lemma py_range2_cons (lo hi : Z) :
  lo < hi -> py_range2 lo hi = lo :: py_range2 (lo + 1) hi.
Proof.
  intros H. unfold py_range2.
  replace (Z.to_nat (hi - lo)) with (S (Z.to_nat (hi - (lo + 1)))) by lia.
  simpl. f_equal; [lia |].
  rewrite <- seq_shift, map_map. apply map_ext. intros i. lia.
Qed.

(** X11.  In mode ["train"] a training batch size of zero stops the run
    with [ZeroDivisionError] before any batch is trained, and no checkpoint
    is touched.  With the transformer the error comes from the computation
    of the scheduler's total steps, before ["Start training"] is logged:
    the only event is the copy of the configuration.  With a CNN or LSTM
    (and at least one epoch) it comes from the first epoch, right after
    ["Start training"]. *)
Theorem main_train_zero_batch_size {B : Backend} (cfg : Config) (w : world) :
  mode cfg = "train"%string ->
  batch_size_train cfg = 0 ->
  (use_BERT cfg = true \/ 1 <= num_epoch cfg) ->
  let w' := snd (main cfg w) in
  fst (main cfg w) = Raise ZeroDivisionError /\
  trace w' = trace w ++ (if use_BERT cfg then [EvCopyFile]
                         else [EvCopyFile; EvLog MsgStartTraining]) /\
  fs w' = fs w /\
  data_module w' = data_module w /\
  best_epoch w' = initial_best.
Proof.
  intros Hmode Hb Hcase w'. subst w'.
  assert (Hnone : forall n, num_batches n (batch_size_train cfg) = None).
  { intros n. unfold num_batches. now rewrite Hb. }
  assert (Heq : main cfg w =
                (Raise ZeroDivisionError,
                 if use_BERT cfg
                 then set_trace (trace w ++ [EvCopyFile])
                        (set_optimizer (init_adamw init_bert)
                           (set_model init_bert
                              (set_scheduler None
                                 (set_best_epoch (0, inf) w))))
                 else set_trace (trace w ++ [EvCopyFile; EvLog MsgStartTraining])
                        (set_optimizer
                           (init_adam (if String.eqb (model_type cfg) "cnn"
                                       then init_cnn true else init_lstm true))
                           (set_model (if String.eqb (model_type cfg) "cnn"
                                       then init_cnn true else init_lstm true)
                              (set_scheduler None
                                 (set_best_epoch (0, inf) w)))))).
  { unfold main. rewrite Hmode. simpl String.eqb. cbv iota.
    destruct (use_BERT cfg) eqn:Hu.
    - run_prims. rewrite Hnone. reflexivity.
    - destruct Hcase as [Hcase | HN]; [discriminate |].
      rewrite py_range2_cons by lia. unfold for_each. simpl for_fold.
      run_prims. unfold bind. rewrite run_epoch_eq, Hnone. cbn.
      rewrite <- app_assoc. reflexivity. }
  rewrite Heq. destruct (use_BERT cfg); repeat split.
Qed.

Lemma main_train_zero_batch_size_witness :
  let cfg := mkConfig "train" false "cnn" 0 2 2 1 (Fin 1) false 4
                      (tok "<pad>") (tok "<unk>") "saved" in
  mode cfg = "train"%string /\ batch_size_train cfg = 0 /\
  1 <= num_epoch cfg /\
  fst (@main small_backend cfg small_world) = Raise ZeroDivisionError /\
  trace (snd (@main small_backend cfg small_world))
    = [EvCopyFile; EvLog MsgStartTraining].
Proof.
  intros cfg.
  assert (H1 : mode cfg = "train"%string) by reflexivity.
  assert (H2 : batch_size_train cfg = 0) by reflexivity.
  assert (H3 : 1 <= num_epoch cfg) by discriminate.
  destruct (@main_train_zero_batch_size small_backend cfg small_world
              H1 H2 (or_intror H3)) as (Hraise & Htr & _).
  split; [exact H1 |]. split; [exact H2 |]. split; [exact H3 |].
  split; [exact Hraise |]. rewrite Htr. reflexivity.
Defined.



(** ** The confidence of a test record *)

Lemma leb_trans (x y z : pyfloat) :
  leb x y = true -> leb y z = true -> leb x z = true.
Proof.
  unfold leb.
  destruct x as [a | | |], y as [b | | |], z as [c | | |]; try congruence.
  destruct (Qlt_le_dec b a) as [| Hab]; [discriminate |].
  destruct (Qlt_le_dec c b) as [| Hbc]; [discriminate |].
  destruct (Qlt_le_dec c a) as [Hca |]; [| reflexivity].
  intros _ _. exfalso. apply (Qlt_irrefl c).
  apply Qlt_le_trans with a; [exact Hca |]. now apply Qle_trans with b.
Qed.

Lemma not_gtb_leb (x y : pyfloat) :
  is_nan x = false -> is_nan y = false -> gtb x y = false -> leb x y = true.
Proof.
  unfold gtb, ltb, leb.
  destruct x as [a | | |], y as [b | | |]; simpl; try congruence.
  destruct (Qlt_le_dec b a); congruence.
Qed.

(** The running maximum of [max]: it is the start value or an element met,
    and, without nan, it bounds both. *)
Lemma py_max_fold (rest : list pyfloat) :
  forall m,
  let r := fold_left (fun m y => if gtb y m then y else m) rest m in
  (r = m \/ In r rest) /\
  (is_nan m = false ->
   forallb (fun x => negb (is_nan x)) rest = true ->
   is_nan r = false /\ leb m r = true /\
   forall x, In x rest -> leb x r = true).
Proof.
  induction rest as [| y rest IH]; intros m r; subst r.
  - simpl. split; [now left |]. intros Hm _.
    split; [exact Hm |]. split; [now apply leb_refl | intros x []].
  - simpl fold_left.
    destruct (IH (if gtb y m then y else m)) as [Hin Hmax].
    split.
    + destruct Hin as [-> | Hin]; [| right; now right].
      destruct (gtb y m); [right; now left | now left].
    + intros Hm Hall. simpl in Hall.
      apply andb_true_iff in Hall as [Hy Hall].
      apply negb_true_iff in Hy.
      destruct (gtb y m) eqn:Hgt.
      * destruct (Hmax Hy Hall) as (Hr & Hyr & Hrest).
        split; [exact Hr |]. split.
        -- apply leb_trans with y; [| exact Hyr]. now apply ltb_leb.
        -- intros x [<- | Hx]; [exact Hyr | now apply Hrest].
      * destruct (Hmax Hm Hall) as (Hr & Hmr & Hrest).
        split; [exact Hr |]. split; [exact Hmr |].
        intros x [<- | Hx]; [| now apply Hrest].
        apply leb_trans with m; [| exact Hmr]. now apply not_gtb_leb.
Qed.

(** X13.  The confidence of a test record, [max(probs[idx])], is one of
    the scores of the example; it is undefined ([ValueError]) exactly when
    the example has no score; and when no score is nan, it is not nan and
    no score of the example exceeds it. *)
Theorem py_max_spec (row : scores) :
  (py_max row = None <-> row = []) /\
  forall c, py_max row = Some c ->
    In c row /\
    (forallb (fun x => negb (is_nan x)) row = true ->
     is_nan c = false /\ forall x, In x row -> leb x c = true).
Proof.
  split.
  - unfold py_max. destruct row; split; congruence.
  - intros c Hc. unfold py_max in Hc.
    destruct row as [| x rest]; [discriminate |].
    injection Hc as <-.
    destruct (py_max_fold rest x) as [Hin Hmax].
    split.
    + destruct Hin as [-> | Hin]; [now left | now right].
    + intros Hall. simpl in Hall.
      apply andb_true_iff in Hall as [Hx Hall].
      apply negb_true_iff in Hx.
      destruct (Hmax Hx Hall) as (Hr & Hxr & Hrest).
      split; [exact Hr |].
      intros y [<- | Hy]; [exact Hxr | now apply Hrest].
Qed.

Lemma py_max_spec_witness :
  py_max [Fin (1 # 4); Fin (3 # 4); Fin (1 # 2)] = Some (Fin (3 # 4)) /\
  leb (Fin (1 # 2)) (Fin (3 # 4)) = true.
Proof.
  split; [reflexivity |].
  destruct (proj2 (py_max_spec [Fin (1 # 4); Fin (3 # 4); Fin (1 # 2)])
              (Fin (3 # 4)) eq_refl) as [_ Hbound].
  apply (proj2 (Hbound eq_refl)). right. right. now left.
Defined.

(** ** A test pass with fewer labels than sentences *)

Section MissingLabels.

Context {B : Backend}.

Lemma for_fold_app {A S : Type} (l1 l2 : list A) (body : A -> S -> M S) :
  forall acc w,
  for_fold (l1 ++ l2) body acc w =
  match for_fold l1 body acc w with
  | (Ok a, w1) => for_fold l2 body a w1
  | (Raise e, w1) => (Raise e, w1)
  end.
Proof.
  induction l1 as [| x l1 IH]; intros acc w; [reflexivity |].
  simpl. unfold bind.
  destruct (body x acc w) as [[a | e] w1]; [apply IH | reflexivity].
Qed.

(** The example whose label is missing: its header and its sentence are
    logged, then the lookup of the label fails. *)
Lemma test_example_no_label (cfg : Config) (batch : Z)
    (sentences : list sentence) (labels preds : list label)
    (probs : list scores) (s : nat) (w : world) :
  (s < length sentences)%nat -> (length labels <= s)%nat ->
  test_example cfg batch sentences labels preds probs (Z.of_nat s) w
  = (Raise IndexError,
     set_trace
       (trace w ++
        [EvLog (MsgTestHeader (batch * batch_size_test cfg + (Z.of_nat s + 1)));
         EvLog (MsgSentence (list_join (nth s sentences [])))]) w).
Proof.
  intros Hs Hl. unfold test_example.
  rewrite (py_index_in_range sentences s []) by lia.
  rewrite (py_index_nat labels).
  assert (Hnone : nth_error labels s = None) by (apply nth_error_None; lia).
  rewrite Hnone. unfold or_raise. run_prims.
  rewrite <- app_assoc. reflexivity.
Qed.

Lemma test_inner_loop_no_label (cfg : Config) (batch : Z)
    (sentences : list sentence) (labels preds : list label)
    (probs : list scores) (w : world) :
  let s := length labels in
  (s < length sentences)%nat ->
  (s <= length preds)%nat -> (s <= length probs)%nat ->
  Forall (fun row => row <> []) probs ->
  for_each (py_range (len sentences))
    (test_example cfg batch sentences labels preds probs) w
  = (Raise IndexError,
     set_trace
       (trace w ++
        map EvLog
          (flat_map (test_record cfg batch sentences labels preds probs)
                    (seq 0 s)) ++
        [EvLog (MsgTestHeader (batch * batch_size_test cfg + (Z.of_nat s + 1)));
         EvLog (MsgSentence (list_join (nth s sentences [])))]) w).
Proof.
  intros s Hs Hp Hr Hne.
  unfold py_range, len. rewrite Nat2Z.id.
  replace (length sentences) with (s + S (length sentences - S s))%nat at 1 by lia.
  rewrite seq_app, map_app. simpl seq. simpl map.
  pose proof (test_inner_loop cfg batch sentences labels preds probs s 0 w
                ltac:(lia) ltac:(lia) ltac:(lia) ltac:(lia) Hne) as Hfirst.
  unfold for_each in *. rewrite for_fold_app, Hfirst.
  simpl for_fold. unfold bind.
  rewrite test_example_no_label by (cbn; lia).
  cbn. rewrite <- app_assoc. reflexivity.
Qed.

Lemma test_batch_no_label (cfg : Config) (d : DataModule) (i : Z)
    (predictions : list label) (w : world) :
  let sentences := batch_slice (test_texts d) (batch_size_test cfg) i in
  let labels := batch_slice (test_pols d) (batch_size_test cfg) i in
  let r := inference false cfg (model w) sentences in
  inference_well_formed cfg (model w) sentences ->
  (length labels < length sentences)%nat ->
  test_batch cfg d i predictions w
  = (Raise IndexError,
     set_trace
       (trace w ++
        EvInference false sentences ::
        map EvLog
          (flat_map (test_record cfg i sentences labels (fst r) (snd r))
                    (seq 0 (length labels))) ++
        [EvLog (MsgTestHeader
                  (i * batch_size_test cfg + (Z.of_nat (length labels) + 1)));
         EvLog (MsgSentence (list_join (nth (length labels) sentences [])))]) w).
Proof.
  intros sentences labels r (Hp & Hr & Hne) Hlen. subst r.
  unfold test_batch, call_inference. run_prims.
  fold sentences labels.
  destruct (inference false cfg (model w) sentences) as [ps rows].
  simpl in Hp, Hr, Hne.
  rewrite test_inner_loop_no_label by first [lia | assumption].
  cbn. rewrite <- app_assoc. reflexivity.
Qed.

(** The records of the first [s] examples of batch [i] are those of the
    positions [i * b .. i * b + s - 1] of the split. *)
Lemma test_records_prefix (cfg : Config) (texts : list sentence)
    (pols : list label) (m : params) (i s : nat) :
  0 < batch_size_test cfg ->
  let k := Z.to_nat (batch_size_test cfg) in
  let sentences := batch_slice texts (batch_size_test cfg) (Z.of_nat i) in
  let labels := batch_slice pols (batch_size_test cfg) (Z.of_nat i) in
  let r := inference false cfg m sentences in
  (s <= k)%nat ->
  flat_map (test_record cfg (Z.of_nat i) sentences labels (fst r) (snd r))
           (seq 0 s)
  = flat_map (test_record_global cfg texts pols m) (seq (i * k) s).
Proof.
  intros Hb k sentences labels r Hs. subst sentences labels r.
  rewrite (seq_from (i * k)), flat_map_map_compose.
  apply flat_map_ext_in. intros idx Hidx. apply in_seq in Hidx.
  assert (Hk : batch_size_test cfg = Z.of_nat k) by (subst k; lia).
  assert (Hdiv : ((i * k + idx) / k)%nat = i).
  { symmetry. apply (Nat.div_unique _ _ _ idx); lia. }
  assert (Hmod : ((i * k + idx) mod k)%nat = idx).
  { symmetry. apply (Nat.mod_unique _ _ i); lia. }
  unfold test_record, test_record_global. fold k. rewrite Hdiv, Hmod.
  rewrite !batch_slice_block by assumption. fold k.
  rewrite !nth_firstn, !nth_skipn.
  destruct (Nat.ltb_spec idx k) as [_ | Hge]; [| lia].
  f_equal. f_equal. rewrite Hk. lia.
Qed.

(** The records of the first [c] batches, all of them full. *)
Lemma test_log_full_batches (cfg : Config) (texts : list sentence)
    (pols : list label) (m : params) (c : nat) :
  0 < batch_size_test cfg ->
  let k := Z.to_nat (batch_size_test cfg) in
  (c * k <= length texts)%nat ->
  concat (map (test_batch_log cfg texts pols m) (map Z.of_nat (seq 0 c)))
  = flat_map (test_record_global cfg texts pols m) (seq 0 (c * k)).
Proof.
  intros Hb k. induction c as [| c IH]; intros Hc; [reflexivity |].
  rewrite seq_S, !map_app, concat_app, IH by lia.
  simpl. rewrite app_nil_r.
  rewrite test_batch_log_global by assumption. fold k.
  rewrite batch_slice_length by assumption. fold k.
  replace (Nat.min k (length texts - c * k)) with k by lia.
  replace (k + c * k)%nat with (c * k + k)%nat by lia.
  now rewrite seq_app, flat_map_app.
Qed.

End MissingLabels.

(** X14.  For a positive test batch size, when the test split has fewer
    labels than sentences (and [inference] answers every batch with one
    prediction and one non-empty score vector per sentence), the test pass
    raises [IndexError] at the
    first sentence without a label: the complete records of the sentences
    before it have been logged, then the header and the sentence of that
    one, and nothing after; no test accuracy is logged. *)
Theorem test_model_missing_labels {B : Backend} (cfg : Config) (w : world) :
  let d := test_data cfg (data_module w) in
  let texts := test_texts d in
  let pols := test_pols d in
  0 < batch_size_test cfg ->
  (length pols < length texts)%nat ->
  (forall batch, 0 <= batch ->
     inference_well_formed cfg (model w)
       (batch_slice texts (batch_size_test cfg) batch)) ->
  fst (test_model cfg w) = Raise IndexError /\
  exists ev,
    trace (snd (test_model cfg w)) = trace w ++ ev /\
    log_of ev
    = flat_map (test_record_global cfg texts pols (model w))
               (seq 0 (length pols))
      ++ [MsgTestHeader (len pols + 1);
          MsgSentence (list_join (nth (length pols) texts []))].
Proof.
  intros d texts pols Hb Hlen Hwf.
  set (k := Z.to_nat (batch_size_test cfg)).
  assert (Hk : batch_size_test cfg = Z.of_nat k) by (subst k; lia).
  assert (Hk0 : (0 < k)%nat) by lia.
  set (i0 := (length pols / k)%nat).
  set (s0 := (length pols mod k)%nat).
  assert (Hp : length pols = (i0 * k + s0)%nat).
  { subst i0 s0. rewrite (Nat.div_mod_eq (length pols) k) at 1. lia. }
  assert (Hs0 : (s0 < k)%nat) by (subst s0; apply Nat.mod_upper_bound; lia).
  destruct (num_batches (len texts) (batch_size_test cfg)) as [nb |] eqn:Hnb.
  2:{ apply num_batches_none in Hnb. lia. }
  pose proof (num_batches_ceil _ _ _ Hb Hnb) as Hceil. unfold len in Hceil.
  assert (Hi0 : (i0 < Z.to_nat nb)%nat) by nia.
  (* the batches before the one that fails *)
  assert (Hall : Forall (test_batch_ok cfg texts pols (model w))
                        (map Z.of_nat (seq 0 i0))).
  { apply List.Forall_forall. intros batch Hin.
    apply in_map_iff in Hin as (j & <- & Hj). apply in_seq in Hj.
    split; [apply Hwf; lia |].
    rewrite !batch_slice_length by assumption. fold k. nia. }
  (* the batch that fails *)
  assert (Hlab : length (batch_slice pols (batch_size_test cfg) (Z.of_nat i0)) = s0).
  { rewrite batch_slice_length by assumption. fold k. nia. }
  assert (Hsen : (s0 < length (batch_slice texts (batch_size_test cfg)
                                           (Z.of_nat i0)))%nat).
  { rewrite batch_slice_length by assumption. fold k. nia. }
  assert (Hrun : test_model cfg w =
    (Raise IndexError,
     set_trace
       (trace w ++
        concat (map (test_batch_events cfg texts pols (model w))
                    (map Z.of_nat (seq 0 i0))) ++
        EvInference false (batch_slice texts (batch_size_test cfg) (Z.of_nat i0)) ::
        map EvLog
          (flat_map
             (test_record cfg (Z.of_nat i0)
                (batch_slice texts (batch_size_test cfg) (Z.of_nat i0))
                (batch_slice pols (batch_size_test cfg) (Z.of_nat i0))
                (fst (inference false cfg (model w)
                        (batch_slice texts (batch_size_test cfg) (Z.of_nat i0))))
                (snd (inference false cfg (model w)
                        (batch_slice texts (batch_size_test cfg) (Z.of_nat i0)))))
             (seq 0 s0)) ++
        [EvLog (MsgTestHeader
                  (Z.of_nat i0 * batch_size_test cfg + (Z.of_nat s0 + 1)));
         EvLog (MsgSentence
                  (list_join
                     (nth s0 (batch_slice texts (batch_size_test cfg)
                                          (Z.of_nat i0)) [])))])
       (set_data d w))).
  { subst texts pols d. unfold test_model, test_data in *.
    destruct w as [dm m g o sc be f r t].
    destruct (test_on_val cfg); run_prims; cbn in Hnb, Hall, Hlab, Hsen, Hwf |- *;
      rewrite Hnb; unfold or_raise; run_prims;
      unfold py_range;
      replace (Z.to_nat nb) with (i0 + S (Z.to_nat nb - S i0))%nat by lia;
      rewrite seq_app, map_app; simpl seq; simpl map;
      rewrite for_fold_app, test_outer_loop by exact Hall;
      simpl for_fold; unfold bind;
      (rewrite test_batch_no_label;
       [| apply Hwf; lia | cbn; rewrite Hlab; exact Hsen]);
      cbn; rewrite Hlab, <- !app_assoc; reflexivity. }
  rewrite Hrun. split; [reflexivity |].
  eexists. split; [reflexivity |].
  unfold log_of. rewrite omap_app.
  change (omap _ (concat ?l)) with (log_of (concat l)).
  rewrite log_of_test_batches.
  change (omap ?g (?e :: ?r))
    with (match g e with Some y => y :: omap g r | None => omap g r end).
  cbv beta iota. rewrite omap_app.
  change (omap _ (map EvLog ?x)) with (log_of (map EvLog x)).
  rewrite log_of_logs. cbn [omap list_omap].
  rewrite test_log_full_batches by first [assumption | fold k; lia].
  rewrite (test_records_prefix cfg texts pols (model w) i0 s0 Hb)
    by (fold k; lia).
  fold k. rewrite app_assoc, <- flat_map_app, <- seq_app, <- Hp.
  f_equal. f_equal.
  - f_equal. unfold len. rewrite Hk, Hp. lia.
  - f_equal.
    rewrite batch_slice_block by assumption. fold k.
    rewrite nth_firstn, nth_skipn.
    destruct (Nat.ltb_spec s0 k) as [_ | Hge]; [| lia].
    now rewrite Hp.
Qed.

Lemma test_model_missing_labels_witness :
  let cfg := small_config "test" false 1 (Fin 1) in
  let w := short_labels_world in
  0 < batch_size_test cfg /\
  (length (test_pols (data_module w)) < length (test_texts (data_module w)))%nat /\
  fst (@test_model small_backend cfg w) = Raise IndexError /\
  exists ev,
    trace (snd (@test_model small_backend cfg w)) = trace w ++ ev /\
    log_of ev
    = [MsgTestHeader 1; MsgSentence "nice one"; MsgLabel 1; MsgPrediction 1;
       MsgConfidence (Fin (9 # 10));
       MsgTestHeader 2; MsgSentence "awful"].
Proof.
  intros cfg w.
  assert (Hb : 0 < batch_size_test cfg) by reflexivity.
  assert (Hlen : (length (test_pols (data_module w))
                  < length (test_texts (data_module w)))%nat) by (simpl; lia).
  destruct (@test_model_missing_labels small_backend cfg w Hb Hlen
              (fun batch _ => small_inference_well_formed cfg _ _))
    as (Hraise & ev & Htr & Hlog).
  split; [exact Hb |]. split; [exact Hlen |]. split; [exact Hraise |].
  exists ev. split; [exact Htr |]. rewrite Hlog. reflexivity.
Defined.

(** ** Steps over a whole training loop *)

Lemma py_range2_app (lo mid hi : Z) :
  lo <= mid <= hi -> py_range2 lo mid ++ py_range2 mid hi = py_range2 lo hi.
Proof.
  intros H. unfold py_range2.
  replace (Z.to_nat (hi - lo))
    with (Z.to_nat (mid - lo) + Z.to_nat (hi - mid))%nat by lia.
  rewrite seq_app, map_app. f_equal.
  rewrite (seq_from (0 + Z.to_nat (mid - lo))), map_map.
  apply map_ext. intros i. lia.
Qed.

Section LoopSteps.

Context {B : Backend}.

Lemma shuffled_length (w : world) :
  shuffle_keeps_length ->
  length (train_texts (data_module (shuffled w)))
  = length (train_texts (data_module w)).
Proof.
  intros Hsh. destruct (shuffled_data w) as (_ & Htrain & _).
  apply (f_equal fst) in Htrain. simpl in Htrain. rewrite Htrain.
  apply Hsh.
Qed.

Lemma run_epoch_scheduler_kept (cfg : Config) (epoch : Z) (w : world) :
  fst (run_epoch cfg epoch w) = Ok tt ->
  is_Some (scheduler w) -> is_Some (scheduler (snd (run_epoch cfg epoch w))).
Proof.
  intros Hok. pose proof (run_epoch_spec cfg epoch w) as Hrun.
  rewrite Hok in Hrun. now inversion Hrun.
Qed.

Lemma epochs_loop_counts (cfg : Config) (nb : Z) (w1 : world) :
  0 < batch_size_train cfg ->
  num_batches (len (train_texts (data_module w1))) (batch_size_train cfg)
    = Some nb ->
  shuffle_keeps_length ->
  (use_BERT cfg = true -> is_Some (scheduler w1)) ->
  let l := py_range2 1 (num_epoch cfg + 1) in
  match for_each l (run_epoch cfg) w1 with
  | (Ok _, w') =>
      length (optimizer_steps (trace w'))
        = (length (optimizer_steps (trace w1)) + length l * Z.to_nat nb)%nat /\
      scheduler_steps (trace w')
        = (scheduler_steps (trace w1)
           + if use_BERT cfg then length l * Z.to_nat nb else 0)%nat /\
      batch_loss_steps (trace w')
        = batch_loss_steps (trace w1)
            ++ py_range2 nb ((Z.of_nat (length l) + 1) * nb)
  | (Raise _, _) => True
  end.
Proof.
  intros Hb Hnb Hsh Hs1 l.
  assert (Hnb0 : 0 <= nb).
  { eapply num_batches_nonneg; [exact Hb | | exact Hnb]. unfold len. lia. }
  pose (I := fun (done : list Z) (_ : unit) (w : world) =>
    length (train_texts (data_module w)) = length (train_texts (data_module w1)) /\
    (use_BERT cfg = true -> is_Some (scheduler w)) /\
    length (optimizer_steps (trace w))
      = (length (optimizer_steps (trace w1)) + length done * Z.to_nat nb)%nat /\
    scheduler_steps (trace w)
      = (scheduler_steps (trace w1)
         + if use_BERT cfg then length done * Z.to_nat nb else 0)%nat /\
    batch_loss_steps (trace w)
      = batch_loss_steps (trace w1)
          ++ py_range2 nb ((Z.of_nat (length done) + 1) * nb)).
  assert (Hstep : forall done x rest (acc : unit) w,
             l = done ++ x :: rest -> I done acc w ->
             match run_epoch cfg x w with
             | (Ok acc', w') => I (done ++ [x]) acc' w'
             | (Raise e, w') => True
             end).
  { intros done x rest [] w Hl (Hlen & Hs & Hopt & Hsch & Hsteps).
    pose proof (py_range2_split _ _ _ _ _ Hl) as (Hx & _ & Hdone).
    assert (Hnbw : num_batches (len (train_texts (data_module w)))
                               (batch_size_train cfg) = Some nb)
      by (unfold len in *; rewrite Hlen; exact Hnb).
    pose proof (run_epoch_counts cfg x nb w Hb Hnbw
                  (fun Hu => conj (Hs Hu) (shuffled_length w Hsh)))
      as (Hopt' & Hsch' & _ & Hsteps').
    cbn zeta in Hsteps'. rewrite (py_range_shift (x * nb) nb) in Hsteps'.
    replace (x * nb + nb) with ((x + 1) * nb) in Hsteps' by lia.
    pose proof (run_epoch_data cfg x w) as Hdata. rewrite Hnbw in Hdata.
    pose proof (run_epoch_scheduler_kept cfg x w) as Hkept.
    destruct (run_epoch cfg x w) as [[[] | e] w2]; [| exact Logic.I].
    simpl in Hopt', Hsch', Hsteps', Hdata, Hkept.
    unfold I. rewrite Hopt', Hsch', Hsteps', Hopt, Hsch, Hsteps, Hdata.
    rewrite length_app. simpl length.
    split; [rewrite shuffled_length by exact Hsh; exact Hlen |].
    split; [intros Hu; apply Hkept; [reflexivity | exact (Hs Hu)] |].
    split; [lia |]. split; [destruct (use_BERT cfg); lia |].
    rewrite <- app_assoc. f_equal.
    replace (Z.of_nat (length done) + 1) with x by lia.
    replace (Z.of_nat (length done + 1) + 1) with (x + 1) by lia.
    apply py_range2_app. nia. }
  assert (Hinit : I [] tt w1).
  { unfold I. simpl. rewrite Z.mul_1_l.
    replace (py_range2 nb nb) with (@nil Z)
      by (unfold py_range2; now rewrite Z.sub_diag).
    rewrite app_nil_r. repeat split; auto; try lia.
    destruct (use_BERT cfg); lia. }
  pose proof (for_fold_inv I (fun _ _ => True) l
                (fun x (_ : unit) => run_epoch cfg x) Hstep tt w1 Hinit) as Hloop.
  unfold for_each.
  destruct (for_fold l (fun x (_ : unit) => run_epoch cfg x) tt w1)
    as [[[] | e] w']; [| exact Logic.I].
  destruct Hloop as (_ & _ & Hopt & Hsch & Hsteps). auto.
Qed.

End LoopSteps.

(** X15.  When the loop over the epochs completes (positive training batch
    size, [shuffle_lists] keeping the length of the split, a scheduler at
    hand for the transformer), the optimizer has stepped
    [num_epoch * nb] times, where [nb] is the number of training batches;
    with the transformer the scheduler has stepped as many times, which is
    the [total_steps] its schedule was built for, and with a CNN or LSTM it
    has not stepped at all.  The batch losses reach the summary writer
    under the consecutive steps [nb .. (num_epoch + 1) * nb - 1], none
    repeated or skipped. *)
Theorem training_loop_steps {B : Backend} (cfg : Config) (nb : Z)
    (w1 : world) :
  0 < batch_size_train cfg ->
  num_batches (len (train_texts (data_module w1))) (batch_size_train cfg)
    = Some nb ->
  shuffle_keeps_length ->
  (use_BERT cfg = true -> is_Some (scheduler w1)) ->
  let r := for_each (py_range2 1 (num_epoch cfg + 1)) (run_epoch cfg) w1 in
  fst r = Ok tt ->
  let total := (Z.to_nat (num_epoch cfg) * Z.to_nat nb)%nat in
  length (optimizer_steps (trace (snd r)))
    = (length (optimizer_steps (trace w1)) + total)%nat /\
  scheduler_steps (trace (snd r))
    = (scheduler_steps (trace w1) + if use_BERT cfg then total else 0)%nat /\
  (0 <= num_epoch cfg ->
   Z.of_nat total = num_epoch cfg * nb /\
   batch_loss_steps (trace (snd r))
   = batch_loss_steps (trace w1) ++ py_range2 nb ((num_epoch cfg + 1) * nb)).
Proof.
  intros Hb Hnb Hsh Hs r Hok total. subst r total.
  pose proof (epochs_loop_counts cfg nb w1 Hb Hnb Hsh Hs) as Hloop.
  cbn zeta in Hloop.
  assert (Hnb0 : 0 <= nb).
  { eapply num_batches_nonneg; [exact Hb | | exact Hnb]. unfold len. lia. }
  destruct (for_each _ _ w1) as [[[] | e] w']; [| discriminate]. simpl.
  rewrite py_range2_length in Hloop.
  replace (Z.to_nat (num_epoch cfg + 1 - 1)) with (Z.to_nat (num_epoch cfg))
    in Hloop by lia.
  destruct Hloop as (Hopt & Hsch & Hsteps).
  split; [exact Hopt |]. split; [exact Hsch |].
  intros HN. split; [nia |].
  rewrite Hsteps. now rewrite Z2Nat.id by lia.
Qed.

Lemma training_loop_steps_witness :
  let cfg := small_config "train" false 3 (Fin 1) in
  let r := @for_each small_backend _ (py_range2 1 (num_epoch cfg + 1))
             (run_epoch cfg) small_world in
  0 < batch_size_train cfg /\
  @shuffle_keeps_length small_backend /\
  fst r = Ok tt /\
  length (optimizer_steps (trace (snd r))) = 3%nat /\
  scheduler_steps (trace (snd r)) = 0%nat /\
  batch_loss_steps (trace (snd r)) = [1; 2; 3].
Proof.
  intros cfg r.
  assert (Hsh : @shuffle_keeps_length small_backend).
  { intros rs texts pols. simpl. apply length_rev. }
  assert (Hok : fst r = Ok tt) by (vm_compute; reflexivity).
  destruct (@training_loop_steps small_backend cfg 1 small_world
              eq_refl eq_refl Hsh ltac:(discriminate) Hok)
    as (Hopt & Hsch & Hsteps).
  split; [reflexivity |]. split; [exact Hsh |]. split; [exact Hok |].
  destruct (Hsteps ltac:(discriminate)) as [_ Hlist].
  fold cfg in Hopt, Hsch, Hlist. fold r in Hopt, Hsch, Hlist.
  split; [rewrite Hopt; reflexivity |].
  split; [rewrite Hsch; reflexivity |].
  rewrite Hlist. reflexivity.
Defined.

(** ** The model a training run ends with *)

Section FinalModel.

Context {B : Backend}.

(** A run in mode ["train"] stops at the initialisation, or goes through
    the loop over the epochs from a state with the data and the checkpoints
    it started with and the initial best-epoch record. *)
Lemma main_train_eq (cfg : Config) (w0 : world) :
  mode cfg = "train"%string ->
  (exists w1,
     use_BERT cfg = true /\ batch_size_train cfg = 0 /\ fs w1 = fs w0 /\
     main cfg w0 = (Raise ZeroDivisionError, w1)) \/
  (exists w1,
     fs w1 = fs w0 /\ best_epoch w1 = initial_best /\
     data_module w1 = data_module w0 /\
     trace w1 = trace w0 ++ [EvCopyFile; EvLog MsgStartTraining] /\
     main cfg w0 =
     match for_each (py_range2 1 (num_epoch cfg + 1)) (run_epoch cfg) w1 with
     | (Ok _, w2) =>
         (log_info MsgFinishedTraining ;;
          load_model e_best ;;
          test_model cfg) w2
     | (Raise e, w2) => (Raise e, w2)
     end).
Proof.
  intros Hmode. unfold main. rewrite Hmode. simpl String.eqb. cbv iota.
  destruct (use_BERT cfg); run_prims.
  - destruct (num_batches _ _) as [nb |] eqn:Hnb; unfold or_raise; run_prims.
    + right. eexists.
      split; [| split; [| split; [| split; [| reflexivity]]]];
        try reflexivity.
      cbn. now rewrite <- app_assoc.
    + left. eexists. apply num_batches_none in Hnb.
      split; [reflexivity |]. split; [exact Hnb |].
      split; [| reflexivity]. reflexivity.
  - right. eexists.
    split; [| split; [| split; [| split; [| reflexivity]]]];
      try reflexivity.
    cbn. now rewrite <- app_assoc.
Qed.

(** The end of a training run: the model of [e_best] is loaded and
    tested. *)
Lemma main_finish_eq (cfg : Config) (w2 : world) :
  (log_info MsgFinishedTraining ;; load_model e_best ;; test_model cfg) w2 =
  match fs w2 !! e_best with
  | Some (Some c) =>
      test_model cfg
        (set_trace (trace w2 ++ [EvLog MsgFinishedTraining; EvLoadModel e_best])
           (set_model (model_state_dict c) w2))
  | _ => (Raise (FileNotFoundError e_best),
          set_trace (trace w2 ++ [EvLog MsgFinishedTraining]) w2)
  end.
Proof.
  unfold load_model. run_prims.
  destruct (fs w2 !! e_best) as [[c |] |]; run_prims;
    rewrite <- ?app_assoc; reflexivity.
Qed.

End FinalModel.

(** X16.  When a run in mode ["train"] of at least one epoch, started
    without an [epoch_0] directory, returns normally, the model it ends
    with, which is the one the final test pass used, carries the
    parameters of the checkpoint in [e_best], and that checkpoint records
    the epoch of the best-epoch record: the run ends on the best epoch's
    model, not on the last epoch's. *)
Theorem main_train_final_model {B : Backend} (cfg : Config) (w0 : world) :
  mode cfg = "train"%string ->
  1 <= num_epoch cfg ->
  fs w0 !! epoch_dir 0 = None ->
  fst (main cfg w0) = Ok tt ->
  let w' := snd (main cfg w0) in
  let k := fst (best_epoch w') in
  1 <= k <= num_epoch cfg /\
  exists c,
    fs w' !! e_best = Some (Some c) /\
    ckpt_epoch c = k /\
    model w' = model_state_dict c.
Proof.
  intros Hmode HN Hfresh Hok w' k. subst w' k.
  destruct (main_train_eq cfg w0 Hmode)
    as [(w1 & _ & _ & _ & Heq) | (w1 & Hfs & Hbest & _ & _ & Heq)];
    rewrite Heq in Hok |- *; [discriminate |].
  clear Heq.
  pose proof (epochs_loop_checkpoints cfg w1) as Hloop.
  rewrite Hbest, Hfs in Hloop. specialize (Hloop Hfresh). cbn zeta in Hloop.
  destruct (for_each _ _ w1) as [[[] | e] w2]; [| discriminate].
  destruct Hloop as [(Hn & _) | (_ & Hk & (c & Hc & Hck) & _)].
  { exfalso. apply Hn, py_range2_In. lia. }
  apply py_range2_In in Hk.
  rewrite main_finish_eq, Hc.
  match goal with
  | |- context [test_model cfg ?w3] =>
      pose proof (test_model_only_test_events cfg w3)
        as (_ & Hm & _ & _ & _ & Hb & Hf & _)
  end.
  cbn in Hm, Hb, Hf. rewrite Hb, Hf, Hm.
  split; [lia |]. exists c. repeat split; assumption.
Qed.

Lemma main_train_final_model_witness :
  let cfg := small_config "train" false 3 (Fin 1) in
  mode cfg = "train"%string /\ 1 <= num_epoch cfg /\
  fs small_world !! epoch_dir 0 = None /\
  fst (@main small_backend cfg small_world) = Ok tt /\
  fst (best_epoch (snd (@main small_backend cfg small_world))) = 2 /\
  model (snd (@main small_backend cfg small_world)) = 2.
Proof.
  intros cfg.
  assert (H1 : mode cfg = "train"%string) by reflexivity.
  assert (H2 : 1 <= num_epoch cfg) by discriminate.
  assert (H3 : fs small_world !! epoch_dir 0 = None) by reflexivity.
  assert (Hok : fst (@main small_backend cfg small_world) = Ok tt)
    by (vm_compute; reflexivity).
  assert (Hk : fst (best_epoch (snd (@main small_backend cfg small_world))) = 2)
    by (vm_compute; reflexivity).
  destruct (@main_train_final_model small_backend cfg small_world H1 H2 H3 Hok)
    as (_ & c & Hc & Hck & Hm).
  split; [exact H1 |]. split; [exact H2 |]. split; [exact H3 |].
  split; [exact Hok |]. split; [exact Hk |].
  vm_compute. reflexivity.
Defined.

(** ** What a validation pass changes *)

(** X17.  Whatever its outcome, a validation pass changes only the
    best-epoch record and the trace: the data, the model and its
    gradients, the optimizer, the scheduler and the checkpoints are as
    before, and it neither calls the model for training, nor steps the
    optimizer, nor saves or renames a checkpoint.  The record is either
    kept or replaced by the current epoch with a loss strictly below the
    one recorded. *)
Theorem eval_model_effect {B : Backend} (cfg : Config) (epoch : Z)
    (w : world) :
  let w' := snd (eval_model cfg epoch w) in
  data_module w' = data_module w /\
  model w' = model w /\
  model_grads w' = model_grads w /\
  optimizer w' = optimizer w /\
  scheduler w' = scheduler w /\
  fs w' = fs w /\
  (best_epoch w' = best_epoch w \/
   (fst (best_epoch w') = epoch /\
    ltb (snd (best_epoch w')) (snd (best_epoch w)) = true)) /\
  exists ev,
    trace w' = trace w ++ ev /\
    forward_calls ev = [] /\ optimizer_steps ev = [] /\ key_events ev = [].
Proof.
  intros w'. subst w'.
  destruct (num_batches (len (val_texts (data_module w))) (batch_size_val cfg))
    as [nb |] eqn:Hnb.
  - rewrite (eval_model_eq cfg epoch nb w Hnb). cbn.
    repeat split.
    + match goal with
      | |- context [update_best ?b ?e ?l] =>
          destruct (update_best_cases b e l) as [[Hlt Hu] | [_ Hu]];
          rewrite Hu; [right | left]
      end; [split; [reflexivity | exact Hlt] | reflexivity].
    + eexists. split; [reflexivity |].
      unfold forward_calls, optimizer_steps, key_events.
      rewrite !omap_app, !omap_map_ignored by reflexivity.
      repeat split.
  - rewrite (eval_model_zero_division cfg epoch w Hnb). cbn.
    repeat split; auto. exists []. rewrite app_nil_r. repeat split.
Qed.

(** ** A transformer epoch without a scheduler *)

(** [run_prims] in a hypothesis. *)
Ltac run_prims_in H :=
  cbv [bind get modify emit log_info ret raise] in H; cbn in H.

(** X18.  [run_epoch] takes its scheduler as an optional argument.  With
    the transformer and no scheduler, a training batch raises
    [AttributeError] at [scheduler.step()], that is, only after the
    optimizer has stepped: the model has already been updated with the
    gradient of the batch, while the loss of the batch is never logged. *)
Theorem train_batch_without_scheduler {B : Backend} (cfg : Config)
    (epoch nb batch : Z) (total_loss : list pyfloat) (w : world) inputs masks :
  let d := data_module w in
  let labels := batch_slice (train_pols d) (batch_size_train cfg) batch in
  let g := stepped_gradient cfg (model w) inputs masks labels in
  let r := train_batch cfg epoch nb batch total_loss w in
  use_BERT cfg = true ->
  scheduler w = None ->
  encode_batch cfg (batch_slice (train_texts d) (batch_size_train cfg) batch)
    = Some (inputs, masks) ->
  fst r = Raise AttributeError /\
  optimizer_steps (trace (snd r)) = optimizer_steps (trace w) ++ [g] /\
  model (snd r) = snd (optimizer_step (optimizer w) (model w) g) /\
  scheduler_steps (trace (snd r)) = scheduler_steps (trace w) /\
  train_batch_logs (trace (snd r)) = train_batch_logs (trace w).
Proof.
  intros d labels g r Hu Hs Henc. subst r g labels d.
  pose proof (train_batch_step cfg epoch nb batch total_loss w inputs masks Henc)
    as (Hopt & Hmodel & _ & _).
  assert (Hrest :
            fst (train_batch cfg epoch nb batch total_loss w)
              = Raise AttributeError /\
            scheduler_steps (trace (snd (train_batch cfg epoch nb batch total_loss w)))
              = scheduler_steps (trace w) /\
            train_batch_logs (trace (snd (train_batch cfg epoch nb batch total_loss w)))
              = train_batch_logs (trace w)).
  { destruct (train_batch cfg epoch nb batch total_loss w) as [r1 w1] eqn:E.
    unfold train_batch in E. run_prims_in E.
    rewrite Henc in E. unfold or_raise in E. run_prims_in E.
    unfold do_optimizer_step, do_scheduler_step in E. rewrite Hu in E.
    run_prims_in E.
    destruct (gtb (clip_norm cfg) (of_Z 0)); run_prims_in E;
      destruct (optimizer_step _ _ _) as [o p]; run_prims_in E;
      rewrite Hs in E; injection E as <- <-;
      unfold scheduler_steps, train_batch_logs; cbn;
      rewrite ?omap_app; cbn; rewrite ?app_nil_r; repeat split. }
  destruct Hrest as (Hraise & Hsch & Hlog).
  repeat split; assumption.
Qed.

Lemma train_batch_without_scheduler_witness :
  let cfg := small_config "train" true 1 (Fin 1) in
  use_BERT cfg = true /\ scheduler small_world = None /\
  fst (@train_batch small_backend cfg 1 1 0 [] small_world)
    = Raise AttributeError /\
  model (snd (@train_batch small_backend cfg 1 1 0 [] small_world)) = 1.
Proof.
  intros cfg.
  destruct (@train_batch_without_scheduler small_backend cfg 1 1 0 []
              small_world [[4; 4]; [3]] [[1; 1]; [1]] eq_refl eq_refl eq_refl)
    as (Hraise & _ & Hmodel & _).
  split; [reflexivity |]. split; [reflexivity |].
  split; [exact Hraise |]. rewrite Hmodel. reflexivity.
Defined.

(** ** An epoch without a training batch *)

(** X19.  An epoch with no training batch, because the training split is
    empty or the batch size is negative, is not an error: with a non-zero
    validation batch size it logs a training loss of nan, runs the
    validation pass and, when it is not the
    last epoch, saves a checkpoint of the model and optimizer it started
    with, both unchanged. *)
Theorem run_epoch_without_batches {B : Backend} (cfg : Config) (epoch : Z)
    (w : world) :
  (train_texts (data_module w) = [] /\ batch_size_train cfg <> 0) \/
  batch_size_train cfg < 0 ->
  batch_size_val cfg <> 0 ->
  epoch <> num_epoch cfg ->
  let r := run_epoch cfg epoch w in
  fst r = Ok tt /\
  model (snd r) = model w /\
  optimizer (snd r) = optimizer w /\
  fs (snd r)
  = <[epoch_dir epoch := Some (mkCheckpoint epoch (model w) (optimizer w))]> (fs w) /\
  exists ev,
    trace (snd r) = trace w ++ ev /\
    In (EvLog (MsgTrainEpoch epoch NaN)) ev /\
    In (EvSave epoch) ev /\
    val_log ev <> [].
Proof.
  intros Hcase Hval Hlast r. subst r.
  assert (Hnb : exists nb,
             num_batches (len (train_texts (data_module w))) (batch_size_train cfg)
               = Some nb /\ nb <= 0).
  { destruct Hcase as [[Hempty Hb] | Hb].
    - exists 0. rewrite Hempty. split; [now apply num_batches_empty | lia].
    - eexists. split; [apply num_batches_nonzero; lia |].
      eapply num_batches_negative; [exact Hb | | apply num_batches_nonzero; lia].
      unfold len. lia. }
  destruct Hnb as (nb & Hnb & Hle).
  rewrite run_epoch_eq, Hnb, py_range_nonpos by exact Hle.
  simpl for_fold. unfold ret. cbn zeta.
  rewrite (num_batches_nonzero _ _ Hval).
  apply Z.eqb_neq in Hlast. rewrite Hlast.
  destruct (shuffled_fields w) as (Ht & Hf & _ & _ & Hm).
  destruct (shuffled_data w) as (_ & _ & _ & Ho).
  cbn. rewrite Ht, Hf, Hm, Ho.
  repeat split.
  eexists. split; [rewrite <- !app_assoc; reflexivity |].
  split; [now left |]. split.
  - do 3 (apply in_or_app; right). right. now left.
  - unfold val_log. rewrite !omap_app, omap_map_ignored by reflexivity.
    cbn. discriminate.
Qed.

Lemma run_epoch_without_batches_witness :
  let cfg := small_config "train" false 3 (Fin 1) in
  (train_texts (data_module empty_world) = [] /\ batch_size_train cfg <> 0) /\
  batch_size_val cfg <> 0 /\ 1 <> num_epoch cfg /\
  fst (@run_epoch small_backend cfg 1 empty_world) = Ok tt /\
  fs (snd (@run_epoch small_backend cfg 1 empty_world)) !! epoch_dir 1
    = Some (Some (@mkCheckpoint small_backend 1 0 tt)).
Proof.
  intros cfg.
  assert (H1 : train_texts (data_module empty_world) = [] /\
               batch_size_train cfg <> 0) by (split; [reflexivity | discriminate]).
  assert (H2 : batch_size_val cfg <> 0) by discriminate.
  assert (H3 : 1 <> num_epoch cfg) by discriminate.
  destruct (@run_epoch_without_batches small_backend cfg 1 empty_world
              (or_introl H1) H2 H3) as (Hok & _ & _ & Hfs & _).
  split; [exact H1 |]. split; [exact H2 |]. split; [exact H3 |].
  split; [exact Hok |]. rewrite Hfs. apply lookup_insert_eq.
Defined.

(** ** Training over a leftover [e_best], and training for no epoch *)

Section Leftover.

Context {B : Backend}.

(** An epoch leaves a checkpoint found in [e_best] where it is, and it
    cannot complete when it is the last one. *)
Lemma run_epoch_leftover_best (cfg : Config) (epoch : Z) (w : world)
    (c : checkpoint) :
  fs w !! e_best = Some (Some c) ->
  fs (snd (run_epoch cfg epoch w)) !! e_best = Some (Some c) /\
  (fst (run_epoch cfg epoch w) = Ok tt -> epoch <> num_epoch cfg).
Proof.
  intros Hc. pose proof (run_epoch_spec cfg epoch w) as Hrun.
  destruct (run_epoch cfg epoch w) as [r w']. simpl in Hrun |- *.
  inversion Hrun as [e w2 ev Htr Hv Hbl Hk Hfs Hb Hab
                    | r2 w2 ev loss c' tail Htr Hv Hbl Hbest Hk Hpromo Hs];
    subst.
  - split; [congruence | discriminate].
  - unfold promotion in Hpromo.
    destruct (Z.eqb_spec epoch (num_epoch cfg)) as [HeN | HeN].
    + rewrite (lookup_insert_ne _ (epoch_dir epoch) e_best), Hc in Hpromo
        by discriminate.
      destruct (_ !! epoch_dir (fst (best_epoch w'))) as [x |];
        injection Hpromo as <- _ <-;
        (split; [| discriminate]);
        rewrite lookup_insert_ne by discriminate; exact Hc.
    + injection Hpromo as <- _ <-.
      split; [| intros _; exact HeN].
      rewrite lookup_insert_ne by discriminate. exact Hc.
Qed.

Lemma epochs_loop_leftover_best (cfg : Config) (w1 : world) (c : checkpoint) :
  1 <= num_epoch cfg ->
  fs w1 !! e_best = Some (Some c) ->
  let r := for_each (py_range2 1 (num_epoch cfg + 1)) (run_epoch cfg) w1 in
  (exists e, fst r = Raise e) /\ fs (snd r) !! e_best = Some (Some c).
Proof.
  intros HN Hc r. subst r.
  pose (I := fun (done : list Z) (_ : unit) (w : world) =>
               fs w !! e_best = Some (Some c) /\ ~ In (num_epoch cfg) done).
  pose (E := fun (_ : exn) (w : world) => fs w !! e_best = Some (Some c)).
  assert (Hstep : forall done x rest (acc : unit) w,
             py_range2 1 (num_epoch cfg + 1) = done ++ x :: rest ->
             I done acc w ->
             match run_epoch cfg x w with
             | (Ok acc', w') => I (done ++ [x]) acc' w'
             | (Raise e, w') => E e w'
             end).
  { intros done x rest [] w _ [Hw Hdone].
    destruct (run_epoch_leftover_best cfg x w c Hw) as [Hkeep Hlast].
    destruct (run_epoch cfg x w) as [[[] | e] w']; simpl in Hkeep, Hlast;
      [| exact Hkeep].
    split; [exact Hkeep |].
    intros Hin. apply in_app_or in Hin as [Hin | [Hin | []]];
      [contradiction | now apply Hlast]. }
  pose proof (for_fold_inv I E _ (fun x (_ : unit) => run_epoch cfg x)
                Hstep tt w1 (conj Hc (fun H => H))) as Hloop.
  unfold for_each.
  destruct (for_fold _ _ tt w1) as [[[] | e] w']; simpl.
  - destruct Hloop as [_ Hn]. exfalso. apply Hn, py_range2_In. lia.
  - split; [now exists e | exact Hloop].
Qed.

End Leftover.

(** X20.  A run in mode ["train"] of at least one epoch that finds a
    checkpoint in [e_best], left by an earlier run, never returns normally:
    if no epoch fails before, the promotion of the last epoch does, since
    [os.rename] does not replace a directory that holds a file.  The
    checkpoint found in [e_best] is still there when the run stops. *)
Theorem main_train_leftover_best {B : Backend} (cfg : Config) (w0 : world)
    (c : checkpoint) :
  mode cfg = "train"%string ->
  1 <= num_epoch cfg ->
  fs w0 !! e_best = Some (Some c) ->
  (exists e, fst (main cfg w0) = Raise e) /\
  fs (snd (main cfg w0)) !! e_best = Some (Some c).
Proof.
  intros Hmode HN Hc.
  destruct (main_train_eq cfg w0 Hmode)
    as [(w1 & _ & _ & Hfs & Heq) | (w1 & Hfs & _ & _ & _ & Heq)];
    rewrite Heq; clear Heq.
  - simpl. split; [eauto | congruence].
  - rewrite <- Hfs in Hc.
    destruct (epochs_loop_leftover_best cfg w1 c HN Hc) as [[e He] Hkeep].
    destruct (for_each _ _ w1) as [[[] | e'] w2]; simpl in He, Hkeep;
      [discriminate |].
    simpl. split; [eauto | exact Hkeep].
Qed.

Lemma main_train_leftover_best_witness :
  let cfg := small_config "train" false 2 (Fin 1) in
  let c := @mkCheckpoint small_backend 7 0 tt in
  let w := @set_fs small_backend (<[e_best := Some c]> ∅) small_world in
  mode cfg = "train"%string /\ 1 <= num_epoch cfg /\
  fs w !! e_best = Some (Some c) /\
  fst (@main small_backend cfg w) = Raise (OSError e_best) /\
  fs (snd (@main small_backend cfg w)) !! e_best = Some (Some c).
Proof.
  intros cfg c w.
  assert (H1 : mode cfg = "train"%string) by reflexivity.
  assert (H2 : 1 <= num_epoch cfg) by discriminate.
  assert (H3 : fs w !! e_best = Some (Some c)) by reflexivity.
  destruct (@main_train_leftover_best small_backend cfg w c H1 H2 H3)
    as [_ Hkeep].
  split; [exact H1 |]. split; [exact H2 |]. split; [exact H3 |].
  split; [vm_compute; reflexivity | exact Hkeep].
Defined.

(** X21.  A run in mode ["train"] with [num_epoch <= 0] (and, for the
    transformer, a non-zero training batch size) runs no epoch: it logs ["Start training"] and ["Finished training"] with nothing in
    between, trains and saves nothing, and, unless a checkpoint was left in
    [e_best], stops with [FileNotFoundError] when it loads the best
    model. *)
Theorem main_train_no_epoch {B : Backend} (cfg : Config) (w0 : world) :
  mode cfg = "train"%string ->
  num_epoch cfg <= 0 ->
  (use_BERT cfg = true -> batch_size_train cfg <> 0) ->
  (forall c, fs w0 !! e_best <> Some (Some c)) ->
  let w' := snd (main cfg w0) in
  fst (main cfg w0) = Raise (FileNotFoundError e_best) /\
  trace w' = trace w0 ++ [EvCopyFile; EvLog MsgStartTraining;
                          EvLog MsgFinishedTraining] /\
  fs w' = fs w0 /\
  data_module w' = data_module w0.
Proof.
  intros Hmode HN Hb Hnone w'. subst w'.
  destruct (main_train_eq cfg w0 Hmode)
    as [(w1 & Hu & Hz & _) | (w1 & Hfs & _ & Hd & Htr & Heq)].
  { now contradiction (Hb Hu). }
  rewrite Heq. clear Heq.
  replace (py_range2 1 (num_epoch cfg + 1)) with (@nil Z).
  2:{ unfold py_range2.
      now replace (Z.to_nat (num_epoch cfg + 1 - 1)) with O by lia. }
  change (for_each [] (run_epoch cfg) w1) with (@Ok unit tt, w1).
  cbv iota. rewrite main_finish_eq, Hfs.
  destruct (fs w0 !! e_best) as [[c |] |] eqn:Hbest;
    [now contradiction (Hnone c) | |];
    cbn; rewrite Htr, <- app_assoc; repeat split; assumption.
Qed.

Lemma main_train_no_epoch_witness :
  let cfg := small_config "train" false 0 (Fin 1) in
  mode cfg = "train"%string /\ num_epoch cfg <= 0 /\
  (forall c, fs small_world !! e_best <> Some (Some c)) /\
  fst (@main small_backend cfg small_world) = Raise (FileNotFoundError e_best) /\
  trace (snd (@main small_backend cfg small_world))
    = [EvCopyFile; EvLog MsgStartTraining; EvLog MsgFinishedTraining].
Proof.
  intros cfg.
  assert (H1 : mode cfg = "train"%string) by reflexivity.
  assert (H2 : num_epoch cfg <= 0) by discriminate.
  assert (H3 : forall c, fs small_world !! e_best <> Some (Some c))
    by (intros c; discriminate).
  destruct (@main_train_no_epoch small_backend cfg small_world H1 H2
              ltac:(discriminate) H3) as (Hraise & Htr & _).
  split; [exact H1 |]. split; [exact H2 |]. split; [exact H3 |].
  split; [exact Hraise |]. rewrite Htr. reflexivity.
Defined.
